(** * WildCodeBench annotation tasks: a shallow embedding

    Each task of the repository is one Python function.  They are embedded
    here one module per task, on top of a small common model of Python values
    ([Py]), of exceptions and mutable state ([Eff]) and of the [datetime]
    arithmetic the tasks rely on ([Datetime]).

    Conventions.
    - A Python [int] is a [Z].  Where a task only compares, adds or scales a
      few random numbers or small integers, a Python [float] is the rational
      it denotes ([Q], kept in lowest terms); for the numerical tasks (the
      z-score, the sampled parabola) floats are binary64 numbers with their
      rounding (Rocq's primitive floats).
    - A Python [dict] is an association list in insertion order.
    - A function that can raise returns a [result]; a function that reads or
      writes the interpreter's state (the random generator, the clock, the
      file system) is a state transformer ([Eff.M]). *)

From Stdlib Require Import ZArith QArith Qround List String Ascii Bool Lia Lqa.
From Stdlib Require Import DecimalString.
From Stdlib Require Floats.
Import ListNotations.

#[local] Open Scope Z_scope.

(* ===================================================================== *)
(** ** Exceptions and state *)
(* ===================================================================== *)

Module Eff.

(** The exception classes the tasks raise or let through. *)
Inductive exn : Type :=
| TypeError
| ValueError
| IndexError
| KeyError
| OverflowError
| ParserError
| EmptyDataError
| OSError
| FileNotFoundError
| FileExistsError
| NotADirectoryError
| IsADirectoryError
| MemoryError
| HostError       (* socket.herror *)
| AddrInfoError.  (* socket.gaierror *)

Inductive result (A : Type) : Type :=
| Ok (a : A)
| Raise (e : exn).
Arguments Ok {A} a.
Arguments Raise {A} e.

(** A computation over a state [S] that may raise. *)
Definition M (S A : Type) : Type := S -> result A * S.

Definition ret {S A} (a : A) : M S A := fun s => (Ok a, s).

Definition raise {S A} (e : exn) : M S A := fun s => (Raise e, s).

Definition bind {S A B} (m : M S A) (k : A -> M S B) : M S B :=
  fun s =>
    match m s with
    | (Ok a, s') => k a s'
    | (Raise e, s') => (Raise e, s')
    end.

(** A pure computation that may raise, as a step. *)
Definition of_result {S A} (r : result A) : M S A := fun s => (r, s).

(** A step that cannot raise. *)
Definition lift {S A} (f : S -> A * S) : M S A :=
  fun s => let (a, s') := f s in (Ok a, s').

(** [for x in l: body x], threading an accumulator. *)
Fixpoint for_each {S A B} (l : list A) (body : B -> A -> M S B) (acc : B)
  : M S B :=
  match l with
  | [] => ret acc
  | x :: l' => bind (body acc x) (for_each l' body)
  end.

(** [try: m  except (caught classes): handler]: an exception of a caught
    class runs the handler, any other one passes through. *)
Definition try_except {S A} (m : M S A) (caught : exn -> bool)
           (handler : M S A) : M S A :=
  fun s =>
    match m s with
    | (Ok a, s') => (Ok a, s')
    | (Raise e, s') => if caught e then handler s' else (Raise e, s')
    end.

End Eff.

Import Eff.

Declare Scope eff_scope.
Delimit Scope eff_scope with eff.
Notation "x <- m ;; k" := (Eff.bind m (fun x => k))
  (at level 61, m at next level, right associativity) : eff_scope.
Notation "m ;;; k" := (Eff.bind m (fun _ => k))
  (at level 61, right associativity) : eff_scope.
#[local] Open Scope eff_scope.

(* ===================================================================== *)
(** ** Python values *)
(* ===================================================================== *)

Module Py.

(** Numbers: [int] or [float]. *)
Inductive pynum : Type :=
| PInt (z : Z)
| PFloat (q : Q).

(** The number a value denotes. *)
Definition num_val (x : pynum) : Q :=
  match x with
  | PInt z => inject_Z z
  | PFloat q => q
  end.

Definition is_float (x : pynum) : bool :=
  match x with
  | PFloat _ => true
  | PInt _ => false
  end.

(** [x + y]: an [int] only when both are. *)
Definition add (x y : pynum) : pynum :=
  match x, y with
  | PInt a, PInt b => PInt (a + b)
  | _, _ => PFloat (Qred (num_val x + num_val y))
  end.

(** The builtin [sum(iterable)]: starts from the int [0]. *)
Definition sum (l : list pynum) : pynum := fold_left add l (PInt 0).

(** [math.pow(x, y)] for an integer [x] and a non-negative integer [y]:
    always a float. *)
Definition math_pow (x : Z) (y : Z) : pynum := PFloat (inject_Z (x ^ y)).

(** [seq[:n]] for [n >= 0]: at most [n] leading elements, never an error. *)
Definition slice_to {A} (l : list A) (n : nat) : list A := firstn n l.

(** [numpy.arange(a, b)] over integers. *)
Definition arange (a b : Z) : list Z :=
  map (fun i => a + Z.of_nat i) (seq 0 (Z.to_nat (b - a))).

(** [range(n)]: empty when [n <= 0]. *)
Definition range (n : Z) : list Z := arange 0 n.

(** [seq[i]] for a list: negative indices count from the end, anything out
    of range raises [IndexError]. *)
Definition getitem {A} (l : list A) (i : Z) : result A :=
  let n := Z.of_nat (List.length l) in
  let j := if i <? 0 then i + n else i in
  if (0 <=? j) && (j <? n) then
    match nth_error l (Z.to_nat j) with
    | Some x => Ok x
    | None => Raise IndexError
    end
  else Raise IndexError.

(** [seq[i] = x] for [0 <= i]: out of range raises [IndexError]. *)
Fixpoint setitem {A} (l : list A) (i : nat) (x : A) : result (list A) :=
  match l, i with
  | [], _ => Raise IndexError
  | _ :: l', O => Ok (x :: l')
  | y :: l', S i' =>
      match setitem l' i' x with
      | Ok r => Ok (y :: r)
      | Raise e => Raise e
      end
  end.

(** A [dict] with string keys, in insertion order. *)
Definition dict (V : Type) : Type := list (string * V).

Fixpoint dict_get {V} (d : dict V) (k : string) : option V :=
  match d with
  | [] => None
  | (k', v) :: d' => if String.eqb k' k then Some v else dict_get d' k
  end.

(** [d[k] = v]: a key already present keeps its place and takes the new
    value; a new key goes last. *)
Fixpoint dict_set {V} (d : dict V) (k : string) (v : V) : dict V :=
  match d with
  | [] => [(k, v)]
  | (k', v') :: d' =>
      if String.eqb k' k then (k', v) :: d' else (k', v') :: dict_set d' k v
  end.

Definition keys {V} (d : dict V) : list string := map fst d.

(** Any Python object a caller can pass where a list of strings is expected. *)
#[warnings="-register-all"]
Inductive pyval : Type :=
| VNone
| VInt (z : Z)
| VFloat (q : Q)
| VStr (s : string)
| VList (l : list pyval).

End Py.

(* ===================================================================== *)
(** ** Task f_843: sums of squares over a fixed range
       (src/data/processed/f_705_xiaoheng_w_doc.py) *)
(* ===================================================================== *)

Module F843.
Import Py.

(** [POSSIBLE_NUMBERS = np.arange(1, 11)] *)
Definition POSSIBLE_NUMBERS : list Z := arange 1 11.

(** [sum(math.pow(x, 2) for x in POSSIBLE_NUMBERS[:len(list_)])] *)
Definition sum_ {A} (list_ : list A) : pynum :=
  Py.sum (map (fun x => math_pow x 2)
              (slice_to POSSIBLE_NUMBERS (List.length list_))).

(** The loop: [sums.append(sum_)] for each sublist in turn. *)
Definition f_843 {A} (list_of_lists : list (list A)) : list pynum :=
  fold_left (fun sums list_ => sums ++ [sum_ list_]) list_of_lists [].

(** The reading of the specification: the first [n] values of 1..10, squared
    and added (as an integer). *)
Fixpoint sum_squares_upto (n : nat) : Z :=
  match n with
  | O => 0
  | S k => sum_squares_upto k + Z.of_nat n * Z.of_nat n
  end.

Definition spec_sum (n : nat) : pynum :=
  match n with
  | O => PInt 0
  | _ => PFloat (inject_Z (sum_squares_upto (Nat.min n 10)))
  end.

End F843.

(* ===================================================================== *)
(** ** The [datetime] module, as far as the tasks use it

    The proleptic Gregorian calendar of CPython's [datetime]: a date is
    its ordinal (day 1 is 0001-01-01), which is how [datetime] itself does
    day arithmetic ([toordinal], [fromordinal]) and computes [weekday]. *)
(* ===================================================================== *)

Module Datetime.

Definition MINYEAR : Z := 1.
Definition MAXYEAR : Z := 9999.
(** [date(9999, 12, 31).toordinal()] *)
Definition MAXORDINAL : Z := 3652059.

Definition is_leap (year : Z) : bool :=
  (year mod 4 =? 0) && (negb (year mod 100 =? 0) || (year mod 400 =? 0)).

Definition days_before_year (year : Z) : Z :=
  let y := year - 1 in y * 365 + y / 4 - y / 100 + y / 400.

Definition DAYS_IN_MONTH : list Z :=
  [-1; 31; 28; 31; 30; 31; 30; 31; 31; 30; 31; 30; 31].

Definition DAYS_BEFORE_MONTH : list Z :=
  [-1; 0; 31; 59; 90; 120; 151; 181; 212; 243; 273; 304; 334].

Definition days_in_month (year month : Z) : Z :=
  if (month =? 2) && is_leap year then 29
  else nth (Z.to_nat month) DAYS_IN_MONTH 0.

Definition days_before_month (year month : Z) : Z :=
  nth (Z.to_nat month) DAYS_BEFORE_MONTH 0
  + (if (2 <? month) && is_leap year then 1 else 0).

Definition ymd2ord (year month day : Z) : Z :=
  days_before_year year + days_before_month year month + day.

Definition DI400Y : Z := 146097.
Definition DI100Y : Z := 36524.
Definition DI4Y : Z := 1461.

(** [_ord2ymd]: ordinal to (year, month, day). *)
Definition ord2ymd (n : Z) : Z * Z * Z :=
  let n := n - 1 in
  let n400 := n / DI400Y in
  let n := n mod DI400Y in
  let year := n400 * 400 + 1 in
  let n100 := n / DI100Y in
  let n := n mod DI100Y in
  let n4 := n / DI4Y in
  let n := n mod DI4Y in
  let n1 := n / 365 in
  let n := n mod 365 in
  let year := year + n100 * 100 + n4 * 4 + n1 in
  if (n1 =? 4) || (n100 =? 4) then (year - 1, 12, 31)
  else
    let leapyear := (n1 =? 3) && (negb (n4 =? 24) || (n100 =? 3)) in
    let month := Z.shiftr (n + 50) 5 in
    let preceding :=
      nth (Z.to_nat month) DAYS_BEFORE_MONTH 0
      + (if (2 <? month) && leapyear then 1 else 0) in
    if n <? preceding then
      let month := month - 1 in
      let preceding :=
        preceding - (nth (Z.to_nat month) DAYS_IN_MONTH 0
                     + (if (month =? 2) && leapyear then 1 else 0)) in
      (year, month, n - preceding + 1)
    else (year, month, n - preceding + 1).

(** The month and day of day [n] (counted from 0) of a year: the second half
    of [_ord2ymd] on its own. *)
Definition month_day (leapyear : bool) (n : Z) : Z * Z :=
  let month := Z.shiftr (n + 50) 5 in
  let preceding :=
    nth (Z.to_nat month) DAYS_BEFORE_MONTH 0
    + (if (2 <? month) && leapyear then 1 else 0) in
  if n <? preceding then
    let month := month - 1 in
    let preceding :=
      preceding - (nth (Z.to_nat month) DAYS_IN_MONTH 0
                   + (if (month =? 2) && leapyear then 1 else 0)) in
    (month, n - preceding + 1)
  else (month, n - preceding + 1).

(** [month_day] lands in a month, on one of its days, at the right distance
    from the start of the year. *)
Definition month_day_ok (leapyear : bool) (n : Z) : bool :=
  let (m, d) := month_day leapyear n in
  (1 <=? m) && (m <=? 12) && (1 <=? d)
  && (d <=? (if (m =? 2) && leapyear then 29
             else nth (Z.to_nat m) DAYS_IN_MONTH 0))
  && (nth (Z.to_nat m) DAYS_BEFORE_MONTH 0
      + (if (2 <? m) && leapyear then 1 else 0) + d =? n + 1).

(** A naive [datetime]: the date as its ordinal, and the time of day. *)
Record datetime : Type := mkDatetime {
  ordinal : Z;
  hour : Z;
  minute : Z;
  second : Z;
  microsecond : Z
}.

Definition valid (d : datetime) : Prop :=
  1 <= ordinal d <= MAXORDINAL /\ 0 <= hour d < 24 /\ 0 <= minute d < 60
  /\ 0 <= second d < 60 /\ 0 <= microsecond d < 1000000.

Definition validb (d : datetime) : bool :=
  (1 <=? ordinal d) && (ordinal d <=? MAXORDINAL)
  && (0 <=? hour d) && (hour d <? 24) && (0 <=? minute d) && (minute d <? 60)
  && (0 <=? second d) && (second d <? 60)
  && (0 <=? microsecond d) && (microsecond d <? 1000000).

(** The constructor [datetime(year, month, day, hour, minute, second, us)]. *)
Definition make (y m d hh mm ss us : Z) : result datetime :=
  if (MINYEAR <=? y) && (y <=? MAXYEAR) && (1 <=? m) && (m <=? 12)
     && (1 <=? d) && (d <=? days_in_month y m)
     && (0 <=? hh) && (hh <? 24) && (0 <=? mm) && (mm <? 60)
     && (0 <=? ss) && (ss <? 60) && (0 <=? us) && (us <? 1000000)
  then Ok (mkDatetime (ymd2ord y m d) hh mm ss us)
  else Raise ValueError.

(** [datetime(year, month, day)] of a date known to exist. *)
Definition date (y m d : Z) : datetime := mkDatetime (ymd2ord y m d) 0 0 0 0.

Definition toordinal (d : datetime) : Z := ordinal d.

(** [weekday()]: Monday is 0, Sunday is 6. *)
Definition weekday (d : datetime) : Z := (toordinal d + 6) mod 7.

(** A normalised [timedelta]. *)
Record timedelta : Type := mkTimedelta {
  days : Z;
  seconds : Z;
  microseconds : Z
}.

(** [timedelta(days, seconds, microseconds)]: carries microseconds into
    seconds and seconds into days, with floor division. *)
Definition timedelta_new (d s us : Z) : timedelta :=
  let s := s + us / 1000000 in
  mkTimedelta (d + s / 86400) (s mod 86400) (us mod 1000000).

Definition timedelta_add (a b : timedelta) : timedelta :=
  timedelta_new (days a + days b) (seconds a + seconds b)
                (microseconds a + microseconds b).

(** [datetime.__add__]: through a timedelta counted from ordinal 0; a result
    outside 1..MAXORDINAL raises [OverflowError]. *)
Definition add (self : datetime) (other : timedelta) : result datetime :=
  let delta :=
    timedelta_add
      (timedelta_new (toordinal self)
                     (hour self * 3600 + minute self * 60 + second self)
                     (microsecond self))
      other in
  let hh := seconds delta / 3600 in
  let rem := seconds delta mod 3600 in
  let mm := rem / 60 in
  let ss := rem mod 60 in
  if (0 <? days delta) && (days delta <=? MAXORDINAL)
  then Ok (mkDatetime (days delta) hh mm ss (microseconds delta))
  else Raise OverflowError.

(** [datetime.__sub__] of two naive datetimes. *)
Definition sub (self other : datetime) : timedelta :=
  let secs1 := second self + minute self * 60 + hour self * 3600 in
  let secs2 := second other + minute other * 60 + hour other * 3600 in
  timedelta_new (toordinal self - toordinal other) (secs1 - secs2)
                (microsecond self - microsecond other).

(** Microseconds since the start of day 0: the order of naive datetimes. *)
Definition total_us (d : datetime) : Z :=
  ((ordinal d * 24 + hour d) * 60 + minute d) * 60 * 1000000
  + second d * 1000000 + microsecond d.

(** *** A concrete clock conversion and formatter for the worked examples *)

(** Round to the nearest integer, ties to even. *)
Definition round_half_even (x : Q) : Z :=
  let f := Qfloor x in
  match ((x - inject_Z f) ?= 1 # 2)%Q with
  | Lt => f
  | Gt => f + 1
  | Eq => if Z.even f then f else f + 1
  end.

(** Ordinal of 1970-01-01. *)
Definition EPOCH_ORDINAL : Z := 719163.

(** [datetime.fromtimestamp] for a machine whose local time is UTC; a
    timestamp outside years 1..9999 raises [ValueError]. *)
Definition fromtimestamp_utc (t : Q) : result datetime :=
  let us := round_half_even (t * 1000000) in
  let day := us / 86400000000 in
  let rest := us mod 86400000000 in
  let o := EPOCH_ORDINAL + day in
  if (1 <=? o) && (o <=? MAXORDINAL) then
    Ok (mkDatetime o (rest / 3600000000) ((rest / 60000000) mod 60)
                   ((rest / 1000000) mod 60) (rest mod 1000000))
  else Raise ValueError.

Definition digit_char (n : Z) : ascii := ascii_of_nat (48 + Z.to_nat (n mod 10)).

(** Decimal digits of [n], left-padded with zeros to [width] characters. *)
Fixpoint pad (width : nat) (n : Z) : string :=
  match width with
  | O => EmptyString
  | S w => (pad w (n / 10) ++ String (digit_char n) EmptyString)%string
  end.

(** [strftime] for the two formats the tasks use; any other format is
    returned unexpanded. *)
Definition strftime_iso (d : datetime) (format : string) : string :=
  let '(y, m, dd) := ord2ymd (ordinal d) in
  let seconds_part :=
    (pad 4 y ++ "-" ++ pad 2 m ++ "-" ++ pad 2 dd ++ " "
     ++ pad 2 (hour d) ++ ":" ++ pad 2 (minute d) ++ ":" ++ pad 2 (second d)
    )%string in
  if String.eqb format "%Y-%m-%d %H:%M:%S" then seconds_part
  else if String.eqb format "%Y-%m-%d %H:%M:%S.%f"
       then (seconds_part ++ "." ++ pad 6 (microsecond d))%string
       else format.

End Datetime.


(* ===================================================================== *)
(** ** Pseudo-random generators

    The generators behind [random] and [numpy.random] are not part of the
    repository.  A generator is a state with one primitive, a draw of an
    integer below a bound; the wrappers the tasks call are written over it as
    the libraries define them. *)
(* ===================================================================== *)

Module Random.

Class Generator : Type := {
  gstate : Type;
  (** the state [seed(a)] installs: a function of [a] alone *)
  seed_state : Z -> gstate;
  (** one step of the generator when an integer below [n] is asked for: an
      integer (reduced modulo [n] by the caller) and the next state *)
  step : Z -> gstate -> Z * gstate
}.

Section Wrappers.
Context {G : Generator}.

(** An integer drawn from [0, n), for [n > 0]. *)
Definition next_below (n : Z) (s : gstate) : Z * gstate :=
  let (x, s') := step n s in (x mod n, s').

(** [random.random()]: a 53-bit integer scaled to [0, 1). *)
Definition random (s : gstate) : Q * gstate :=
  let (k, s') := next_below (2 ^ 53) s in
  (inject_Z k / inject_Z (2 ^ 53), s')%Q.

(** [random.uniform(a, b)]: [a + (b - a) * random()]. *)
Definition uniform (a b : Q) (s : gstate) : Q * gstate :=
  let (r, s') := random s in
  (Qred (a + (b - a) * r), s')%Q.

(** [random.randint(a, b)]: [randrange(a, b + 1)], with both ends included;
    an empty range raises [ValueError]. *)
Definition randint (a b : Z) (s : gstate) : result Z * gstate :=
  if 0 <? b - a + 1 then
    let (k, s') := next_below (b - a + 1) s in (Ok (a + k), s')
  else (Raise ValueError, s).

(** One element of [numpy.random.randint(low, high)]: from [low, high). *)
Definition np_randint1 (low high : Z) (s : gstate) : Z * gstate :=
  let (k, s') := next_below (high - low) s in (low + k, s').

(** [n] successive draws, first draw first. *)
Fixpoint draw_list (n : nat) (low high : Z) (s : gstate)
  : list Z * gstate :=
  match n with
  | O => ([], s)
  | S n' =>
      let (x, s1) := np_randint1 low high s in
      let (xs, s2) := draw_list n' low high s1 in
      (x :: xs, s2)
  end.

(** [rows] rows of [cols] draws each, filled in row-major order. *)
Fixpoint draw_matrix (rows cols : nat) (low high : Z) (s : gstate)
  : list (list Z) * gstate :=
  match rows with
  | O => ([], s)
  | S rows' =>
      let (r, s1) := draw_list cols low high s in
      let (rs, s2) := draw_matrix rows' cols low high s1 in
      (r :: rs, s2)
  end.

End Wrappers.

(** A concrete generator for the worked examples: a 64-bit linear
    congruential generator (not CPython's Mersenne Twister).  Seeding
    ignores the sign, as CPython does for integer seeds. *)
Definition lcg_step (s : Z) : Z :=
  (s * 6364136223846793005 + 1442695040888963407) mod 2 ^ 64.

Definition lcg : Generator := {|
  gstate := Z;
  seed_state := fun a => Z.abs a mod 2 ^ 64;
  step := fun _ s => let s' := lcg_step s in (s' / 2 ^ 11, s')
|}.

End Random.

(* ===================================================================== *)
(** ** Task f_32: the next business day
       (src/data/processed/f_509_ming_wo_doc.py) *)
(* ===================================================================== *)

Module F32.
Import Datetime.

(** What running the [while True] loop for a bounded number of iterations
    gives: a returned value, an exception, or no answer yet. *)
Inductive outcome (A : Type) : Type :=
| Returned (a : A)
| Raised (e : exn)
| OutOfFuel.
Arguments Returned {A} a.
Arguments Raised {A} e.
Arguments OutOfFuel {A}.

(** [0 <= next_day.weekday() < 5] *)
Definition is_business_day (d : datetime) : bool :=
  (0 <=? weekday d) && (weekday d <? 5).

(** The loop of [f_32]; [fuel] bounds the number of iterations.
[[
  while True:
      next_day = next_day + timedelta(days=1)
      if 0 <= next_day.weekday() < 5:
          break
  return next_day
]] *)
Fixpoint advance (fuel : nat) (next_day : datetime) : outcome datetime :=
  match fuel with
  | O => OutOfFuel
  | S fuel' =>
      match add next_day (timedelta_new 1 0 0) with
      | Raise e => Raised e
      | Ok next_day' =>
          if is_business_day next_day' then Returned next_day'
          else advance fuel' next_day'
      end
  end.

(** The datetime [n] days after [d], same time of day. *)
Definition shift (d : datetime) (n : Z) : datetime :=
  mkDatetime (ordinal d + n) (hour d) (minute d) (second d) (microsecond d).

(** Monday to Friday, for the date with ordinal [o]. *)
Definition business_ordinal (o : Z) : bool :=
  (0 <=? (o + 6) mod 7) && ((o + 6) mod 7 <? 5).

(** Number of days from a date with weekday [w] to the next business day. *)
Definition gap (w : Z) : Z :=
  if w =? 4 then 3 else if w =? 5 then 2 else 1.

Section WithParser.
(** [dateutil.parser.parse]: not part of the repository. *)
Variable parse : string -> result datetime.

Definition f_32 (fuel : nat) (date_str : string) : outcome datetime :=
  match parse date_str with
  | Raise e => Raised e
  | Ok given_date => advance fuel given_date
  end.
End WithParser.

(** *** A parser for the documented format "yyyy-mm-dd" *)

Definition digit_of (c : ascii) : option Z :=
  let n := Z.of_nat (nat_of_ascii c) in
  if (48 <=? n) && (n <=? 57) then Some (n - 48) else None.

Fixpoint digits_value (acc : Z) (l : list ascii) : option Z :=
  match l with
  | [] => Some acc
  | c :: l' =>
      match digit_of c with
      | Some v => digits_value (acc * 10 + v) l'
      | None => None
      end
  end.

Definition dash : ascii := "-"%char.

(** Accepts exactly four digits, a dash, two digits, a dash, two digits that
    name an existing date; anything else is a parse error. *)
Definition parse_iso (date_str : string) : result datetime :=
  match list_ascii_of_string date_str with
  | [y1; y2; y3; y4; s1; m1; m2; s2; d1; d2] =>
      if Ascii.eqb s1 dash && Ascii.eqb s2 dash then
        match digits_value 0 [y1; y2; y3; y4],
              digits_value 0 [m1; m2], digits_value 0 [d1; d2] with
        | Some y, Some m, Some d =>
            match make y m d 0 0 0 0 with
            | Ok dt => Ok dt
            | Raise _ => Raise ParserError
            end
        | _, _, _ => Raise ParserError
        end
      else Raise ParserError
  | _ => Raise ParserError
  end.

End F32.

(* ===================================================================== *)
(** ** Task f_391: a random table of computed shape
       (src/data/processed/f_481_ming_w_doc.py) *)
(* ===================================================================== *)

Module F391.
Import Py Random.

(** [RANGE = (1, 100)] *)
Definition RANGE : Z * Z := (1, 100).

(** A 2-D integer array or the [DataFrame] that wraps it: its shape and its
    rows.  The shape is kept apart from the rows because an array with no row
    still has a column count. *)
Record table : Type := mkTable {
  shape : Z * Z;
  values : list (list Z)
}.

Section WithGenerator.
Context {G : Generator}.

(** What numpy answers when asked for the memory of an int64 array of a
    shape without negative dimension: [Ok], or the exception it raises when
    the shape is beyond its index range ([ValueError]) or needs more memory
    than the machine gives ([MemoryError]).  Not part of the repository. *)
Variable allocate : Z * Z -> result unit.

(** [np.random.randint(low, high, size=(rows, columns))]: [ValueError] when
    [low >= high] or a dimension is negative; then the array is allocated,
    which can fail; then it is filled. *)
Definition np_random_randint (low high : Z) (size : Z * Z)
  : M gstate table :=
  let (rows, columns) := size in
  if high <=? low then raise ValueError
  else if (rows <? 0) || (columns <? 0) then raise ValueError
  else
    of_result (allocate size) ;;;
    lift (fun s =>
            let (m, s') :=
              draw_matrix (Z.to_nat rows) (Z.to_nat columns) low high s in
            (mkTable (rows, columns) m, s')).

(** [pd.DataFrame(random_array)]: same shape, same values. *)
Definition DataFrame (a : table) : table := a.

(** [rows, columns = L[0][0] * L[0][1], L[1][0] * L[1][1]] and the rest. *)
Definition f_391 (L : list (list Z)) : M gstate table :=
  L0 <- of_result (getitem L 0) ;;
  a <- of_result (getitem L0 0) ;;
  b <- of_result (getitem L0 1) ;;
  L1 <- of_result (getitem L 1) ;;
  c <- of_result (getitem L1 0) ;;
  d <- of_result (getitem L1 1) ;;
  let rows := a * b in
  let columns := c * d in
  random_array <-
    np_random_randint (fst RANGE) (snd RANGE) (rows, columns) ;;
  let df := DataFrame random_array in
  ret df.

(** The function once the four integers [a], [b], [c], [d] have been read,
    written out: the reference the facts below compare [f_391] with. *)
Definition after_reading (a b c d : Z) (s : gstate) : result table * gstate :=
  if (a * b <? 0) || (c * d <? 0) then (Raise ValueError, s)
  else
    match allocate (a * b, c * d) with
    | Raise e => (Raise e, s)
    | Ok _ =>
        let (m, s') :=
          draw_matrix (Z.to_nat (a * b)) (Z.to_nat (c * d)) 1 100 s in
        (Ok (mkTable (a * b, c * d) m), s')
    end.

End WithGenerator.

(** The allocation of a 64-bit numpy on a machine that gives at most [memory]
    bytes.  A dimension, or the byte count of the dimensions that are not 0,
    beyond [2^63 - 1] is refused with [ValueError]; a request for more than
    [memory] bytes with [MemoryError].  An int64 takes 8 bytes. *)
Definition numpy_allocate (memory : Z) (size : Z * Z) : result unit :=
  let (rows, columns) := size in
  let counted n := if n =? 0 then 1 else n in
  if (2 ^ 63 - 1 <? rows) || (2 ^ 63 - 1 <? columns)
     || (2 ^ 63 - 1 <? 8 * counted rows * counted columns)
  then Raise ValueError
  else if memory <? 8 * rows * columns then Raise MemoryError
  else Ok tt.

(** The machine of the worked examples: 16 GiB. *)
Definition example_allocate : Z * Z -> result unit :=
  numpy_allocate (16 * 2 ^ 30).

End F391.

(* ===================================================================== *)
(** ** Regular expressions, as far as [re.match] is used *)
(* ===================================================================== *)

Module Regex.

Inductive regex : Type :=
| Empty                                  (* matches nothing *)
| Eps                                    (* the empty string *)
| Class (p : ascii -> bool)              (* one character of a class *)
| Cat (r1 r2 : regex)
| Alt (r1 r2 : regex)
| Star (r : regex).

(** [r+] *)
Definition Plus (r : regex) : regex := Cat r (Star r).

(** [r{n}] *)
Fixpoint Times (n : nat) (r : regex) : regex :=
  match n with
  | O => Eps
  | S n' => Cat r (Times n' r)
  end.

(** The language of a regular expression. *)
Inductive matches : regex -> list ascii -> Prop :=
| MEps : matches Eps []
| MClass p c : p c = true -> matches (Class p) [c]
| MCat r1 r2 u v : matches r1 u -> matches r2 v -> matches (Cat r1 r2) (u ++ v)
| MAltL r1 r2 u : matches r1 u -> matches (Alt r1 r2) u
| MAltR r1 r2 u : matches r2 u -> matches (Alt r1 r2) u
| MStarNil r : matches (Star r) []
| MStarCons r u v :
    matches r u -> matches (Star r) v -> matches (Star r) (u ++ v).

Fixpoint nullable (r : regex) : bool :=
  match r with
  | Empty => false
  | Eps => true
  | Class _ => false
  | Cat r1 r2 => nullable r1 && nullable r2
  | Alt r1 r2 => nullable r1 || nullable r2
  | Star _ => true
  end.

(** Brzozowski derivative. *)
Fixpoint deriv (c : ascii) (r : regex) : regex :=
  match r with
  | Empty => Empty
  | Eps => Empty
  | Class p => if p c then Eps else Empty
  | Cat r1 r2 =>
      if nullable r1 then Alt (Cat (deriv c r1) r2) (deriv c r2)
      else Cat (deriv c r1) r2
  | Alt r1 r2 => Alt (deriv c r1) (deriv c r2)
  | Star r1 => Cat (deriv c r1) (Star r1)
  end.

(** Does some prefix of the input belong to the language? *)
Fixpoint prefix_matches (r : regex) (l : list ascii) : bool :=
  nullable r
  || match l with
     | [] => false
     | c :: l' => prefix_matches (deriv c r) l'
     end.

(** [re.match(pattern, string)] as a truth value: the pattern matches at the
    start of the string (not necessarily all of it). *)
Definition re_match (pattern : regex) (s : string) : bool :=
  prefix_matches pattern (list_ascii_of_string s).

(** [[0-9]] *)
Definition digit (c : ascii) : bool :=
  let n := nat_of_ascii c in (48 <=? n)%nat && (n <=? 57)%nat.

(** [\.] *)
Definition dot (c : ascii) : bool := Ascii.eqb c "."%char.

End Regex.

(* ===================================================================== *)
(** ** Task f_220: reverse DNS over a list of addresses
       (src/data/clean/f_220_haolan_ratna_edit.py) *)
(* ===================================================================== *)

Module F220.
Import Py Regex.

(** [IP_REGEX = r'[0-9]+(?:\.[0-9]+){3}'] *)
Definition IP_REGEX : regex :=
  Cat (Plus (Class digit)) (Times 3 (Cat (Class dot) (Plus (Class digit)))).

(** What the pattern says: a non-empty run of digits, *)
Definition digits (l : list ascii) : Prop :=
  l <> [] /\ Forall (fun c => digit c = true) l.

(** four of them separated by dots, *)
Definition dotted_quad (u : list ascii) : Prop :=
  exists a b c d : list ascii,
    u = a ++ "."%char :: b ++ "."%char :: c ++ "."%char :: d
    /\ digits a /\ digits b /\ digits c /\ digits d.

(** at the start of the string. *)
Definition starts_with_dotted_quad (s : string) : Prop :=
  exists u rest : list ascii,
    list_ascii_of_string s = u ++ rest /\ dotted_quad u.

(** What [socket.gethostbyaddr] returns: (hostname, aliaslist, ipaddrlist). *)
Definition hostent : Type := string * list string * list string.

(** [except (socket.herror, socket.gaierror)] *)
Definition resolution_error (e : exn) : bool :=
  match e with
  | HostError | AddrInfoError => true
  | _ => false
  end.

(** The distinct elements of a list, each at the place of its first
    occurrence. *)
Fixpoint first_seen (l : list string) : list string :=
  match l with
  | [] => []
  | x :: l' => x :: filter (fun y => negb (String.eqb x y)) (first_seen l')
  end.

(** [k not in d.keys()] *)
Definition absent (ks : list string) (k : string) : bool :=
  negb (existsb (String.eqb k) ks).

(** The value stored for an address: nothing, or a non-empty name. *)
Definition value_ok (v : option string) : Prop :=
  v = None \/ exists h : string, v = Some h /\ h <> EmptyString.

Section WithResolver.
(** The state of the network and of the resolver. *)
Variable net : Type.
(** [socket.gethostbyaddr]: not part of the repository. *)
Variable gethostbyaddr : string -> M net hostent.

(** The body of the loop for one address. *)
Definition visit (hostnames : dict (option string)) (ip : string)
  : M net (dict (option string)) :=
  if re_match IP_REGEX ip then
    try_except
      (ent <- gethostbyaddr ip ;;
       let hostname := fst (fst ent) in
       ret (dict_set hostnames ip (Some hostname)))
      resolution_error
      (ret (dict_set hostnames ip None))
  else ret hostnames.

Definition f_220 (ip_addresses : list string) : M net (dict (option string)) :=
  for_each ip_addresses visit [].

End WithResolver.

(** A resolver for the worked example: one known address, one lookup that
    fails with [herror]. *)
Definition example_resolver (ip : string) : M nat hostent :=
  fun lookups =>
    if String.eqb ip "8.8.8.8"
    then (Ok ("dns.google"%string, [], [ip]), S lookups)
    else (Raise HostError, S lookups).

End F220.

(* ===================================================================== *)
(** ** Task task_func: synthetic performance series
       (src/data/processed/493_wo_doc.py) *)
(* ===================================================================== *)

Module Perf.
Import Py Random Datetime.

(** A matplotlib figure, as far as the function fills it in: the plotted
    lines (x values, y values, label), the axis labels, the legend. *)
Record figure : Type := mkFigure {
  plotted : list (list Z * list pynum * string);
  xlabel : string;
  ylabel : string;
  legend : bool
}.

(** A stored performance: a float between 0.1 and 1.0. *)
Definition good (x : pynum) : Prop :=
  is_float x = true /\ (1 # 10 <= num_val x /\ num_val x <= 1)%Q.

(** A series in which the first [i] days are filled in and [m] days are
    still the initial int 0. *)
Definition series_inv (i m : nat) (kv : string * list pynum) : Prop :=
  exists goods : list pynum,
    List.length goods = i /\ Forall good goods
    /\ snd kv = goods ++ repeat (PInt 0) m.

(** A value that is a list of strings. *)
Definition list_of_str (teams : pyval) : Prop :=
  exists names : list string, teams = VList (map VStr names).

Section WithGenerator.
Context {G : Generator}.

(** The interpreter state the function touches: the state of the [random]
    module and the clock.  [drawn] is instrumentation: the values
    [random.uniform] has produced so far, oldest first. *)
Record state : Type := mkState {
  rng : gstate;
  drawn : list Q;
  clock : datetime
}.

(** [datetime.fromtimestamp] (to local time) and [strftime]: not part of
    the repository. *)
Variable fromtimestamp : Q -> result datetime.
Variable strftime : datetime -> string -> string.

(** [random.seed(random_seed)] *)
Definition random_seed_ (a : Z) : M state unit :=
  fun st => (Ok tt, mkState (seed_state a) (drawn st) (clock st)).

(** [random.uniform(a, b)] *)
Definition random_uniform (a b : Q) : M state Q :=
  fun st =>
    let (x, r') := uniform a b (rng st) in
    (Ok x, mkState r' (drawn st ++ [x]) (clock st)).

(** [datetime.now()] *)
Definition datetime_now : M state datetime := fun st => (Ok (clock st), st).

Definition isinstance_str (v : pyval) : bool :=
  match v with
  | VStr _ => true
  | _ => false
  end.

Definition str_value (v : pyval) : string :=
  match v with
  | VStr s => s
  | _ => EmptyString
  end.

(** [isinstance(teams, list) and all(isinstance(t, str) for t in teams)] *)
Definition teams_are_strings (teams : pyval) : bool :=
  match teams with
  | VList l => forallb isinstance_str l
  | _ => false
  end.

Definition team_names (teams : pyval) : list string :=
  match teams with
  | VList l => map str_value l
  | _ => []
  end.

(** [{team: [0] * days_diff for team in teams}] *)
Definition initial_data (names : list string) (days_diff : Z)
  : dict (list pynum) :=
  fold_left
    (fun d team => dict_set d team (repeat (PInt 0) (Z.to_nat days_diff)))
    names [].

(** [performance_data[team][i] += performance] *)
Definition add_at (performance_data : dict (list pynum)) (team : string)
           (i : Z) (performance : Q) : M state (dict (list pynum)) :=
  match dict_get performance_data team with
  | None => raise KeyError
  | Some series =>
      match getitem series i with
      | Raise e => raise e
      | Ok old =>
          match setitem series (Z.to_nat i) (Py.add old (PFloat performance))
          with
          | Raise e => raise e
          | Ok series' => ret (dict_set performance_data team series')
          end
      end
  end.

(** One draw and one update: the body of the inner loop. *)
Definition day_body (i : Z) (performance_data : dict (list pynum))
           (team : string) : M state (dict (list pynum)) :=
  performance <- random_uniform (1 # 10) 1 ;;
  add_at performance_data team i performance.

(** The two nested loops that fill the series in. *)
Definition fill (names : list string) (days_diff : Z)
           (performance_data : dict (list pynum))
  : M state (dict (list pynum)) :=
  for_each (range days_diff)
    (fun performance_data i => for_each names (day_body i) performance_data)
    performance_data.

(** A series whose first [i] entries are set and whose last [m] entries are
    still the initial 0. *)
Definition shaped (i m : nat) (kv : string * list pynum) : Prop :=
  exists pre : list pynum,
    List.length pre = i /\ snd kv = pre ++ repeat (PInt 0) m.

(** Day [i] of a series set to [u]; [m] days are left. *)
Definition set_day (i m : nat) (kvu : (string * list pynum) * Q)
  : string * list pynum :=
  (fst (fst kvu),
   firstn i (snd (fst kvu)) ++ PFloat (snd kvu) :: repeat (PInt 0) m).

(** The days from [i] on set to the values of a column. *)
Definition set_days (i : nat) (kvc : (string * list pynum) * list Q)
  : string * list pynum :=
  (fst (fst kvc), firstn i (snd (fst kvc)) ++ map PFloat (snd kvc)).

(** *** The values the loops draw, in the order they are drawn *)

(** [n] successive values of [random.uniform(0.1, 1)]. *)
Fixpoint uniform_list (n : nat) (g : gstate) : list Q * gstate :=
  match n with
  | O => ([], g)
  | S n' =>
      let (u, g1) := uniform (1 # 10) 1 g in
      let (us, g2) := uniform_list n' g1 in
      (u :: us, g2)
  end.

(** One row of [width] values per day. *)
Fixpoint draw_rows (days_ width : nat) (g : gstate)
  : list (list Q) * gstate :=
  match days_ with
  | O => ([], g)
  | S days' =>
      let (row, g1) := uniform_list width g in
      let (rows, g2) := draw_rows days' width g1 in
      (row :: rows, g2)
  end.

(** The rows read by columns: column [j] holds the [j]-th value of every
    row. *)
Fixpoint columns_of (width : nat) (rows : list (list Q)) : list (list Q) :=
  match rows with
  | [] => repeat [] width
  | row :: rows' =>
      map (fun uc => fst uc :: snd uc) (combine row (columns_of width rows'))
  end.

(** The mapping for distinct team names, read off the generator: team [j]
    gets column [j]. *)
Definition expected_data (names : list string) (days_ : nat) (g : gstate)
  : dict (list pynum) :=
  map (fun nc => (fst nc, map PFloat (snd nc)))
      (combine names
               (columns_of (List.length names)
                           (fst (draw_rows days_ (List.length names) g)))).

Definition make_figure (start_time : datetime) (days_diff : Z)
           (performance_data : dict (list pynum)) : figure :=
  mkFigure
    (map (fun kv => (range days_diff, snd kv, fst kv)) performance_data)
    ("Days since " ++ strftime start_time "%Y-%m-%d %H:%M:%S")%string
    "Performance"
    true.

Definition task_func (epoch_milliseconds : Z) (teams : pyval)
           (random_seed : Z) : M state (dict (list pynum) * figure) :=
  random_seed_ random_seed ;;;
  if negb (teams_are_strings teams) then raise TypeError
  else
    start_time <-
      of_result (fromtimestamp (inject_Z epoch_milliseconds / 1000)) ;;
    current_time <- datetime_now ;;
    let days_diff := days (sub current_time start_time) in
    if days_diff <? 0 then raise ValueError
    else
      let names := team_names teams in
      performance_data <-
        fill names days_diff (initial_data names days_diff) ;;
      let fig := make_figure start_time days_diff performance_data in
      ret (performance_data, fig).

(** Two states are alike when they agree on the generator and on the clock
    (the record of the numbers drawn is instrumentation); a computation
    respects this when, run from two alike states, it gives the same result
    and leaves alike states. *)
Definition alike (st1 st2 : state) : Prop :=
  rng st1 = rng st2 /\ clock st1 = clock st2.

Definition respects {A} (m : M state A) : Prop :=
  forall st1 st2, alike st1 st2 ->
    fst (m st1) = fst (m st2) /\ alike (snd (m st1)) (snd (m st2)).

End WithGenerator.

(** [teams=["Team1", "Team2", "Team3", "Team4", "Team5"]] *)
Definition default_teams : pyval :=
  VList [VStr "Team1"; VStr "Team2"; VStr "Team3"; VStr "Team4"; VStr "Team5"].

(** The state of the worked examples: noon of 2021-09-13 on the clock, an
    arbitrary generator state, nothing drawn yet. *)
Definition example_state : state (G := lcg) :=
  mkState (G := lcg) 12345 [] (mkDatetime (ymd2ord 2021 9 13) 12 0 0 0).

End Perf.

(* ===================================================================== *)
(** ** Task f_410: hourly traffic counts written to a CSV file
       (src/data/processed/f_456_ming_wo_doc.py) *)
(* ===================================================================== *)

Module F410.
Import Py Random Datetime.

(** [VEHICLE_TYPES = ['Car', 'Bus', 'Truck', 'Bike']] *)
Definition VEHICLE_TYPES : list string := ["Car"; "Bus"; "Truck"; "Bike"]%string.

(** A value handed to [csv.writer]. *)
Inductive cell : Type :=
| CStr (s : string)
| CInt (z : Z).

(** [str(x)] *)
Definition cell_text (c : cell) : string :=
  match c with
  | CStr s => s
  | CInt z => NilZero.string_of_int (Z.to_int z)
  end.

Definition quote_char : ascii := ascii_of_nat 34.
Definition quote : string := String quote_char EmptyString.

(** Characters that make [csv.writer] quote a field (QUOTE_MINIMAL): the
    delimiter, the quote character, carriage return and line feed. *)
Definition is_special (c : ascii) : bool :=
  let n := nat_of_ascii c in
  (n =? 44)%nat || (n =? 34)%nat || (n =? 13)%nat || (n =? 10)%nat.

Fixpoint needs_quoting (s : string) : bool :=
  match s with
  | EmptyString => false
  | String c s' => is_special c || needs_quoting s'
  end.

(** The quote character doubled wherever it stands. *)
Fixpoint escape_quotes (s : string) : string :=
  match s with
  | EmptyString => EmptyString
  | String c s' =>
      if Ascii.eqb c quote_char
      then String c (String c (escape_quotes s'))
      else String c (escape_quotes s')
  end.

Definition csv_field (c : cell) : string :=
  let s := cell_text c in
  if needs_quoting s then (quote ++ escape_quotes s ++ quote)%string else s.

(** One record as [csv.writer.writerow] writes it, line terminator left out. *)
Definition csv_line (row : list cell) : string :=
  String.concat "," (map csv_field row).

(** Splitting a record at commas (no quoted field is read back here). *)
Fixpoint split_commas (cur : string) (s : string) : list string :=
  match s with
  | EmptyString => [cur]
  | String c s' =>
      if (nat_of_ascii c =? 44)%nat then cur :: split_commas EmptyString s'
      else split_commas (cur ++ String c EmptyString)%string s'
  end.

(** A table read back by [pandas.read_csv]. *)
Record dataframe : Type := mkDataframe {
  columns : list string;
  rows : list (list string)
}.

(** [df.empty]: no row or no column. *)
Definition empty (df : dataframe) : bool :=
  match rows df, columns df with
  | [], _ => true
  | _, [] => true
  | _, _ => false
  end.

Definition nonblank (line : string) : bool := negb (String.eqb line EmptyString).

(** [pd.read_csv] over the records of a file: blank lines are skipped, the
    first record is the header; a file with no record raises. *)
Definition read_records (lines : list string) : result dataframe :=
  match filter nonblank lines with
  | [] => Raise EmptyDataError
  | header :: body =>
      Ok (mkDataframe (split_commas EmptyString header)
                      (map (split_commas EmptyString) body))
  end.

(** The matplotlib axes [df.plot] returns, with what is set on it later. *)
Record axes : Type := mkAxes {
  title : string;
  x_column : string;
  y_columns : list string;
  points : nat;
  x_label : string;
  y_label : string
}.

(** [os.path.join(a, b)] on POSIX. *)
Definition ends_with_slash (s : string) : bool :=
  match rev (list_ascii_of_string s) with
  | c :: _ => Ascii.eqb c "/"%char
  | [] => false
  end.

Definition starts_with_slash (s : string) : bool :=
  match s with
  | String c _ => Ascii.eqb c "/"%char
  | EmptyString => false
  end.

Definition path_join (a b : string) : string :=
  if starts_with_slash b then b
  else if String.eqb a EmptyString || ends_with_slash a then (a ++ b)%string
       else (a ++ "/" ++ b)%string.

(** The file system, as far as the function uses it.  It is not part of the
    repository; every operation that can fail returns the exception it
    raises, and the disk it leaves. *)
Class FileSystem : Type := {
  disk : Type;
  (** [os.path.exists(path)] *)
  fs_exists : string -> disk -> bool;
  (** [os.makedirs(path)] *)
  fs_makedirs : string -> disk -> result unit * disk;
  (** [open(path, 'w+', newline='')], the records [csv.writer] writes, and
      the close at the end of the [with] block *)
  fs_write : string -> list string -> disk -> result unit * disk;
  (** the records [pd.read_csv(path)] finds in the file *)
  fs_read : string -> disk -> result (list string)
}.

Section WithEnvironment.
Context {G : Generator} {F : FileSystem}.

(** The reading of the clock at the [k]-th call of [datetime.now()], and
    [strftime]: not part of the repository. *)
Variable clock_at : nat -> datetime.
Variable strftime : datetime -> string -> string.

(** What the function reads and writes: the generator, the number of clock
    readings so far, the disk, and the number of calls of [plt.show()]. *)
Record world : Type := mkWorld {
  w_rng : gstate;
  w_ticks : nat;
  w_disk : disk;
  w_shown : nat
}.

(** [os.path.exists(path)] *)
Definition path_exists (path : string) : M world bool :=
  fun w => (Ok (fs_exists path (w_disk w)), w).

(** [os.makedirs(path)] *)
Definition makedirs (path : string) : M world unit :=
  fun w =>
    let (r, d) := fs_makedirs path (w_disk w) in
    (r, mkWorld (w_rng w) (w_ticks w) d (w_shown w)).

(** [datetime.now()] *)
Definition now : M world datetime :=
  fun w =>
    (Ok (clock_at (w_ticks w)),
     mkWorld (w_rng w) (S (w_ticks w)) (w_disk w) (w_shown w)).

(** [randint(a, b)] of the [random] module *)
Definition random_randint (a b : Z) : M world Z :=
  fun w =>
    let (r, g) := randint a b (w_rng w) in
    (r, mkWorld g (w_ticks w) (w_disk w) (w_shown w)).

(** [with open(path, 'w+', newline='') as f: csv.writer(f).writerows(data)] *)
Definition write_rows (path : string) (data : list (list cell)) : M world unit :=
  fun w =>
    let (r, d) := fs_write path (map csv_line data) (w_disk w) in
    (r, mkWorld (w_rng w) (w_ticks w) d (w_shown w)).

(** [pd.read_csv(path)] *)
Definition read_csv (path : string) : M world dataframe :=
  fun w =>
    match fs_read path (w_disk w) with
    | Raise e => (Raise e, w)
    | Ok lines => (read_records lines, w)
    end.

(** [plt.show()] *)
Definition show : M world unit :=
  fun w =>
    (Ok tt, mkWorld (w_rng w) (w_ticks w) (w_disk w) (S (w_shown w))).

(** [[randint(0, 50) for _ in VEHICLE_TYPES]] *)
Definition counts : M world (list cell) :=
  for_each VEHICLE_TYPES
    (fun acc _ => n <- random_randint 0 50 ;; ret (acc ++ [CInt n]))
    [].

(** The loop that builds the rows after the header. *)
Definition generate (hours : Z) (data : list (list cell))
  : M world (list (list cell)) :=
  for_each (range hours)
    (fun data _ =>
       t <- now ;;
       cs <- counts ;;
       let row := CStr (strftime t "%Y-%m-%d %H:%M:%S.%f") :: cs in
       ret (data ++ [row]))
    data.

(** [df.plot(x='Time', y=VEHICLE_TYPES, kind='line', title=...)]: a column
    that is not there raises [KeyError]. *)
Definition plot (df : dataframe) (x : string) (y : list string)
           (plot_title : string) : M world axes :=
  if forallb (fun c => existsb (String.eqb c) (columns df)) (x :: y)
  then ret (mkAxes plot_title x y (List.length (rows df))
                   EmptyString EmptyString)
  else raise KeyError.

Definition f_410 (hours : Z) (output_dir : string)
  : M world (string * option axes) :=
  there <- path_exists output_dir ;;
  (if negb there then makedirs output_dir else ret tt) ;;;
  let FILE_PATH := path_join output_dir "traffic_data.csv" in
  let data := [map CStr ("Time"%string :: VEHICLE_TYPES)] in
  data <- generate hours data ;;
  write_rows FILE_PATH data ;;;
  df <- read_csv FILE_PATH ;;
  if empty df then ret (FILE_PATH, None)
  else
    ax <- plot df "Time" VEHICLE_TYPES "Traffic Data Over Time" ;;
    let ax := mkAxes (title ax) (x_column ax) (y_columns ax) (points ax)
                     "Time" "Vehicle Count" in
    show ;;;
    ret (FILE_PATH, Some ax).

(** *** Reference definitions: what the function is compared with *)

(** The first two lines of the function on the disk alone: the directory is
    created when nothing of that name exists. *)
Definition directory_step (output_dir : string) (d : disk)
  : result unit * disk :=
  if fs_exists output_dir d then (Ok tt, d) else fs_makedirs output_dir d.

(** The rows of [n] hours read off the clock and the generator: row [i]
    holds the formatted [k + i]-th reading of the clock, then the next four
    values of [randint(0, 50)], drawn in the order Car, Bus, Truck, Bike.
    With the rows comes the state the generator is left in. *)
Fixpoint expected_rows (k n : nat) (g : gstate)
  : list (list cell) * gstate :=
  match n with
  | O => ([], g)
  | S n' =>
      let (car, g1) := next_below 51 g in
      let (bus, g2) := next_below 51 g1 in
      let (truck, g3) := next_below 51 g2 in
      let (bike, g4) := next_below 51 g3 in
      let (rows, g') := expected_rows (S k) n' g4 in
      ([CStr (strftime (clock_at k) "%Y-%m-%d %H:%M:%S.%f");
        CInt car; CInt bus; CInt truck; CInt bike] :: rows, g')
  end.

(** A generated row: the formatted [k]-th reading of the clock, then one
    count between 0 and 50 for each of the four vehicle types. *)
Definition row_at (k : nat) (row : list cell) : Prop :=
  exists c1 c2 c3 c4 : Z,
    row = [CStr (strftime (clock_at k) "%Y-%m-%d %H:%M:%S.%f");
           CInt c1; CInt c2; CInt c3; CInt c4]
    /\ 0 <= c1 <= 50 /\ 0 <= c2 <= 50 /\ 0 <= c3 <= 50 /\ 0 <= c4 <= 50.

(** Rows generated from successive readings of the clock, starting at the
    [k]-th. *)
Fixpoint rows_from (k : nat) (rows : list (list cell)) : Prop :=
  match rows with
  | [] => True
  | row :: rows' => row_at k row /\ rows_from (S k) rows'
  end.

End WithEnvironment.

(** [output_dir = './output'] *)
Definition default_output_dir : string := "./output".

(** The clock of the worked example: one reading per second from
    2024-05-17 09:30:00.123456. *)
Definition example_clock (k : nat) : datetime :=
  mkDatetime (ymd2ord 2024 5 17) 9 30 (Z.of_nat k) 123456.

(** *** A small disk for the worked examples

    Directories and files are named by their paths as written, relative to a
    working directory ["."] that always exists; a file is the list of its
    records. *)
Record example_disk : Type := mkDisk {
  dirs : list string;
  files : dict (list string)
}.

Definition is_dir (path : string) (d : example_disk) : bool :=
  String.eqb path "."%string || existsb (String.eqb path) (dirs d).

Definition is_file (path : string) (d : example_disk) : bool :=
  existsb (String.eqb path) (keys (files d)).

(** The prefixes of a path that end before a slash: its parents, outermost
    first. *)
Fixpoint parents (seen rest : string) : list string :=
  match rest with
  | EmptyString => []
  | String c rest' =>
      (if Ascii.eqb c "/"%char && negb (String.eqb seen EmptyString)
       then [seen] else [])
      ++ parents (seen ++ String c EmptyString)%string rest'
  end.

(** The directory a path lies in; the working directory for a bare name. *)
Definition parent (path : string) : string :=
  last (parents EmptyString path) "."%string.

(** [os.makedirs]: the empty path is refused, and so is a path that exists;
    a parent that is a file is no directory; otherwise the path and every
    missing parent are created. *)
Definition example_makedirs (path : string) (d : example_disk)
  : result unit * example_disk :=
  if String.eqb path EmptyString then (Raise FileNotFoundError, d)
  else if is_dir path d || is_file path d then (Raise FileExistsError, d)
  else if existsb (fun p => is_file p d) (parents EmptyString path)
       then (Raise NotADirectoryError, d)
  else
    (Ok tt,
     mkDisk (dirs d
             ++ filter (fun p => negb (is_dir p d))
                       (parents EmptyString path ++ [path]))
            (files d)).

(** Writing a file: its path must not be a directory and must lie in one. *)
Definition example_write (path : string) (records : list string)
           (d : example_disk) : result unit * example_disk :=
  if String.eqb path EmptyString then (Raise FileNotFoundError, d)
  else if is_dir path d then (Raise IsADirectoryError, d)
  else if is_dir (parent path) d
       then (Ok tt, mkDisk (dirs d) (dict_set (files d) path records))
  else if is_file (parent path) d then (Raise NotADirectoryError, d)
  else (Raise FileNotFoundError, d).

Definition example_read (path : string) (d : example_disk)
  : result (list string) :=
  match dict_get (files d) path with
  | Some records => Ok records
  | None => Raise FileNotFoundError
  end.

Definition example_fs : FileSystem := {|
  disk := example_disk;
  fs_exists := fun path d => is_dir path d || is_file path d;
  fs_makedirs := example_makedirs;
  fs_write := example_write;
  fs_read := example_read
|}.

End F410.

(* ===================================================================== *)
(** ** Task f_235: column-wise z-score normalisation
       (src/data/processed/f_467_ming_w_doc.py)

    The entries are binary64 numbers (Rocq's primitive floats, with the IEEE
    operations rounded to nearest even): finite numbers, two signed zeros,
    two infinities and NaN. *)
(* ===================================================================== *)

Module F235.
Import Floats.

#[local] Open Scope float_scope.

(** A 2-D array of [float64]. *)
Record ndarray : Type := mkArray {
  nrows : nat;
  ncols : nat;
  entry : nat -> nat -> float
}.

(** A [DataFrame]: its number of rows and its columns, left to right. *)
Record dataframe : Type := mkFrame {
  index : nat;
  data : list (list float)
}.

Definition column (matrix : ndarray) (j : nat) : list float :=
  map (fun i => entry matrix i j) (seq 0 (nrows matrix)).

(** [pd.DataFrame(matrix)] *)
Definition DataFrame (matrix : ndarray) : dataframe :=
  mkFrame (nrows matrix) (map (column matrix) (seq 0 (ncols matrix))).

Section WithReduction.

(** [np.add.reduce] over a 1-D array: the sum of its elements.  The order in
    which numpy adds them (and so the rounding of the sum) depends on the
    length of the array and on the build of numpy; it is not part of the
    repository. *)
Variable add_reduce : list float -> float.

(** The number of elements, as a float. *)
Definition count (a : list float) : float :=
  of_uint63 (Uint63.of_Z (Z.of_nat (List.length a))).

(** [a.mean()]: the sum divided by the number of elements. *)
Definition mean (a : list float) : float := add_reduce a / count a.

(** [a.std(ddof=0)]: the deviations from the mean, squared, their mean, and
    its square root. *)
Definition std (a : list float) : float :=
  let arrmean := mean a in
  let x := map (fun v => v - arrmean) a in
  let x := map (fun v => v * v) x in
  sqrt (mean x).

(** [(a[0] == a).all()]: scipy's test for a constant input. *)
Definition isconst (a : list float) : bool :=
  match a with
  | [] => true
  | first :: _ => forallb (fun v => first =? v) a
  end.

(** [scipy.stats.zscore(a)]: an empty array is returned empty; otherwise the
    standard deviation of a constant input is set to 1, the scores are
    [(a - mn) / std], and the scores of a constant input are set to NaN. *)
Definition zscore (a : list float) : list float :=
  match a with
  | [] => []
  | _ :: _ =>
      let mn := mean a in
      let sd := std a in
      let sd := if isconst a then 1 else sd in
      let z := map (fun v => (v - mn) / sd) a in
      if isconst a then map (fun _ => nan) z else z
  end.

(** [df.apply(f)]: [f] on every column. *)
Definition apply (f : list float -> list float) (df : dataframe)
  : dataframe :=
  mkFrame (index df) (map f (data df)).

(** What [fillna(value)] does to one entry: NaN is replaced, everything
    else, the infinities among it, is kept. *)
Definition fill (value v : float) : float := if is_nan v then value else v.

(** [df.fillna(value)] *)
Definition fillna (value : float) (df : dataframe) : dataframe :=
  mkFrame (index df) (map (map (fill value)) (data df)).

Definition f_235 (matrix : ndarray) : dataframe :=
  let df := DataFrame matrix in
  let normalized_df := apply zscore df in
  let normalized_df := fillna 0 normalized_df in
  normalized_df.

End WithReduction.

(** The elements added one after the other from the left, which is the order
    numpy follows for an array of fewer than 8 elements. *)
Definition sum_in_order (a : list float) : float := fold_left add a 0.

(** An array given by its rows (entries outside are 0). *)
Definition array_of_rows (r c : nat) (rows_ : list (list float)) : ndarray :=
  mkArray r c (fun i j => nth j (nth i rows_ []) 0).

End F235.

(* ===================================================================== *)
(** ** More resolvers for worked examples of f_220 *)
(* ===================================================================== *)

Module Resolvers.
Import Py F220.

(** A resolver in front of which the host-name codec sits, as in CPython:
    [socket.gethostbyaddr] encodes its argument with the [idna] codec, which
    refuses an empty label with [UnicodeError], a [ValueError]. *)
Definition idna_resolver (ip : string) : M nat hostent :=
  fun lookups =>
    if String.eqb ip "1.2.3.4.."
    then (Raise ValueError, S lookups)
    else example_resolver ip lookups.

(** A resolver whose answer changes: the first lookup succeeds, every later
    one fails with [herror]. *)
Definition flaky_resolver (ip : string) : M nat hostent :=
  fun lookups =>
    match lookups with
    | O => (Ok ("dns.google"%string, [], [ip]), S lookups)
    | S _ => (Raise HostError, S lookups)
    end.

End Resolvers.

(* ===================================================================== *)
(** ** task_func with repeated team names, and the checks of its test class
       (src/data/processed/493_wo_doc.py) *)
(* ===================================================================== *)

Module PerfTests.
Import Py Perf.

(** A stored value that is the sum of [k] draws: a float between [k * 0.1]
    and [k]. *)
Definition summed (k : nat) (x : pynum) : Prop :=
  is_float x = true
  /\ (inject_Z (Z.of_nat k) * (1 # 10) <= num_val x
      /\ num_val x <= inject_Z (Z.of_nat k))%Q.

(** The entry of the current day after [k] draws have been added to it: the
    initial int 0, or a sum. *)
Definition partial (k : nat) (x : pynum) : Prop :=
  match k with
  | O => x = PInt 0
  | S _ => summed k x
  end.

(** The mapping while day [i] of [n] is filled in, when the teams [seen] have
    had their draw of the day: the earlier days are sums of as many draws as
    the team has occurrences, the later days are still 0. *)
Definition filling (names : list string) (n i : nat) (seen : list string)
           (d : dict (list pynum)) : Prop :=
  forall t, In t names ->
    exists (done : list pynum) (cur : pynum),
      dict_get d t = Some (done ++ cur :: repeat (PInt 0) (n - S i))
      /\ List.length done = i
      /\ Forall (summed (count_occ string_dec names t)) done
      /\ partial (count_occ string_dec seen t) cur.

(** The mapping when [i] days of [n] are filled in. *)
Definition filled (names : list string) (n i : nat)
           (d : dict (list pynum)) : Prop :=
  forall t, In t names ->
    exists done : list pynum,
      dict_get d t = Some (done ++ repeat (PInt 0) (n - i))
      /\ List.length done = i
      /\ Forall (summed (count_occ string_dec names t)) done.

(** [_check_valid_performance_data(performance_data, valid_teams)] of the
    test class: every key is a valid team, every performance is a float
    with [0.1 <= performance <= 1]. *)
Definition check_valid_performance_data
           (performance_data : dict (list pynum)) (valid_teams : list string)
  : bool :=
  forallb (fun team => existsb (String.eqb team) valid_teams)
          (keys performance_data)
  && forallb
       (fun kv =>
          forallb (fun performance =>
                     Qle_bool (1 # 10) (num_val performance)
                     && Qle_bool (num_val performance) 1
                     && is_float performance)
                  (snd kv))
       performance_data.

(** [_check_plot(fig)] of the test class: the y label is "Performance" and
    the x label starts with "Days since". *)
Definition check_plot (fig : figure) : bool :=
  String.eqb (ylabel fig) "Performance"
  && String.prefix "Days since" (xlabel fig).

End PerfTests.

(* ===================================================================== *)
(** ** Task f_446: the plot of a parabola
       (src/data/processed/f_1756_hanhu_w_doc.py)

    The samples are binary64 numbers; the state is that of
    [matplotlib.pyplot]: the figures that exist, the last one created being
    the current one, and the number of calls of [plt.show()]. *)
(* ===================================================================== *)

Module F446.
Import Py Floats.

(** [y[-1] = v] on a 1-D array. *)
Definition set_last (y : list float) (v : float) : list float :=
  match y with
  | [] => []
  | _ :: _ => firstn (List.length y - 1) y ++ [v]
  end.

(** An index as a float ([arange(0, num)] in [float64]). *)
Definition of_nat (n : nat) : float := of_uint63 (Uint63.of_Z (Z.of_nat n)).

(** [np.linspace(start, stop, num)], end point included: [arange(0, num)]
    times the step [(stop - start) / (num - 1)], plus [start], every
    operation rounded, with the last value set to [stop] when there are two
    values or more.  When the step rounds to 0 the indices are divided by
    [num - 1] first and multiplied by [stop - start] afterwards.  (With one
    value there is no step and the value is [start].) *)
Definition linspace (start stop : float) (num : nat) : list float :=
  let div := (Z.of_nat num - 1)%Z in
  let delta := (stop - start)%float in
  let y := map of_nat (seq 0 num) in
  let y :=
    if (0 <? div)%Z then
      let step := (delta / of_nat (num - 1))%float in
      if (step =? 0)%float then
        map (fun v => v * delta)%float
            (map (fun v => v / of_nat (num - 1))%float y)
      else map (fun v => v * step)%float y
    else map (fun v => v * delta)%float y in
  let y := map (fun v => v + start)%float y in
  if (1 <? Z.of_nat num)%Z then set_last y stop else y.

(** A figure with its one pair of axes: the lines plotted (x values, y
    values), the title, the axis labels, the grid. *)
Record figure : Type := mkFigure {
  lines : list (list float * list float);
  title : string;
  xlabel : string;
  ylabel : string;
  grid : bool
}.

Definition blank : figure :=
  mkFigure [] EmptyString EmptyString EmptyString false.

Record pyplot : Type := mkPyplot {
  figures : list figure;
  shown : nat
}.

(** [plt.figure()]: a new figure, which becomes the current one. *)
Definition plt_figure : M pyplot unit :=
  fun p => (Ok tt, mkPyplot (figures p ++ [blank]) (shown p)).

(** A change to the current figure; a figure is created when there is
    none. *)
Definition on_current (change : figure -> figure) (p : pyplot) : pyplot :=
  match rev (figures p) with
  | [] => mkPyplot [change blank] (shown p)
  | current :: older => mkPyplot (rev older ++ [change current]) (shown p)
  end.

(** [plt.plot(x, y)]: [x] and [y] must have the same length. *)
Definition plt_plot (x y : list float) : M pyplot unit :=
  fun p =>
    if (List.length x =? List.length y)%nat then
      (Ok tt,
       on_current (fun f => mkFigure (lines f ++ [(x, y)]) (title f)
                                     (xlabel f) (ylabel f) (grid f)) p)
    else (Raise ValueError, p).

Definition plt_title (s : string) : M pyplot unit :=
  fun p =>
    (Ok tt,
     on_current (fun f => mkFigure (lines f) s (xlabel f) (ylabel f) (grid f))
                p).

Definition plt_xlabel (s : string) : M pyplot unit :=
  fun p =>
    (Ok tt,
     on_current (fun f => mkFigure (lines f) (title f) s (ylabel f) (grid f))
                p).

Definition plt_ylabel (s : string) : M pyplot unit :=
  fun p =>
    (Ok tt,
     on_current (fun f => mkFigure (lines f) (title f) (xlabel f) s (grid f))
                p).

Definition plt_grid (b : bool) : M pyplot unit :=
  fun p =>
    (Ok tt,
     on_current (fun f => mkFigure (lines f) (title f) (xlabel f) (ylabel f) b)
                p).

Definition plt_show : M pyplot unit :=
  fun p => (Ok tt, mkPyplot (figures p) (S (shown p))).

(** [X = np.linspace(-10, 10, 400)] *)
Definition X : list float := linspace (-10)%float 10%float 400.

(** [Y = X**2]: numpy squares each value with one multiplication. *)
Definition Y : list float := map (fun x => x * x)%float X.

(** The function returns [None]. *)
Definition f_446 : M pyplot unit :=
  plt_figure ;;;
  plt_plot X Y ;;;
  plt_title "y = x^2" ;;;
  plt_xlabel "x" ;;;
  plt_ylabel "y" ;;;
  plt_grid true ;;;
  plt_show.

End F446.

(** ** Generators *)

Module Random_Facts.
Import Random.

Section Ranges.
Context {G : Generator}.

Lemma next_below_range (n : Z) (s : gstate) :
  0 < n -> 0 <= fst (next_below n s) < n.
Proof.
  intros Hn. unfold next_below. destruct (step n s) as [x s'].
  cbn [fst]. apply Z.mod_pos_bound. exact Hn.
Qed.

Lemma random_range (s : gstate) :
  (0 <= fst (random s) /\ fst (random s) < 1)%Q.
Proof.
  unfold random.
  pose proof (next_below_range (2 ^ 53) s ltac:(reflexivity)) as H.
  destruct (next_below (2 ^ 53) s) as [k s']. cbn [fst] in *.
  assert (Hpos : (0 < inject_Z (2 ^ 53))%Q) by reflexivity.
  split.
  - apply Qle_shift_div_l; [exact Hpos|]. rewrite Qmult_0_l.
    change 0%Q with (inject_Z 0). rewrite <- Zle_Qle. lia.
  - apply Qlt_shift_div_r; [exact Hpos|]. rewrite Qmult_1_l.
    rewrite <- Zlt_Qlt. lia.
Qed.

(** [uniform(a, b)] stays within its bounds. *)
Lemma uniform_range (a b : Q) (s : gstate) :
  (a <= b -> a <= fst (uniform a b s) /\ fst (uniform a b s) <= b)%Q.
Proof.
  intros Hab. unfold uniform.
  pose proof (random_range s) as [H0 H1].
  destruct (random s) as [r s']. cbn [fst] in *.
  rewrite Qred_correct.
  assert (Hd : (0 <= b - a)%Q) by Lqa.lra.
  assert (Hlo : (0 <= (b - a) * r)%Q) by (apply Qmult_le_0_compat; assumption).
  assert (Hhi : ((b - a) * r <= (b - a) * 1)%Q).
  { rewrite !(Qmult_comm (b - a)). apply Qmult_le_compat_r; [Lqa.lra | exact Hd]. }
  split; Lqa.lra.
Qed.

Lemma randint_range (a b : Z) (s : gstate) :
  a <= b ->
  exists k s', randint a b s = (Ok k, s') /\ a <= k <= b.
Proof.
  intros Hab. unfold randint.
  assert (Hn : 0 < b - a + 1) by lia.
  apply Z.ltb_lt in Hn as Hn'. rewrite Hn'.
  pose proof (next_below_range (b - a + 1) s Hn) as H.
  destruct (next_below (b - a + 1) s) as [k s']. cbn [fst] in H.
  exists (a + k), s'. split; [reflexivity | lia].
Qed.

Lemma np_randint1_range (low high : Z) (s : gstate) :
  low < high -> low <= fst (np_randint1 low high s) < high.
Proof.
  intros Hlt. unfold np_randint1.
  pose proof (next_below_range (high - low) s ltac:(lia)) as H.
  destruct (next_below (high - low) s) as [k s']. cbn [fst] in *. lia.
Qed.

Lemma draw_list_spec (n : nat) (low high : Z) (s : gstate) :
  low < high ->
  List.length (fst (draw_list n low high s)) = n
  /\ Forall (fun v => low <= v < high) (fst (draw_list n low high s)).
Proof.
  intros Hlt. revert s. induction n as [|n IH]; intros s; cbn [draw_list].
  - split; [reflexivity | constructor].
  - pose proof (np_randint1_range low high s Hlt) as Hx.
    destruct (np_randint1 low high s) as [x s1]. cbn [fst] in Hx.
    specialize (IH s1). destruct (draw_list n low high s1) as [xs s2].
    cbn [fst] in *. destruct IH as [Hlen Hall].
    split; [cbn; now rewrite Hlen | now constructor].
Qed.

Lemma draw_matrix_spec (rows cols : nat) (low high : Z) (s : gstate) :
  low < high ->
  List.length (fst (draw_matrix rows cols low high s)) = rows
  /\ Forall (fun row => List.length row = cols
                        /\ Forall (fun v => low <= v < high) row)
            (fst (draw_matrix rows cols low high s)).
Proof.
  intros Hlt. revert s. induction rows as [|rows IH]; intros s;
    cbn [draw_matrix].
  - split; [reflexivity | constructor].
  - pose proof (draw_list_spec cols low high s Hlt) as Hr.
    destruct (draw_list cols low high s) as [r s1]. cbn [fst] in Hr.
    specialize (IH s1). destruct (draw_matrix rows cols low high s1) as [rs s2].
    cbn [fst] in *. destruct IH as [Hlen Hall].
    split; [cbn; now rewrite Hlen | now constructor].
Qed.

End Ranges.

End Random_Facts.

(* ===================================================================== *)
(** * Properties *)
(* ===================================================================== *)

(** ** f_843 *)

Module F843_Facts.
Import Py F843.

(** Appending in a loop is a [map]. *)
Lemma append_loop_is_map {A B} (f : A -> B) (l : list A) (acc : list B) :
  fold_left (fun sums x => sums ++ [f x]) l acc = acc ++ map f l.
Proof.
  revert acc; induction l as [|x l IH]; intros acc; simpl.
  - now rewrite app_nil_r.
  - rewrite IH, <- app_assoc. reflexivity.
Qed.

Lemma POSSIBLE_NUMBERS_values :
  POSSIBLE_NUMBERS = [1; 2; 3; 4; 5; 6; 7; 8; 9; 10].
Proof. reflexivity. Qed.

(** The slice never fails: a length past the end takes the whole range. *)
Lemma slice_past_end (n : nat) :
  (10 <= n)%nat -> slice_to POSSIBLE_NUMBERS n = POSSIBLE_NUMBERS.
Proof.
  intros Hn. unfold slice_to. apply firstn_all2.
  rewrite POSSIBLE_NUMBERS_values. simpl. exact Hn.
Qed.

Lemma sum__spec {A} (list_ : list A) :
  sum_ list_ = spec_sum (List.length list_).
Proof.
  unfold sum_. generalize (List.length list_) as n. intros n.
  destruct (Nat.le_gt_cases 10 n) as [Hbig|Hsmall].
  - rewrite slice_past_end by exact Hbig.
    unfold spec_sum. rewrite Nat.min_r by exact Hbig.
    destruct n as [|n]; [lia|]. reflexivity.
  - do 10 (destruct n as [|n]; [reflexivity|]). lia.
Qed.

(** Gauss-style closed form of the specification's sum. *)
Lemma sum_squares_closed (n : nat) :
  6 * sum_squares_upto n
  = Z.of_nat n * (Z.of_nat n + 1) * (2 * Z.of_nat n + 1).
Proof.
  induction n as [|n IH].
  - reflexivity.
  - change (sum_squares_upto (S n))
      with (sum_squares_upto n + Z.of_nat (S n) * Z.of_nat (S n)).
    rewrite Nat2Z.inj_succ. nia.
Qed.

(** C9. [f_843] returns one sum per sublist, in input order; the sum for a
    sublist of length N is the sum of the squares of the first N values of
    1..10, the int 0 for an empty sublist, and the sum over all ten values
    (385.0) for any sublist longer than ten, with no error; and
    [f_843([[1,2,3],[4,5]])] is [[14.0, 5.0]]. *)
Theorem f_843_sums_of_squares :
  (forall (A : Type) (list_of_lists : list (list A)),
      f_843 list_of_lists
      = map (fun list_ => spec_sum (List.length list_)) list_of_lists)
  /\ spec_sum 0 = PInt 0
  /\ (forall n : nat, (10 < n)%nat -> spec_sum n = PFloat 385)
  /\ f_843 [[1; 2; 3]; [4; 5]] = [PFloat 14; PFloat 5].
Proof.
  split; [|split; [|split]].
  - intros A ll. unfold f_843. rewrite append_loop_is_map. simpl.
    apply map_ext. intros l. apply sum__spec.
  - reflexivity.
  - intros n Hn. destruct n as [|n]; [lia|].
    unfold spec_sum. rewrite Nat.min_r by lia. reflexivity.
  - reflexivity.
Qed.

End F843_Facts.

(** ** datetime arithmetic *)

Module Datetime_Facts.
Import Datetime.

Ltac divmod := Z.div_mod_to_equations; lia.

Lemma timedelta_new_normal (d s us : Z) :
  0 <= s < 86400 -> 0 <= us < 1000000 ->
  timedelta_new d s us = mkTimedelta d s us.
Proof.
  intros Hs Hus. unfold timedelta_new.
  rewrite (Z.div_small us), (Z.mod_small us) by lia.
  rewrite Z.add_0_r, (Z.div_small s), (Z.mod_small s) by lia.
  now rewrite Z.add_0_r.
Qed.

Lemma time_fields (hh mm ss : Z) :
  0 <= hh < 24 -> 0 <= mm < 60 -> 0 <= ss < 60 ->
  let secs := hh * 3600 + mm * 60 + ss in
  0 <= secs < 86400 /\ secs / 3600 = hh
  /\ (secs mod 3600) / 60 = mm /\ (secs mod 3600) mod 60 = ss.
Proof. intros Hh Hm Hs secs. subst secs. repeat split; divmod. Qed.

(** Adding whole days moves the ordinal and leaves the time of day alone;
    it overflows exactly when the ordinal leaves 1..MAXORDINAL. *)
Lemma add_days (d : datetime) (n : Z) :
  valid d ->
  add d (timedelta_new n 0 0)
  = if (0 <? ordinal d + n) && (ordinal d + n <=? MAXORDINAL)
    then Ok (mkDatetime (ordinal d + n) (hour d) (minute d) (second d)
                        (microsecond d))
    else Raise OverflowError.
Proof.
  intros (Ho & Hh & Hm & Hs & Hu).
  destruct (time_fields (hour d) (minute d) (second d) Hh Hm Hs)
    as (Hsecs & E1 & E2 & E3).
  unfold add, timedelta_add, toordinal.
  rewrite (timedelta_new_normal n 0 0) by lia.
  rewrite (timedelta_new_normal (ordinal d)) by lia.
  cbn [days seconds microseconds].
  rewrite !Z.add_0_r.
  rewrite timedelta_new_normal by lia.
  cbn [days seconds microseconds].
  rewrite E1, E2, E3. reflexivity.
Qed.

Lemma weekday_range (d : datetime) : 0 <= weekday d < 7.
Proof. unfold weekday. apply Z.mod_pos_bound. lia. Qed.

Lemma validb_valid (d : datetime) : validb d = true <-> valid d.
Proof.
  unfold validb, valid. rewrite !andb_true_iff, !Z.leb_le, !Z.ltb_lt. tauto.
Qed.

(** The month tables: every month starts after day 0 of the year and ends
    by day 365, or 366 in a leap year. *)
Lemma month_tables (leap : bool) (m : Z) :
  1 <= m <= 12 ->
  let before :=
    nth (Z.to_nat m) DAYS_BEFORE_MONTH 0
    + (if (2 <? m) && leap then 1 else 0) in
  let within :=
    if (m =? 2) && leap then 29 else nth (Z.to_nat m) DAYS_IN_MONTH 0 in
  0 <= before /\ before + within <= 365 + (if leap then 1 else 0).
Proof.
  intros Hm.
  assert (Hmonth : m = 1 \/ m = 2 \/ m = 3 \/ m = 4 \/ m = 5 \/ m = 6 \/ m = 7
                   \/ m = 8 \/ m = 9 \/ m = 10 \/ m = 11 \/ m = 12) by lia.
  destruct leap;
    repeat (destruct Hmonth as [->|Hmonth]; [cbv; split; discriminate|]);
    subst m; cbv; split; discriminate.
Qed.

(** Every date the constructor accepts has an ordinal in 1..MAXORDINAL. *)
Lemma ymd2ord_range (y m d : Z) :
  MINYEAR <= y <= MAXYEAR -> 1 <= m <= 12 -> 1 <= d <= days_in_month y m ->
  1 <= ymd2ord y m d <= MAXORDINAL.
Proof.
  unfold MINYEAR, MAXYEAR, MAXORDINAL, ymd2ord, days_before_year.
  intros Hy Hm Hd.
  assert (Hleap : is_leap y = true -> y mod 4 = 0).
  { unfold is_leap. rewrite andb_true_iff, Z.eqb_eq. tauto. }
  pose proof (month_tables (is_leap y) m Hm) as [Hlo Hhi].
  fold (days_before_month y m) in Hlo, Hhi.
  fold (days_in_month y m) in Hhi.
  destruct (is_leap y); [specialize (Hleap eq_refl) | clear Hleap]; divmod.
Qed.

(** *** Ordinals and calendar dates are in bijection *)

Lemma month_day_table :
  forallb (fun k => month_day_ok false (Z.of_nat k)) (seq 0 365) = true
  /\ forallb (fun k => month_day_ok true (Z.of_nat k)) (seq 0 366) = true.
Proof. split; vm_compute; reflexivity. Qed.

Lemma month_day_spec (leapyear : bool) (n : Z) :
  0 <= n < 365 + (if leapyear then 1 else 0) ->
  month_day_ok leapyear n = true.
Proof.
  intros Hn. destruct month_day_table as [H0 H1].
  rewrite forallb_forall in H0, H1.
  replace n with (Z.of_nat (Z.to_nat n)) by lia.
  destruct leapyear; [apply H1 | apply H0]; apply in_seq; lia.
Qed.

Lemma is_leap_spec (y : Z) :
  is_leap y = true <-> y mod 4 = 0 /\ (y mod 100 <> 0 \/ y mod 400 = 0).
Proof.
  unfold is_leap.
  rewrite andb_true_iff, orb_true_iff, negb_true_iff, !Z.eqb_eq, Z.eqb_neq.
  tauto.
Qed.

Lemma bool_eq_iff (a b : bool) : (a = true <-> b = true) -> a = b.
Proof. destruct a, b; intuition congruence. Qed.

(** The first half of [_ord2ymd]: the year, and whether it is a leap year. *)
Lemma ord2ymd_year (n : Z) :
  1 <= n ->
  let N := n - 1 in
  let n400 := N / DI400Y in
  let r1 := N mod DI400Y in
  let n100 := r1 / DI100Y in
  let r2 := r1 mod DI100Y in
  let n4 := r2 / DI4Y in
  let r3 := r2 mod DI4Y in
  let n1 := r3 / 365 in
  let r4 := r3 mod 365 in
  let year := n400 * 400 + 1 + n100 * 100 + n4 * 4 + n1 in
  (n1 = 4 \/ n100 = 4 ->
   days_before_year (year - 1) + 366 = n /\ is_leap (year - 1) = true
   /\ 1 <= year - 1 /\ (n <= MAXORDINAL -> year - 1 <= MAXYEAR))
  /\ (n1 <> 4 -> n100 <> 4 ->
      days_before_year year + r4 + 1 = n
      /\ is_leap year = ((n1 =? 3) && (negb (n4 =? 24) || (n100 =? 3)))
      /\ 1 <= year /\ (n <= MAXORDINAL -> year <= MAXYEAR)).
Proof.
  intros Hn. cbv zeta.
  unfold DI400Y, DI100Y, DI4Y, days_before_year, MAXORDINAL, MAXYEAR.
  split.
  - intros Hcase. split; [divmod|]. split; [|split; [divmod | intros; divmod]].
    apply is_leap_spec. split; [divmod|].
    destruct (Z.eq_dec (((n - 1) mod 146097) / 36524) 4) as [E|E].
    + right. divmod.
    + left. divmod.
  - intros H1 H100. split; [divmod|]. split; [|split; [divmod | intros; divmod]].
    apply bool_eq_iff. rewrite is_leap_spec.
    rewrite andb_true_iff, orb_true_iff, negb_true_iff, !Z.eqb_eq, Z.eqb_neq.
    split.
    + intros [H4 Hrest]. split; [divmod|].
      destruct Hrest as [Hc|Hc]; [left | right]; divmod.
    + intros [H3 Hrest]. split; [divmod|].
      destruct (Z.eq_dec ((((n - 1) mod 146097) mod 36524) / 1461) 24)
        as [E|E]; [right | left]; divmod.
Qed.

(** [_ord2ymd] in two halves. *)
Lemma ord2ymd_halves (n : Z) :
  let N := n - 1 in
  let n400 := N / DI400Y in
  let r1 := N mod DI400Y in
  let n100 := r1 / DI100Y in
  let r2 := r1 mod DI100Y in
  let n4 := r2 / DI4Y in
  let r3 := r2 mod DI4Y in
  let n1 := r3 / 365 in
  let r4 := r3 mod 365 in
  let year := n400 * 400 + 1 + n100 * 100 + n4 * 4 + n1 in
  ord2ymd n
  = if (n1 =? 4) || (n100 =? 4) then (year - 1, 12, 31)
    else
      let md := month_day ((n1 =? 3) && (negb (n4 =? 24) || (n100 =? 3))) r4 in
      (year, fst md, snd md).
Proof.
  cbv zeta. unfold ord2ymd, month_day. cbv zeta.
  destruct ((_ =? 4) || (_ =? 4)); [reflexivity|].
  match goal with
  | |- (if ?c then _ else _) = _ => destruct c; reflexivity
  end.
Qed.

(** Every ordinal is the ordinal of the date [_ord2ymd] gives for it, and
    that date exists. *)
Lemma ymd2ord_ord2ymd (n : Z) :
  1 <= n ->
  let '(y, m, d) := ord2ymd n in
  ymd2ord y m d = n /\ 1 <= m <= 12 /\ 1 <= d <= days_in_month y m
  /\ MINYEAR <= y /\ (n <= MAXORDINAL -> y <= MAXYEAR).
Proof.
  intros Hn. rewrite ord2ymd_halves. cbv zeta.
  pose proof (ord2ymd_year n Hn) as [HA HB]. cbv zeta in HA, HB.
  destruct ((_ =? 4) || (_ =? 4)) eqn:Hcase.
  - apply orb_true_iff in Hcase. rewrite !Z.eqb_eq in Hcase.
    destruct (HA Hcase) as (Hord & Hleap & Hlo & Hhi).
    unfold ymd2ord, days_before_month, days_in_month, MINYEAR.
    rewrite Hleap.
    change (nth (Z.to_nat 12) DAYS_BEFORE_MONTH 0) with 334.
    change (if (2 <? 12) && true then 1 else 0) with 1.
    change (if (12 =? 2) && true then 29
            else nth (Z.to_nat 12) DAYS_IN_MONTH 0) with 31.
    split; [lia|]. split; [lia|]. split; [lia|]. split; [lia | exact Hhi].
  - apply orb_false_iff in Hcase. rewrite !Z.eqb_neq in Hcase.
    destruct Hcase as [H1 H100].
    destruct (HB H1 H100) as (Hord & Hleap & Hlo & Hhi).
    set (leapyear := (_ =? 3) && (negb (_ =? 24) || (_ =? 3))) in *.
    set (r4 := (((n - 1) mod DI400Y) mod DI100Y) mod DI4Y mod 365) in *.
    assert (Hr4 : 0 <= r4 < 365) by (subst r4; apply Z.mod_pos_bound; lia).
    pose proof (month_day_spec leapyear r4) as Hmd.
    unfold month_day_ok in Hmd.
    destruct (month_day leapyear r4) as [m d]. cbn [fst snd].
    rewrite !andb_true_iff, !Z.leb_le, Z.eqb_eq in Hmd.
    destruct Hmd as ((((Hm1 & Hm12) & Hd1) & Hdmax) & Hsum);
      [destruct leapyear; lia|].
    unfold ymd2ord, days_before_month, days_in_month, MINYEAR.
    rewrite Hleap.
    split; [lia|]. split; [lia|]. split; [lia|]. split; [lia | exact Hhi].
Qed.

Lemma days_before_next_year (y : Z) :
  days_before_year (y + 1)
  = days_before_year y + 365 + (if is_leap y then 1 else 0).
Proof.
  unfold days_before_year.
  destruct (is_leap y) eqn:L.
  - apply is_leap_spec in L. destruct L as [H4 [H100|H400]]; divmod.
  - assert (Hn : ~ (y mod 4 = 0 /\ (y mod 100 <> 0 \/ y mod 400 = 0))).
    { rewrite <- is_leap_spec. congruence. }
    destruct (Z.eq_dec (y mod 4) 0) as [H4|H4]; [|divmod].
    destruct (Z.eq_dec (y mod 100) 0) as [H100|H100]; [|tauto].
    destruct (Z.eq_dec (y mod 400) 0) as [H400|H400]; [tauto|]. divmod.
Qed.

Lemma days_before_year_mono (y y' : Z) :
  y <= y' -> days_before_year y <= days_before_year y'.
Proof. unfold days_before_year. intros H. divmod. Qed.

(** A date lies within its year. *)
Lemma year_span (y m d : Z) :
  1 <= m <= 12 -> 1 <= d <= days_in_month y m ->
  days_before_year y + 1 <= ymd2ord y m d <= days_before_year (y + 1).
Proof.
  intros Hm Hd. rewrite days_before_next_year. unfold ymd2ord.
  pose proof (month_tables (is_leap y) m Hm) as [Hlo Hhi].
  fold (days_before_month y m) in Hlo, Hhi.
  fold (days_in_month y m) in Hhi. lia.
Qed.

(** Within a year, the day of the year determines month and day. *)
Lemma month_day_unique (leap : bool) (m d m' d' : Z) :
  let before k :=
    nth (Z.to_nat k) DAYS_BEFORE_MONTH 0
    + (if (2 <? k) && leap then 1 else 0) in
  let within k :=
    if (k =? 2) && leap then 29 else nth (Z.to_nat k) DAYS_IN_MONTH 0 in
  1 <= m <= 12 -> 1 <= d <= within m ->
  1 <= m' <= 12 -> 1 <= d' <= within m' ->
  before m + d = before m' + d' -> m = m' /\ d = d'.
Proof.
  intros before within Hm Hd Hm' Hd' Heq.
  assert (Hc : m = 1 \/ m = 2 \/ m = 3 \/ m = 4 \/ m = 5 \/ m = 6 \/ m = 7
               \/ m = 8 \/ m = 9 \/ m = 10 \/ m = 11 \/ m = 12) by lia.
  assert (Hc' : m' = 1 \/ m' = 2 \/ m' = 3 \/ m' = 4 \/ m' = 5 \/ m' = 6
                \/ m' = 7 \/ m' = 8 \/ m' = 9 \/ m' = 10 \/ m' = 11
                \/ m' = 12) by lia.
  subst before within.
  destruct leap;
    repeat (destruct Hc as [->|Hc]; [|]);
    try subst m;
    repeat (destruct Hc' as [->|Hc']; [|]);
    try subst m';
    repeat match goal with
           | H : context [nth (Z.to_nat ?k) ?l 0] |- _ =>
               let v := eval cbv in (nth (Z.to_nat k) l 0) in
               change (nth (Z.to_nat k) l 0) with v in H
           end;
    cbn [andb Z.ltb Z.eqb Z.compare Pos.compare Pos.compare_cont Pos.eqb]
      in Hd, Hd', Heq;
    lia.
Qed.

(** Two dates with the same ordinal are the same date. *)
Lemma ymd2ord_injective (y m d y' m' d' : Z) :
  1 <= m <= 12 -> 1 <= d <= days_in_month y m ->
  1 <= m' <= 12 -> 1 <= d' <= days_in_month y' m' ->
  ymd2ord y m d = ymd2ord y' m' d' -> y = y' /\ m = m' /\ d = d'.
Proof.
  intros Hm Hd Hm' Hd' Heq.
  pose proof (year_span y m d Hm Hd) as Hs.
  pose proof (year_span y' m' d' Hm' Hd') as Hs'.
  assert (Hy : y = y').
  { destruct (Z.lt_trichotomy y y') as [Hlt|[E|Hgt]]; [|exact E|].
    - pose proof (days_before_year_mono (y + 1) y' ltac:(lia)). lia.
    - pose proof (days_before_year_mono (y' + 1) y ltac:(lia)). lia. }
  subst y'. split; [reflexivity|].
  unfold ymd2ord, days_before_month, days_in_month in *.
  apply (month_day_unique (is_leap y)); try assumption. lia.
Qed.

(** [_ord2ymd] gives back the date an ordinal was made from. *)
Lemma ord2ymd_ymd2ord (y m d : Z) :
  MINYEAR <= y -> 1 <= m <= 12 -> 1 <= d <= days_in_month y m ->
  ord2ymd (ymd2ord y m d) = (y, m, d).
Proof.
  intros Hy Hm Hd.
  assert (Hn : 1 <= ymd2ord y m d).
  { pose proof (year_span y m d Hm Hd).
    pose proof (days_before_year_mono 1 y Hy). cbn in *. lia. }
  pose proof (ymd2ord_ord2ymd _ Hn) as H.
  destruct (ord2ymd (ymd2ord y m d)) as [[y' m'] d'].
  destruct H as (Heq & Hm' & Hd' & _).
  destruct (ymd2ord_injective y' m' d' y m d Hm' Hd' Hm Hd Heq)
    as (-> & -> & ->).
  reflexivity.
Qed.

Lemma make_valid (y m d hh mm ss us : Z) (dt : datetime) :
  make y m d hh mm ss us = Ok dt -> valid dt.
Proof.
  unfold make.
  destruct ((MINYEAR <=? y) && (y <=? MAXYEAR) && (1 <=? m) && (m <=? 12)
            && (1 <=? d) && (d <=? days_in_month y m)
            && (0 <=? hh) && (hh <? 24) && (0 <=? mm) && (mm <? 60)
            && (0 <=? ss) && (ss <? 60) && (0 <=? us) && (us <? 1000000))
    eqn:E; [|discriminate].
  intros [= <-]. rewrite !andb_true_iff, !Z.leb_le, !Z.ltb_lt in E.
  unfold valid. cbn [ordinal hour minute second microsecond].
  split; [apply ymd2ord_range; lia | lia].
Qed.

End Datetime_Facts.

(** ** f_32 *)

Module F32_Facts.
Import Datetime Datetime_Facts F32.

Lemma is_business_day_shift (d : datetime) (n : Z) :
  is_business_day (shift d n) = business_ordinal (ordinal d + n).
Proof. reflexivity. Qed.

Lemma valid_shift (d : datetime) (n : Z) :
  valid d -> 1 <= ordinal d + n <= MAXORDINAL -> valid (shift d n).
Proof. intros (_ & H) Hn. split; [exact Hn | exact H]. Qed.

Lemma shift_shift (d : datetime) (n m : Z) :
  shift (shift d n) m = shift d (n + m).
Proof. unfold shift; cbn. now rewrite Z.add_assoc. Qed.

Lemma step (d : datetime) (n m : Z) :
  valid d -> 0 <= n -> m = n + 1 -> ordinal d + m <= MAXORDINAL ->
  add (shift d n) (timedelta_new 1 0 0) = Ok (shift d m).
Proof.
  intros Hv Hn -> Hmax.
  assert (Hv' : valid (shift d n)).
  { apply valid_shift; [exact Hv|]. destruct Hv as ((? & ?) & _).
    unfold MAXORDINAL in *. lia. }
  rewrite add_days by exact Hv'.
  destruct Hv as ((Hlo & _) & _).
  cbn [shift ordinal hour minute second microsecond].
  replace ((0 <? ordinal d + n + 1) && (ordinal d + n + 1 <=? MAXORDINAL))
    with true.
  - unfold shift. now rewrite Z.add_assoc.
  - symmetry. apply andb_true_intro. split.
    + apply Z.ltb_lt. lia.
    + apply Z.leb_le. lia.
Qed.

Lemma step_overflow (d : datetime) :
  valid d -> ordinal d = MAXORDINAL ->
  add d (timedelta_new 1 0 0) = Raise OverflowError.
Proof.
  intros Hv Hmax. rewrite add_days by exact Hv. rewrite Hmax. reflexivity.
Qed.

Lemma business_ordinal_true (o : Z) :
  business_ordinal o = true <-> (o + 6) mod 7 < 5.
Proof.
  unfold business_ordinal. rewrite andb_true_iff, Z.leb_le, Z.ltb_lt.
  pose proof (Z.mod_pos_bound (o + 6) 7). lia.
Qed.

Lemma business_ordinal_false (o : Z) :
  business_ordinal o = false <-> 5 <= (o + 6) mod 7.
Proof.
  rewrite <- not_true_iff_false, business_ordinal_true. lia.
Qed.

Lemma gap_cases (w : Z) :
  (w = 4 /\ gap w = 3) \/ (w = 5 /\ gap w = 2)
  \/ (w <> 4 /\ w <> 5 /\ gap w = 1).
Proof.
  unfold gap.
  destruct (Z.eq_dec w 4) as [->|H4]; [left; split; reflexivity|].
  destruct (Z.eq_dec w 5) as [->|H5]; [right; left; split; reflexivity|].
  right; right. apply Z.eqb_neq in H4, H5. rewrite H4, H5.
  apply Z.eqb_neq in H4, H5. auto.
Qed.

(** From a date before the last one, the next business day is at most three
    days away and representable. *)
Lemma gap_facts (o : Z) :
  1 <= o < MAXORDINAL ->
  1 <= gap ((o + 6) mod 7) <= 3
  /\ o + gap ((o + 6) mod 7) <= MAXORDINAL
  /\ business_ordinal (o + gap ((o + 6) mod 7)) = true
  /\ (forall k, o < k < o + gap ((o + 6) mod 7) -> business_ordinal k = false).
Proof.
  intros Ho. unfold MAXORDINAL in *.
  rewrite business_ordinal_true.
  assert (Hweekend : forall k,
             o < k < o + gap ((o + 6) mod 7) -> 5 <= (k + 6) mod 7).
  { intros k.
    destruct (gap_cases ((o + 6) mod 7)) as [(W & ->)|[(W & ->)|(W4 & W5 & ->)]];
      intros Hk; divmod. }
  repeat split.
  - destruct (gap_cases ((o + 6) mod 7)) as [(_ & ->)|[(_ & ->)|(_ & _ & ->)]]; lia.
  - destruct (gap_cases ((o + 6) mod 7)) as [(_ & ->)|[(_ & ->)|(_ & _ & ->)]]; lia.
  - destruct (gap_cases ((o + 6) mod 7)) as [(W & ->)|[(W & ->)|(W4 & W5 & ->)]];
      divmod.
  - destruct (gap_cases ((o + 6) mod 7)) as [(W & ->)|[(W & ->)|(W4 & W5 & ->)]];
      divmod.
  - intros k Hk. apply business_ordinal_false. now apply Hweekend.
Qed.

(** What the loop computes, for every date but the last. *)
Lemma advance_three (d : datetime) :
  valid d -> ordinal d < MAXORDINAL ->
  advance 3 d = Returned (shift d (gap (weekday d))).
Proof.
  intros Hv Hlt.
  assert (Hd : d = shift d 0).
  { destruct d; unfold shift; cbn. now rewrite Z.add_0_r. }
  destruct Hv as ((Hlo & Hhi) & Ht).
  assert (Hv : valid d) by (split; [split|]; assumption).
  destruct (gap_facts (ordinal d) (conj Hlo Hlt)) as (Hg & Hmax & Hb & Hweekend).
  fold (weekday d) in *. fold (toordinal d) in *.
  unfold weekday in Hg, Hmax, Hb, Hweekend. unfold toordinal in *.
  cbn [advance].
  rewrite Hd at 1. rewrite (step d 0 1) by (try assumption; lia).
  rewrite is_business_day_shift.
  destruct (business_ordinal (ordinal d + 1)) eqn:B1.
  { replace (gap (weekday d)) with 1; [reflexivity|].
    unfold weekday, toordinal.
    destruct (Z.eq_dec (gap ((ordinal d + 6) mod 7)) 1) as [E|E]; [now rewrite E|].
    rewrite (Hweekend (ordinal d + 1)) in B1 by lia. discriminate. }
  assert (G2 : 2 <= gap ((ordinal d + 6) mod 7)).
  { destruct (Z.eq_dec (gap ((ordinal d + 6) mod 7)) 1) as [E|E]; [|lia].
    rewrite E in Hb. congruence. }
  rewrite (step d 1 2) by (try assumption; lia).
  rewrite is_business_day_shift.
  destruct (business_ordinal (ordinal d + 2)) eqn:B2.
  { replace (gap (weekday d)) with 2; [reflexivity|].
    unfold weekday, toordinal.
    destruct (Z.eq_dec (gap ((ordinal d + 6) mod 7)) 2) as [E|E]; [now rewrite E|].
    rewrite (Hweekend (ordinal d + 2)) in B2 by lia. discriminate. }
  assert (G3 : gap ((ordinal d + 6) mod 7) = 3).
  { destruct (Z.eq_dec (gap ((ordinal d + 6) mod 7)) 2) as [E|E]; [|lia].
    rewrite E in Hb. congruence. }
  rewrite (step d 2 3) by (try assumption; lia).
  rewrite is_business_day_shift.
  rewrite G3 in Hb. rewrite Hb.
  unfold weekday, toordinal. now rewrite G3.
Qed.

(** More fuel never changes an answer already reached. *)
Lemma advance_more_fuel (fuel extra : nat) (d r : datetime) :
  advance fuel d = Returned r -> advance (fuel + extra) d = Returned r.
Proof.
  revert d; induction fuel as [|fuel IH]; intros d; cbn [advance Nat.add].
  - discriminate.
  - destruct (add d (timedelta_new 1 0 0)) as [d'|e]; [|discriminate].
    destruct (is_business_day d'); [trivial|]. apply IH.
Qed.

Lemma returned_of_parse (parse : string -> result datetime)
      (date_str : string) (d : datetime) (fuel : nat) :
  parse date_str = Ok d -> f_32 parse fuel date_str = advance fuel d.
Proof. intros H. unfold f_32. now rewrite H. Qed.

(** The parser for the documented format returns valid datetimes. *)
Lemma parse_iso_valid (date_str : string) (d : datetime) :
  parse_iso date_str = Ok d -> valid d.
Proof.
  unfold parse_iso.
  destruct (list_ascii_of_string date_str)
    as [|y1 [|y2 [|y3 [|y4 [|s1 [|m1 [|m2 [|s2 [|d1 [|d2 [|? ?]]]]]]]]]]];
    try discriminate.
  destruct (Ascii.eqb s1 dash && Ascii.eqb s2 dash); [|discriminate].
  destruct (digits_value 0 [y1; y2; y3; y4]) as [y|]; [|discriminate].
  destruct (digits_value 0 [m1; m2]) as [m|]; [|discriminate].
  destruct (digits_value 0 [d1; d2]) as [dd|]; [|discriminate].
  destruct (make y m dd 0 0 0 0) as [dt|e] eqn:E; [|discriminate].
  intros [= <-]. eapply make_valid, E.
Qed.

(** C8 (amended). For every date string that parses to a date before
    9999-12-31, [f_32] returns (three loop iterations always suffice) the
    first datetime after the input, going one day at a time and keeping the
    time of day, whose weekday is Monday to Friday: every date strictly
    between the input and the result is a Saturday or a Sunday.  In
    particular [f_32('2022-10-22')] (a Saturday) is Monday 2022-10-24 and
    [f_32('2022-10-28')] (a Friday) is Monday 2022-10-31. *)
Theorem f_32_next_business_day :
  (forall (parse : string -> result datetime) (date_str : string)
          (d : datetime),
      parse date_str = Ok d -> valid d -> ordinal d < MAXORDINAL ->
      exists r : datetime,
        (forall fuel, (3 <= fuel)%nat -> f_32 parse fuel date_str = Returned r)
        /\ valid r
        /\ ordinal d < ordinal r
        /\ is_business_day r = true
        /\ (forall d' : datetime,
               ordinal d < ordinal d' < ordinal r ->
               is_business_day d' = false)
        /\ (hour r, minute r, second r, microsecond r)
           = (hour d, minute d, second d, microsecond d))
  /\ (weekday (date 2022 10 22) = 5
      /\ f_32 parse_iso 3 "2022-10-22" = Returned (date 2022 10 24)
      /\ weekday (date 2022 10 24) = 0)
  /\ (weekday (date 2022 10 28) = 4
      /\ f_32 parse_iso 3 "2022-10-28" = Returned (date 2022 10 31)
      /\ weekday (date 2022 10 31) = 0).
Proof.
  split; [|split; repeat split; reflexivity].
  intros parse date_str d Hparse Hv Hlt.
  pose proof Hv as ((Hlo & Hhi) & Ht).
  destruct (gap_facts (ordinal d) (conj Hlo Hlt)) as (Hg & Hmax & Hb & Hweekend).
  exists (shift d (gap (weekday d))).
  unfold weekday at 1 2 3 4 5. unfold toordinal.
  split; [|split; [|split; [|split; [|split]]]].
  - intros fuel Hfuel. rewrite (returned_of_parse _ _ d) by exact Hparse.
    replace fuel with (3 + (fuel - 3))%nat by lia.
    apply advance_more_fuel. now apply advance_three.
  - apply valid_shift; [exact Hv|]. lia.
  - cbn. lia.
  - rewrite is_business_day_shift. exact Hb.
  - intros d' Hd'. cbn in Hd'.
    change (is_business_day d') with (business_ordinal (ordinal d')).
    apply Hweekend. exact Hd'.
  - reflexivity.
Qed.

(** The general part of C8 at Friday 2022-10-28. *)
Lemma f_32_next_business_day_witness :
  exists r : datetime,
    (forall fuel, (3 <= fuel)%nat ->
                  f_32 parse_iso fuel "2022-10-28" = Returned r)
    /\ valid r
    /\ ordinal (date 2022 10 28) < ordinal r
    /\ is_business_day r = true
    /\ (forall d' : datetime,
           ordinal (date 2022 10 28) < ordinal d' < ordinal r ->
           is_business_day d' = false)
    /\ (hour r, minute r, second r, microsecond r) = (0, 0, 0, 0).
Proof.
  apply (proj1 f_32_next_business_day parse_iso "2022-10-28"%string
               (date 2022 10 28)).
  - reflexivity.
  - apply validb_valid. reflexivity.
  - reflexivity.
Defined.

(** C8 as stated fails at the last representable date: 9999-12-31 parses,
    is a Friday, and the first [+ timedelta(days=1)] raises. *)
Lemma f_32_last_date_raises :
  parse_iso "9999-12-31" = Ok (date 9999 12 31)
  /\ weekday (date 9999 12 31) = 4
  /\ (forall fuel : nat,
         f_32 parse_iso (S fuel) "9999-12-31" = Raised OverflowError).
Proof. repeat split. Qed.

(** C10 (amended). For every parsed date the loop of [f_32] stops within
    three iterations.  When the date is before 9999-12-31 it stops by
    returning a datetime at least one and at most three days after the
    input, so [f_32] is total on such inputs; at 9999-12-31 it stops in its
    first iteration by raising [OverflowError].  Three iterations are
    needed from a Friday. *)
Theorem f_32_terminates_in_three :
  (forall (parse : string -> result datetime) (date_str : string)
          (d : datetime),
      parse date_str = Ok d -> valid d ->
      f_32 parse 3 date_str <> OutOfFuel
      /\ (ordinal d < MAXORDINAL ->
          exists r : datetime,
            f_32 parse 3 date_str = Returned r
            /\ 1 <= ordinal r - ordinal d <= 3)
      /\ (ordinal d = MAXORDINAL ->
          f_32 parse 1 date_str = Raised OverflowError))
  /\ f_32 parse_iso 2 "2022-10-28" = OutOfFuel.
Proof.
  split; [|reflexivity].
  intros parse date_str d Hparse Hv.
  rewrite !(returned_of_parse _ _ d) by exact Hparse.
  pose proof Hv as ((Hlo & Hhi) & Ht).
  assert (Hlast : ordinal d = MAXORDINAL ->
                  forall fuel, advance (S fuel) d = Raised OverflowError).
  { intros E fuel. cbn [advance]. now rewrite step_overflow. }
  assert (Hbefore : ordinal d < MAXORDINAL ->
                    advance 3 d = Returned (shift d (gap (weekday d)))).
  { intros Hlt. now apply advance_three. }
  split; [|split].
  - destruct (Z.eq_dec (ordinal d) MAXORDINAL) as [E|E].
    + rewrite (Hlast E). discriminate.
    + rewrite Hbefore by lia. discriminate.
  - intros Hlt. exists (shift d (gap (weekday d))). split; [now apply Hbefore|].
    destruct (gap_facts (ordinal d) (conj Hlo Hlt)) as (Hg & _).
    unfold weekday, toordinal. cbn. lia.
  - intros E. now apply Hlast.
Qed.

(** C10 at Friday 2022-10-28: three iterations, three days. *)
Lemma f_32_terminates_in_three_witness :
  f_32 parse_iso 3 "2022-10-28" <> OutOfFuel
  /\ exists r : datetime,
      f_32 parse_iso 3 "2022-10-28" = Returned r
      /\ 1 <= ordinal r - ordinal (date 2022 10 28) <= 3.
Proof.
  destruct (proj1 f_32_terminates_in_three parse_iso "2022-10-28"%string
                  (date 2022 10 28))
    as (Hstops & Hreturns & _).
  - reflexivity.
  - apply validb_valid. reflexivity.
  - split; [exact Hstops|]. apply Hreturns. reflexivity.
Defined.

(** C10 as stated fails at 9999-12-31: a valid datetime from which the
    loop does not return. *)
Lemma advance_last_date_raises :
  validb (date 9999 12 31) = true
  /\ ordinal (date 9999 12 31) = MAXORDINAL
  /\ advance 3 (date 9999 12 31) = Raised OverflowError.
Proof. repeat split. Qed.

End F32_Facts.

(** ** f_391 *)

Module F391_Facts.
Import Py Random Random_Facts F391.

Lemma getitem_first {A} (x : A) (l : list A) : getitem (x :: l) 0 = Ok x.
Proof.
  unfold getitem. change (0 <? 0) with false. cbv iota.
  replace ((0 <=? 0) && (0 <? Z.of_nat (List.length (x :: l)))) with true.
  - reflexivity.
  - symmetry. apply andb_true_intro. split; [reflexivity|].
    apply Z.ltb_lt. cbn [List.length]. lia.
Qed.

Lemma getitem_second {A} (x y : A) (l : list A) :
  getitem (x :: y :: l) 1 = Ok y.
Proof.
  unfold getitem. change (1 <? 0) with false. cbv iota.
  replace ((0 <=? 1) && (1 <? Z.of_nat (List.length (x :: y :: l)))) with true.
  - reflexivity.
  - symmetry. apply andb_true_intro. split; [reflexivity|].
    apply Z.ltb_lt. cbn [List.length]. lia.
Qed.

Section WithGenerator.
Context {G : Generator}.
Variable allocate : Z * Z -> result unit.

(** What [f_391] does on a pair of pairs. *)
Lemma f_391_pairs (a b c d : Z) (s : gstate) :
  f_391 allocate [[a; b]; [c; d]] s = after_reading allocate a b c d s.
Proof.
  unfold after_reading.
  unfold f_391. unfold bind at 1 2 3 4 5 6.
  rewrite !getitem_first. unfold of_result at 1 2. cbv beta iota.
  rewrite !getitem_second. unfold of_result at 1 2. cbv beta iota.
  rewrite !getitem_first. unfold of_result at 1. cbv beta iota.
  rewrite !getitem_second. unfold of_result at 1. cbv beta iota zeta.
  unfold np_random_randint, RANGE, bind, ret, raise, lift, DataFrame,
    of_result.
  cbn [fst snd]. change (100 <=? 1) with false. cbv iota.
  destruct ((a * b <? 0) || (c * d <? 0)); [reflexivity|].
  destruct (allocate (a * b, c * d)) as [[]|e]; [|reflexivity].
  cbv beta iota.
  destruct (draw_matrix _ _ 1 100 s) as [m s']. reflexivity.
Qed.

End WithGenerator.

(** C7 (amended). For every pairs-of-pairs input whose two products are not
    negative and whose shape numpy can allocate, [f_391] returns a table whose
    row count is the product of the first pair and whose column count is the
    product of the second pair, and every value in it is an integer from 1 to
    99.  When a product is negative it raises [ValueError]; when numpy refuses
    the shape (a dimension or a size beyond its index range, or more memory
    than there is) it raises numpy's exception.  In both cases nothing is
    drawn. *)
Theorem f_391_shape_and_range :
  forall (G : Generator) (allocate : Z * Z -> result unit)
         (a b c d : Z) (s : gstate),
    (0 <= a * b -> 0 <= c * d -> allocate (a * b, c * d) = Ok tt ->
     exists (df : table) (s' : gstate),
       f_391 allocate [[a; b]; [c; d]] s = (Ok df, s')
       /\ shape df = (a * b, c * d)
       /\ Z.of_nat (List.length (values df)) = a * b
       /\ Forall (fun row => Z.of_nat (List.length row) = c * d
                             /\ Forall (fun v => 1 <= v <= 99) row)
                 (values df))
    /\ (a * b < 0 \/ c * d < 0 ->
        f_391 allocate [[a; b]; [c; d]] s = (Raise ValueError, s))
    /\ (forall e : exn,
           0 <= a * b -> 0 <= c * d -> allocate (a * b, c * d) = Raise e ->
           f_391 allocate [[a; b]; [c; d]] s = (Raise e, s)).
Proof.
  intros G allocate a b c d s. rewrite f_391_pairs. unfold after_reading.
  split; [|split].
  - intros Hr Hc Hmem.
    replace ((a * b <? 0) || (c * d <? 0)) with false.
    2:{ symmetry. apply orb_false_intro; apply Z.ltb_ge; assumption. }
    rewrite Hmem.
    pose proof (draw_matrix_spec (Z.to_nat (a * b)) (Z.to_nat (c * d)) 1 100 s
                                 ltac:(lia)) as [Hlen Hall].
    destruct (draw_matrix _ _ 1 100 s) as [m s']. cbn [fst] in *.
    exists (mkTable (a * b, c * d) m), s'. cbn [shape values].
    repeat split.
    + rewrite Hlen. lia.
    + eapply Forall_impl; [|exact Hall]. cbn beta.
      intros row [Hrow Hvals]. split; [rewrite Hrow; lia|].
      eapply Forall_impl; [|exact Hvals]. cbn beta. lia.
  - intros Hneg.
    replace ((a * b <? 0) || (c * d <? 0)) with true; [reflexivity|].
    symmetry. apply orb_true_iff. rewrite !Z.ltb_lt. exact Hneg.
  - intros e Hr Hc Hmem.
    replace ((a * b <? 0) || (c * d <? 0)) with false.
    2:{ symmetry. apply orb_false_intro; apply Z.ltb_ge; assumption. }
    now rewrite Hmem.
Qed.

(** C7 on the example machine with the example generator: [[2, 3], [5, 6]]
    gives a 6 x 30 table; [[2^40, 2^40], [1, 1]] asks for 2^80 rows, which
    is refused. *)
Lemma f_391_shape_and_range_witness :
  (exists (df : table) (s' : Z),
      f_391 (G := lcg) example_allocate [[2; 3]; [5; 6]] 0 = (Ok df, s')
      /\ shape df = (6, 30)
      /\ Z.of_nat (List.length (values df)) = 6
      /\ Forall (fun row => Z.of_nat (List.length row) = 30
                            /\ Forall (fun v => 1 <= v <= 99) row)
                (values df))
  /\ f_391 (G := lcg) example_allocate [[2 ^ 40; 2 ^ 40]; [1; 1]] 0
     = (Raise ValueError, 0).
Proof.
  split.
  - apply (proj1 (f_391_shape_and_range lcg example_allocate 2 3 5 6 0));
      [discriminate | discriminate | reflexivity].
  - apply (proj2 (proj2 (f_391_shape_and_range lcg example_allocate
                           (2 ^ 40) (2 ^ 40) 1 1 0)));
      [discriminate | discriminate | reflexivity].
Defined.

(** C7 as stated fails on a pair of pairs with a negative product:
    [f_391([[-1, 2], [1, 1]])] asks for -2 rows and raises. *)
Lemma f_391_negative_product_raises :
  f_391 (G := lcg) example_allocate [[-1; 2]; [1; 1]] 0
  = (Raise ValueError, 0).
Proof. reflexivity. Qed.

End F391_Facts.

(** ** Regular expressions *)

Module Regex_Facts.
Import Regex.

Lemma nullable_spec (r : regex) : nullable r = true <-> matches r [].
Proof.
  induction r as [| |p|r1 IH1 r2 IH2|r1 IH1 r2 IH2|r IH]; cbn [nullable].
  - split; [discriminate | intros H; inversion H].
  - split; [constructor | reflexivity].
  - split; [discriminate | intros H; inversion H].
  - rewrite andb_true_iff, IH1, IH2. split.
    + intros [H1 H2]. apply (MCat r1 r2 [] []); assumption.
    + intros H. inversion H as [| |? ? u v Hu Hv| | | |]; subst.
      match goal with
      | E : u ++ v = [] |- _ => apply app_eq_nil in E as [-> ->]
      end.
      now split.
  - rewrite orb_true_iff, IH1, IH2. split.
    + intros [H|H]; [now apply MAltL | now apply MAltR].
    + intros H. inversion H; subst; auto.
  - split; [constructor | reflexivity].
Qed.

Lemma matches_star_cons (r : regex) (c : ascii) (w : list ascii) :
  matches (Star r) (c :: w) ->
  exists u v, w = u ++ v /\ matches r (c :: u) /\ matches (Star r) v.
Proof.
  intros H. remember (Star r) as sr eqn:Er. remember (c :: w) as cw eqn:Ew.
  revert w Ew.
  induction H as [| | | | | |r' u v Hu _ Hv IHv]; intros w Ew;
    try discriminate.
  injection Er as ->. destruct u as [|c' u].
  - cbn [app] in Ew. now apply IHv.
  - cbn [app] in Ew. injection Ew as -> <-. now exists u, v.
Qed.

Lemma deriv_spec (r : regex) (c : ascii) (w : list ascii) :
  matches (deriv c r) w <-> matches r (c :: w).
Proof.
  revert w.
  induction r as [| |p|r1 IH1 r2 IH2|r1 IH1 r2 IH2|r IH]; intros w;
    cbn [deriv].
  - split; intros H; inversion H.
  - split; intros H; inversion H.
  - destruct (p c) eqn:Hp; split; intros H; inversion H; subst.
    + now constructor.
    + constructor.
    + congruence.
  - assert (Hcat : matches (Cat (deriv c r1) r2) w
                   <-> exists u v, w = u ++ v /\ matches r1 (c :: u)
                                   /\ matches r2 v).
    { split.
      - intros H. inversion H as [| |? ? u v Hu Hv| | | |]; subst.
        exists u, v. rewrite <- IH1. auto.
      - intros (u & v & -> & Hu & Hv). constructor; [now apply IH1|exact Hv]. }
    assert (Hsplit : matches (Cat r1 r2) (c :: w)
                     <-> (exists u v, w = u ++ v /\ matches r1 (c :: u)
                                      /\ matches r2 v)
                         \/ (matches r1 [] /\ matches r2 (c :: w))).
    { split.
      - intros H. inversion H as [| |? ? u v Hu Hv| | | |]; subst.
        destruct u as [|c' u];
          match goal with
          | E : _ ++ v = c :: w |- _ => cbn [app] in E
          end.
        + right. subst v. now split.
        + match goal with
          | E : c' :: u ++ v = c :: w |- _ => injection E as -> <-
          end.
          left. now exists u, v.
      - intros [(u & v & -> & Hu & Hv)|[Hn Hv]].
        + apply (MCat r1 r2 (c :: u) v); assumption.
        + apply (MCat r1 r2 [] (c :: w)); assumption. }
    rewrite Hsplit. destruct (nullable r1) eqn:Hn.
    + apply nullable_spec in Hn. split.
      * intros H. inversion H; subst.
        -- left. now apply Hcat.
        -- right. split; [exact Hn | now apply IH2].
      * intros [H|[_ H]].
        -- apply MAltL. now apply Hcat.
        -- apply MAltR. now apply IH2.
    + rewrite Hcat. split; [auto|]. intros [H|[H _]]; [exact H|].
      apply nullable_spec in H. congruence.
  - split.
    + intros H. inversion H; subst.
      * apply MAltL. now apply IH1.
      * apply MAltR. now apply IH2.
    + intros H. inversion H; subst.
      * apply MAltL. now apply IH1.
      * apply MAltR. now apply IH2.
  - split.
    + intros H. inversion H as [| |? ? u v Hu Hv| | | |]; subst.
      apply (MStarCons r (c :: u) v); [now apply IH | exact Hv].
    + intros H. apply matches_star_cons in H as (u & v & -> & Hu & Hv).
      constructor; [now apply IH | exact Hv].
Qed.

(** The matcher decides whether a prefix of the input is in the language. *)
Lemma prefix_matches_spec (r : regex) (l : list ascii) :
  prefix_matches r l = true
  <-> exists u v, l = u ++ v /\ matches r u.
Proof.
  revert r. induction l as [|c l IH]; intros r; cbn [prefix_matches].
  - rewrite orb_false_r, nullable_spec. split.
    + intros H. now exists [], [].
    + intros (u & v & E & H). symmetry in E.
      apply app_eq_nil in E as [-> _]. exact H.
  - rewrite orb_true_iff, nullable_spec, IH. split.
    + intros [H|(u & v & -> & H)].
      * now exists [], (c :: l).
      * exists (c :: u), v. split; [reflexivity | now apply deriv_spec].
    + intros (u & v & E & H). destruct u as [|c' u]; [now left|].
      cbn [app] in E. injection E as <- ->. right. exists u, v.
      split; [reflexivity | now apply deriv_spec].
Qed.

Lemma matches_star_class (p : ascii -> bool) (u : list ascii) :
  matches (Star (Class p)) u <-> Forall (fun c => p c = true) u.
Proof.
  split.
  - intros H. remember (Star (Class p)) as sr eqn:Er.
    induction H as [| | | | | |r' u v Hu _ Hv IHv]; try discriminate.
    + constructor.
    + injection Er as ->. inversion Hu; subst. cbn [app].
      constructor; [assumption | now apply IHv].
  - induction 1 as [|c u Hc _ IH]; [constructor|].
    apply (MStarCons (Class p) [c] u); [now constructor | exact IH].
Qed.

Lemma matches_plus_class (p : ascii -> bool) (u : list ascii) :
  matches (Plus (Class p)) u
  <-> u <> [] /\ Forall (fun c => p c = true) u.
Proof.
  unfold Plus. split.
  - intros H. inversion H as [| |? ? a b Ha Hb| | | |]; subst.
    inversion Ha; subst. cbn [app]. split; [discriminate|].
    constructor; [assumption | now apply matches_star_class].
  - intros [Hne Hall]. destruct u as [|c u]; [contradiction|].
    inversion Hall; subst.
    apply (MCat (Class p) (Star (Class p)) [c] u);
      [now constructor | now apply matches_star_class].
Qed.

End Regex_Facts.

(** ** f_220 *)

Module F220_Facts.
Import Py Regex Regex_Facts F220.

(** A dot, then digits. *)
Lemma matches_dot_digits (w : list ascii) :
  matches (Cat (Class dot) (Plus (Class digit))) w
  <-> exists b, w = "."%char :: b /\ digits b.
Proof.
  split.
  - intros H. inversion H as [| |? ? u v Hu Hv| | | |]; subst.
    inversion Hu as [|? c Hc| | | | |]; subst.
    apply Ascii.eqb_eq in Hc. subst c.
    exists v. split; [reflexivity | now apply matches_plus_class].
  - intros (b & -> & Hb).
    apply (MCat (Class dot) (Plus (Class digit)) ["."%char] b).
    + now constructor.
    + now apply matches_plus_class.
Qed.

(** The language of [IP_REGEX] is the dotted quads. *)
Lemma IP_REGEX_language (u : list ascii) :
  matches IP_REGEX u <-> dotted_quad u.
Proof.
  unfold IP_REGEX, dotted_quad. cbn [Times]. split.
  - intros H. inversion H as [| |? ? a w1 Ha H1| | | |]; subst.
    inversion H1 as [| |? ? x1 w2 Hx1 H2| | | |]; subst.
    inversion H2 as [| |? ? x2 w3 Hx2 H3| | | |]; subst.
    inversion H3 as [| |? ? x3 w4 Hx3 H4| | | |]; subst.
    inversion H4; subst.
    apply matches_plus_class in Ha.
    apply matches_dot_digits in Hx1 as (b & -> & Hb).
    apply matches_dot_digits in Hx2 as (c & -> & Hc).
    apply matches_dot_digits in Hx3 as (d & -> & Hd).
    exists a, b, c, d. rewrite app_nil_r. cbn [app]. auto.
  - intros (a & b & c & d & -> & Ha & Hb & Hc & Hd).
    apply MCat; [now apply matches_plus_class|].
    apply (MCat _ _ ("."%char :: b) ("."%char :: c ++ "."%char :: d)).
    { apply matches_dot_digits. now exists b. }
    apply (MCat _ _ ("."%char :: c) ("."%char :: d)).
    { apply matches_dot_digits. now exists c. }
    rewrite <- (app_nil_r ("."%char :: d)).
    apply MCat; [|constructor].
    apply matches_dot_digits. now exists d.
Qed.

(** [re.match(IP_REGEX, s)] succeeds exactly on the strings that start with
    a dotted quad. *)
Lemma re_match_IP_REGEX (s : string) :
  re_match IP_REGEX s = true <-> starts_with_dotted_quad s.
Proof.
  unfold re_match, starts_with_dotted_quad. rewrite prefix_matches_spec.
  split; intros (u & v & E & H); exists u, v; (split; [exact E|]);
    now apply IP_REGEX_language.
Qed.

Lemma filter_twice {A} (f g : A -> bool) (l : list A) :
  filter f (filter g l) = filter (fun x => g x && f x) l.
Proof.
  induction l as [|x l IH]; [reflexivity|]. cbn [filter].
  destruct (g x); cbn [filter andb]; [destruct (f x)|]; now rewrite IH.
Qed.

Lemma in_first_seen (l : list string) (x : string) :
  In x (first_seen l) <-> In x l.
Proof.
  induction l as [|y l IH]; [reflexivity|]. cbn [first_seen In].
  rewrite filter_In, IH, negb_true_iff.
  destruct (String.eqb_spec y x) as [->|Hne]; [tauto|].
  split; [tauto|]. intros [E|Hin]; [tauto|]. right. auto.
Qed.

Lemma NoDup_filter {A} (f : A -> bool) (l : list A) :
  NoDup l -> NoDup (filter f l).
Proof.
  induction 1 as [|x l Hx Hnd IH]; cbn [filter]; [constructor|].
  destruct (f x); [|exact IH]. constructor; [|exact IH].
  rewrite filter_In. tauto.
Qed.

Lemma NoDup_first_seen (l : list string) : NoDup (first_seen l).
Proof.
  induction l as [|x l IH]; cbn [first_seen]; constructor.
  - rewrite filter_In, negb_true_iff, String.eqb_refl. intros [_ H].
    discriminate.
  - now apply NoDup_filter.
Qed.

Lemma absent_spec (ks : list string) (k : string) :
  absent ks k = true <-> ~ In k ks.
Proof.
  unfold absent. rewrite negb_true_iff, <- not_true_iff_false, existsb_exists.
  split; intros H Hin; apply H.
  - exists k. split; [exact Hin | apply String.eqb_refl].
  - destruct Hin as (y & Hy & E). apply String.eqb_eq in E. now subst.
Qed.

Lemma absent_app (ks : list string) (k y : string) :
  absent (ks ++ [k]) y = absent ks y && negb (String.eqb k y).
Proof.
  unfold absent. rewrite existsb_app. cbn [existsb].
  rewrite orb_false_r, negb_orb, (String.eqb_sym y k). reflexivity.
Qed.

(** Keys after an assignment. *)
Lemma keys_dict_set {V} (d : dict V) (k : string) (v : V) :
  keys (dict_set d k v) = if absent (keys d) k then keys d ++ [k] else keys d.
Proof.
  unfold absent, keys. induction d as [|[k' v'] d IH]; [reflexivity|].
  cbn [dict_set map fst existsb]. rewrite (String.eqb_sym k k').
  destruct (String.eqb k' k); cbn [map fst negb orb]; [reflexivity|].
  rewrite IH. now destruct (existsb (String.eqb k) (map fst d)).
Qed.

Lemma values_dict_set {V} (P : V -> Prop) (d : dict V) (k : string) (v : V) :
  Forall (fun kv => P (snd kv)) d -> P v ->
  Forall (fun kv => P (snd kv)) (dict_set d k v).
Proof.
  intros Hd Hv. induction Hd as [|[k' v'] d Hkv Hd IH]; cbn [dict_set].
  - constructor; [exact Hv | constructor].
  - destruct (String.eqb k' k); constructor; auto.
Qed.

Section WithResolver.
Variable net : Type.
Variable gethostbyaddr : string -> M net hostent.

(** One iteration either leaves the dictionary alone (no match) or assigns
    to the key [ip]. *)
Lemma visit_ok (hostnames d : dict (option string)) (ip : string)
      (s s' : net) :
  visit net gethostbyaddr hostnames ip s = (Ok d, s') ->
  (re_match IP_REGEX ip = false /\ d = hostnames)
  \/ (re_match IP_REGEX ip = true
      /\ ((exists ent, gethostbyaddr ip s = (Ok ent, s')
                       /\ d = dict_set hostnames ip (Some (fst (fst ent))))
          \/ d = dict_set hostnames ip None)).
Proof.
  unfold visit. destruct (re_match IP_REGEX ip).
  - unfold try_except, bind, ret.
    destruct (gethostbyaddr ip s) as [[ent|e] s1] eqn:E.
    + intros [= <- <-]. right. split; [reflexivity|]. left. now exists ent.
    + destruct (resolution_error e); [|discriminate].
      intros [= <- <-]. right. split; [reflexivity|]. now right.
  - unfold ret. intros [= <- <-]. now left.
Qed.

Lemma keys_for_each (l : list string) (acc d : dict (option string))
      (s s' : net) :
  for_each l (visit net gethostbyaddr) acc s = (Ok d, s') ->
  keys d
  = keys acc
    ++ filter (absent (keys acc)) (first_seen (filter (re_match IP_REGEX) l)).
Proof.
  revert acc s. induction l as [|ip l IH]; intros acc s; cbn [for_each].
  - unfold ret. intros [= <- <-]. cbn. now rewrite app_nil_r.
  - unfold bind at 1.
    destruct (visit net gethostbyaddr acc ip s) as [[acc'|e] s1] eqn:Ev;
      [|discriminate].
    intros Hrest. apply IH in Hrest. rewrite Hrest. clear Hrest.
    cbn [filter].
    apply visit_ok in Ev as [[Hno ->]|[Hyes Hset]].
    + now rewrite Hno.
    + rewrite Hyes. cbn [first_seen filter].
      assert (Hkeys : keys acc'
                      = if absent (keys acc) ip then keys acc ++ [ip]
                        else keys acc).
      { destruct Hset as [(ent & _ & ->)| ->]; apply keys_dict_set. }
      rewrite Hkeys. rewrite filter_twice.
      destruct (absent (keys acc) ip) eqn:Hab.
      * rewrite <- app_assoc. cbn [app]. do 2 f_equal.
        apply filter_ext. intros y. rewrite absent_app. apply andb_comm.
      * f_equal. apply filter_ext_in. intros y _.
        destruct (String.eqb_spec ip y) as [<-|Hne]; cbn [negb andb].
        -- exact Hab.
        -- reflexivity.
Qed.

Lemma values_for_each (P : option string -> Prop) (l : list string)
      (acc d : dict (option string)) (s s' : net) :
  P None ->
  (forall ip s ent s', gethostbyaddr ip s = (Ok ent, s') ->
                       P (Some (fst (fst ent)))) ->
  Forall (fun kv => P (snd kv)) acc ->
  for_each l (visit net gethostbyaddr) acc s = (Ok d, s') ->
  Forall (fun kv => P (snd kv)) d.
Proof.
  intros HNone HSome. revert acc s.
  induction l as [|ip l IH]; intros acc s Hacc; cbn [for_each].
  - unfold ret. now intros [= <- <-].
  - unfold bind at 1.
    destruct (visit net gethostbyaddr acc ip s) as [[acc'|e] s1] eqn:Ev;
      [|discriminate].
    apply IH.
    apply visit_ok in Ev as [[_ ->]|[_ [(ent & Hent & ->)| ->]]].
    + exact Hacc.
    + apply values_dict_set; [exact Hacc|]. eapply HSome, Hent.
    + now apply values_dict_set.
Qed.

(** With a resolver that raises nothing but the two caught classes, every
    call returns. *)
Lemma for_each_returns (l : list string) (acc : dict (option string))
      (s : net) :
  (forall ip s e s', gethostbyaddr ip s = (Raise e, s') ->
                     resolution_error e = true) ->
  exists d s', for_each l (visit net gethostbyaddr) acc s = (Ok d, s').
Proof.
  intros Hcaught. revert acc s.
  induction l as [|ip l IH]; intros acc s; cbn [for_each].
  - now exists acc, s.
  - unfold bind at 1.
    assert (Hv : exists acc' s1,
               visit net gethostbyaddr acc ip s = (Ok acc', s1)).
    { unfold visit. destruct (re_match IP_REGEX ip); [|now exists acc, s].
      unfold try_except, bind, ret.
      destruct (gethostbyaddr ip s) as [[ent|e] s1] eqn:E.
      - now eexists _, s1.
      - rewrite (Hcaught _ _ _ _ E). now eexists _, s1. }
    destruct Hv as (acc' & s1 & ->). apply IH.
Qed.

End WithResolver.

(** C1. For every input list, every key of the dictionary [f_220] returns is
    an element of the list that matches the dotted-quad pattern (as
    [re.match] tests it, at the start of the string); the keys are the
    matching elements in first-seen order, without repetition; and every
    value is either [None] or the name the resolver gave, which is non-empty
    for a resolver that returns non-empty names.  The call returns whenever
    the resolver raises nothing but [herror] and [gaierror]. *)
Theorem f_220_keys_and_values :
  forall (net : Type) (gethostbyaddr : string -> M net hostent),
    (forall ip s h aliases addrs s',
        gethostbyaddr ip s = (Ok (h, aliases, addrs), s') ->
        h <> EmptyString) ->
    forall (ip_addresses : list string) (s : net),
      (forall d s',
          f_220 net gethostbyaddr ip_addresses s = (Ok d, s') ->
          keys d = first_seen (filter (re_match IP_REGEX) ip_addresses)
          /\ NoDup (keys d)
          /\ (forall k, In k (keys d) ->
                        In k ip_addresses /\ re_match IP_REGEX k = true
                        /\ starts_with_dotted_quad k)
          /\ Forall (fun kv => value_ok (snd kv)) d)
      /\ ((forall ip s e s', gethostbyaddr ip s = (Raise e, s') ->
                             resolution_error e = true) ->
          exists d s', f_220 net gethostbyaddr ip_addresses s = (Ok d, s')).
Proof.
  intros net gethostbyaddr Hname ip_addresses s. split.
  - intros d s' Hrun. unfold f_220 in Hrun.
    assert (Hkeys : keys d
                    = first_seen (filter (re_match IP_REGEX) ip_addresses)).
    { rewrite (keys_for_each _ _ _ _ _ _ _ Hrun). cbn [keys map app].
      apply forallb_filter_id. apply forallb_forall. reflexivity. }
    split; [exact Hkeys|]. split; [|split].
    + rewrite Hkeys. apply NoDup_first_seen.
    + intros k. rewrite Hkeys, in_first_seen, filter_In.
      rewrite <- re_match_IP_REGEX. tauto.
    + eapply (values_for_each _ _ value_ok); [| |constructor|exact Hrun].
      * now left.
      * intros ip s0 [[h al] il] s0' Hent. right. exists h.
        split; [reflexivity|]. eapply Hname, Hent.
  - intros Hcaught. now apply for_each_returns.
Qed.

(** C1 at a list with a repeated address, a failing address and a string
    that is no address: two keys in first-seen order, one name, one [None],
    after three lookups. *)
Lemma f_220_keys_and_values_witness :
  f_220 nat example_resolver
        ["8.8.8.8"; "not an ip"; "256.256.256.256"; "8.8.8.8"]%string O
  = (Ok [("8.8.8.8"%string, Some "dns.google"%string);
         ("256.256.256.256"%string, None)], 3%nat)
  /\ NoDup ["8.8.8.8"; "256.256.256.256"]%string
  /\ (forall k, In k ["8.8.8.8"; "256.256.256.256"]%string ->
         In k ["8.8.8.8"; "not an ip"; "256.256.256.256"; "8.8.8.8"]%string
         /\ re_match IP_REGEX k = true
         /\ starts_with_dotted_quad k)
  /\ Forall (fun kv => value_ok (snd kv))
            [("8.8.8.8"%string, Some "dns.google"%string);
             ("256.256.256.256"%string, None)]
  /\ exists d s',
      f_220 nat example_resolver
            ["8.8.8.8"; "not an ip"; "256.256.256.256"; "8.8.8.8"]%string
            O = (Ok d, s').
Proof.
  assert (Hname : forall ip s h aliases addrs s',
             example_resolver ip s = (Ok (h, aliases, addrs), s') ->
             h <> EmptyString).
  { intros ip s h aliases addrs s'. unfold example_resolver.
    destruct (String.eqb ip "8.8.8.8"); [|discriminate].
    intros [= <- _ _ _]. discriminate. }
  assert (Hcaught : forall ip s e s',
             example_resolver ip s = (Raise e, s') ->
             resolution_error e = true).
  { intros ip s e s'. unfold example_resolver.
    destruct (String.eqb ip "8.8.8.8"); [discriminate|].
    now intros [= <- _]. }
  assert (Hrun : f_220 nat example_resolver
                   ["8.8.8.8"; "not an ip"; "256.256.256.256"; "8.8.8.8"]%string
                   O
                 = (Ok [("8.8.8.8"%string, Some "dns.google"%string);
                        ("256.256.256.256"%string, None)], 3%nat))
    by reflexivity.
  destruct (f_220_keys_and_values nat example_resolver Hname
              ["8.8.8.8"; "not an ip"; "256.256.256.256"; "8.8.8.8"]%string O)
    as [Hsafe Hreturns].
  destruct (Hsafe _ _ Hrun) as (_ & Hnodup & Hkeys & Hvalues).
  split; [exact Hrun|]. split; [exact Hnodup|]. split; [exact Hkeys|].
  split; [exact Hvalues|]. exact (Hreturns Hcaught).
Defined.

End F220_Facts.

(** ** Lists and dictionaries *)

Module Py_Facts.
Import Py.

Lemma getitem_middle {A} (a b : list A) (x : A) :
  getitem (a ++ x :: b) (Z.of_nat (List.length a)) = Ok x.
Proof.
  unfold getitem.
  replace (Z.of_nat (List.length a) <? 0) with false
    by (symmetry; apply Z.ltb_ge; lia).
  rewrite Nat2Z.id, nth_error_app2, Nat.sub_diag by lia. cbn [nth_error].
  replace ((0 <=? Z.of_nat (List.length a))
           && (Z.of_nat (List.length a)
               <? Z.of_nat (List.length (a ++ x :: b)))) with true;
    [reflexivity|].
  symmetry. apply andb_true_intro. split.
  - apply Z.leb_le. lia.
  - apply Z.ltb_lt. rewrite length_app. cbn [List.length]. lia.
Qed.

Lemma setitem_middle {A} (a b : list A) (x y : A) :
  setitem (a ++ x :: b) (List.length a) y = Ok (a ++ y :: b).
Proof.
  induction a as [|z a IH]; cbn [app List.length setitem]; [reflexivity|].
  now rewrite IH.
Qed.

Lemma firstn_exact {A} (a b : list A) : firstn (List.length a) (a ++ b) = a.
Proof.
  rewrite firstn_app, firstn_all, Nat.sub_diag. cbn. apply app_nil_r.
Qed.

Lemma firstn_one_more {A} (a b : list A) (x : A) :
  firstn (S (List.length a)) (a ++ x :: b) = a ++ [x].
Proof.
  replace (S (List.length a)) with (List.length (a ++ [x]))
    by (rewrite length_app; cbn; lia).
  replace (a ++ x :: b) with ((a ++ [x]) ++ b) by now rewrite <- app_assoc.
  apply firstn_exact.
Qed.

Lemma keys_app {V} (d1 d2 : dict V) : keys (d1 ++ d2) = keys d1 ++ keys d2.
Proof. apply map_app. Qed.

Lemma dict_get_fresh {V} (d1 d2 : dict V) (k : string) :
  ~ In k (keys d1) -> dict_get (d1 ++ d2) k = dict_get d2 k.
Proof.
  induction d1 as [|[k' v'] d1 IH]; intros Hk; [reflexivity|].
  cbn [app dict_get]. cbn [keys map fst In] in Hk.
  destruct (String.eqb_spec k' k) as [E|_]; [tauto|]. apply IH.
  unfold keys. tauto.
Qed.

Lemma dict_set_fresh {V} (d1 d2 : dict V) (k : string) (v : V) :
  ~ In k (keys d1) -> dict_set (d1 ++ d2) k v = d1 ++ dict_set d2 k v.
Proof.
  induction d1 as [|[k' v'] d1 IH]; intros Hk; [reflexivity|].
  cbn [app dict_set]. cbn [keys map fst In] in Hk.
  destruct (String.eqb_spec k' k) as [E|_]; [tauto|]. rewrite IH; [reflexivity|].
  unfold keys. tauto.
Qed.

Lemma dict_get_head {V} (d : dict V) (k : string) (v : V) :
  dict_get ((k, v) :: d) k = Some v.
Proof. cbn [dict_get]. now rewrite String.eqb_refl. Qed.

Lemma dict_set_head {V} (d : dict V) (k : string) (v v' : V) :
  dict_set ((k, v) :: d) k v' = (k, v') :: d.
Proof. cbn [dict_set]. now rewrite String.eqb_refl. Qed.

(** A comprehension over distinct keys lists them in order. *)
Lemma comprehension_distinct {V} (names : list string) (v : V) (acc : dict V) :
  NoDup names -> (forall t, In t names -> ~ In t (keys acc)) ->
  fold_left (fun d team => dict_set d team v) names acc
  = acc ++ map (fun team => (team, v)) names.
Proof.
  intros Hnd. revert acc.
  induction Hnd as [|t names Ht Hnd IH]; intros acc Hfresh;
    cbn [fold_left map].
  - now rewrite app_nil_r.
  - rewrite <- (app_nil_r acc) at 1.
    rewrite dict_set_fresh by (apply Hfresh; now left).
    cbn [dict_set]. rewrite IH.
    + now rewrite <- app_assoc.
    + intros t' Ht'. rewrite keys_app. cbn [keys map fst].
      rewrite in_app_iff. cbn [In]. intros [Hin|[E|[]]].
      * apply (Hfresh t'); [now right | exact Hin].
      * subst t'. contradiction.
Qed.

(** [range(n)] counts from 0. *)
Lemma range_seq (n : Z) : range n = map Z.of_nat (seq 0 (Z.to_nat n)).
Proof.
  unfold range, arange. rewrite Z.sub_0_r. apply map_ext. intros k. lia.
Qed.

End Py_Facts.

(** ** task_func *)

Module Perf_Facts.
Import Py Py_Facts Random Random_Facts Datetime Datetime_Facts Perf.

Lemma teams_are_strings_spec (teams : pyval) :
  teams_are_strings teams = true <-> list_of_str teams.
Proof.
  split.
  - destruct teams as [| | | |l]; try discriminate. cbn [teams_are_strings].
    intros H. exists (map str_value l). f_equal.
    rewrite map_map. rewrite forallb_forall in H.
    rewrite <- (map_id l) at 1. apply map_ext_in. intros v Hv.
    specialize (H v Hv). destruct v; try discriminate. reflexivity.
  - intros [names ->]. cbn [teams_are_strings]. apply forallb_forall.
    intros v Hv. apply in_map_iff in Hv as (s & <- & _). reflexivity.
Qed.

Lemma team_names_of_strings (names : list string) :
  team_names (VList (map VStr names)) = names.
Proof.
  cbn [team_names]. rewrite map_map. cbn [str_value]. apply map_id.
Qed.

(** The sign of the whole-day difference is the order of the datetimes. *)
Lemma days_sub (a b : datetime) :
  valid a -> valid b ->
  days (sub a b) = (total_us a - total_us b) / 86400000000.
Proof.
  intros (Ha & Hah & Ham & Has & Hau) (Hb & Hbh & Hbm & Hbs & Hbu).
  unfold sub, timedelta_new, total_us, toordinal. cbn [days].
  divmod.
Qed.

Lemma days_sub_negative (a b : datetime) :
  valid a -> valid b ->
  (days (sub a b) <? 0) = (total_us a <? total_us b).
Proof.
  intros Ha Hb. rewrite days_sub by assumption.
  destruct (Z.ltb_spec (total_us a) (total_us b)) as [H|H].
  - apply Z.ltb_lt. divmod.
  - apply Z.ltb_ge. divmod.
Qed.

Section WithGenerator.
Context {G : Generator}.
Variable fromtimestamp : Q -> result datetime.
Variable strftime : datetime -> string -> string.

Lemma drawn_value_good (u : Q) :
  (1 # 10 <= u /\ u <= 1)%Q -> good (Py.add (PInt 0) (PFloat u)).
Proof.
  intros Hu. split; [reflexivity|]. cbn [Py.add num_val].
  rewrite Qred_correct. change (inject_Z 0) with 0%Q. rewrite Qplus_0_l.
  exact Hu.
Qed.

(** One pass over the teams fills in day [i] of every series, drawing once
    per team. *)
Lemma inner_pass (i m : nat) (todo done : dict (list pynum)) (st : state) :
  (forall t, In t (keys todo) -> ~ In t (keys done)) ->
  NoDup (keys todo) ->
  Forall (series_inv i (S m)) todo ->
  exists (todo' : dict (list pynum)) (st' : state),
    for_each (keys todo) (day_body (Z.of_nat i)) (done ++ todo) st
    = (Ok (done ++ todo'), st')
    /\ keys todo' = keys todo
    /\ Forall (series_inv (S i) m) todo'
    /\ clock st' = clock st
    /\ List.length (drawn st')
       = (List.length (drawn st) + List.length todo)%nat.
Proof.
  revert done st.
  induction todo as [|[t series] rest IH]; intros done st Hfresh Hnd Hinv.
  - exists [], st. cbn. repeat split; [constructor | lia].
  - cbn [keys map fst] in Hnd, Hfresh |- *. fold (keys rest) in *.
    apply NoDup_cons_iff in Hnd as [Ht Hnd].
    apply Forall_cons_iff in Hinv as [(goods & Hlen & Hgoods & Hseries) Hinv].
    cbn [snd] in Hseries. cbn [repeat] in Hseries.
    cbn [for_each]. unfold bind at 1. unfold day_body at 1.
    unfold bind at 1. unfold random_uniform at 1.
    pose proof (uniform_range (1 # 10) 1 (rng st) ltac:(discriminate)) as Hu.
    destruct (uniform (1 # 10) 1 (rng st)) as [u r'] eqn:Eu. cbn [fst] in Hu.
    unfold add_at.
    rewrite dict_get_fresh by (apply Hfresh; now left).
    assert (Hget : getitem series (Z.of_nat i) = Ok (PInt 0)).
    { rewrite Hseries, <- Hlen. apply getitem_middle. }
    assert (Hset : forall y, setitem series (Z.to_nat (Z.of_nat i)) y
                             = Ok (goods ++ y :: repeat (PInt 0) m)).
    { intros y. rewrite Nat2Z.id, Hseries, <- Hlen. apply setitem_middle. }
    rewrite dict_get_head, Hget, Hset. unfold ret at 1.
    rewrite dict_set_fresh by (apply Hfresh; now left).
    rewrite dict_set_head.
    set (series' := goods ++ Py.add (PInt 0) (PFloat u) :: repeat (PInt 0) m).
    set (st1 := mkState r' (drawn st ++ [u]) (clock st)).
    destruct (IH (done ++ [(t, series')]) st1) as
      (rest' & st' & Hrun & Hkeys & Hinv' & Hclock & Hdrawn).
    + intros t' Ht'. rewrite keys_app, in_app_iff. cbn [keys map fst In].
      intros [Hin|[E|[]]].
      * apply (Hfresh t'); [now right | exact Hin].
      * subst t'. contradiction.
    + exact Hnd.
    + exact Hinv.
    + exists ((t, series') :: rest'), st'.
      rewrite <- !app_assoc in Hrun. cbn [app] in Hrun.
      split; [exact Hrun|]. split; [|split; [|split]].
      * cbn [keys map fst]. fold (keys rest'). now rewrite Hkeys.
      * constructor; [|exact Hinv'].
        exists (goods ++ [Py.add (PInt 0) (PFloat u)]).
        split; [rewrite length_app; cbn; lia|]. split.
        -- apply Forall_app. split; [exact Hgoods|].
           constructor; [now apply drawn_value_good | constructor].
        -- cbn [snd]. subst series'. now rewrite <- app_assoc.
      * exact Hclock.
      * rewrite Hdrawn. subst st1. cbn [drawn]. rewrite length_app.
        cbn [List.length]. lia.
Qed.

(** The outer loop: [m] more days, starting at day [i]. *)
Lemma outer_pass (names : list string) (m i : nat) (pd : dict (list pynum))
      (st : state) :
  NoDup names -> keys pd = names ->
  Forall (series_inv i m) pd ->
  exists (pd' : dict (list pynum)) (st' : state),
    for_each (map Z.of_nat (seq i m))
             (fun pd d => for_each names (day_body d) pd) pd st
    = (Ok pd', st')
    /\ keys pd' = names
    /\ Forall (series_inv (i + m) 0) pd'
    /\ clock st' = clock st
    /\ List.length (drawn st')
       = (List.length (drawn st) + m * List.length names)%nat.
Proof.
  intros Hnd. revert i pd st. induction m as [|m IH]; intros i pd st Hk Hinv.
  - exists pd, st. cbn [seq map for_each]. rewrite Nat.add_0_r.
    repeat split; [exact Hk | exact Hinv | lia].
  - cbn [seq map for_each]. unfold bind at 1.
    destruct (inner_pass i m pd [] st) as
      (pd1 & st1 & Hrun & Hkeys & Hinv1 & Hclock & Hdrawn);
      [intros ? _ []| now rewrite Hk | exact Hinv |].
    cbn [app] in Hrun. rewrite Hk in Hrun. rewrite Hrun.
    destruct (IH (S i) pd1 st1) as
      (pd' & st' & Hrun' & Hkeys' & Hinv' & Hclock' & Hdrawn');
      [congruence | exact Hinv1 |].
    exists pd', st'. split; [exact Hrun'|].
    split; [exact Hkeys'|]. split; [|split; [congruence|]].
    + now rewrite <- Nat.add_succ_comm.
    + rewrite Hdrawn', Hdrawn.
      assert (List.length pd = List.length names).
      { rewrite <- Hk. unfold keys. now rewrite length_map. }
      lia.
Qed.

(** *** The mapping as a function of the generator *)

(** A drawn value is stored as it is: adding it to the initial int 0 gives
    the same float. *)
Lemma stored_uniform (a b : Q) (g : gstate) :
  Py.add (PInt 0) (PFloat (fst (uniform a b g))) = PFloat (fst (uniform a b g)).
Proof.
  unfold uniform. destruct (random g) as [r g']. cbn [fst Py.add num_val].
  f_equal. apply Qred_complete. rewrite Qred_correct.
  change (inject_Z 0) with 0%Q. apply Qplus_0_l.
Qed.

Lemma uniform_list_length (n : nat) (g : gstate) :
  List.length (fst (uniform_list n g)) = n.
Proof.
  revert g. induction n as [|n IH]; intros g; cbn [uniform_list];
    [reflexivity|].
  destruct (uniform (1 # 10) 1 g) as [u g1]. specialize (IH g1).
  destruct (uniform_list n g1) as [us g2]. cbn [fst List.length] in *.
  now rewrite IH.
Qed.

Lemma draw_rows_shape (days_ width : nat) (g : gstate) :
  List.length (fst (draw_rows days_ width g)) = days_
  /\ Forall (fun row => List.length row = width) (fst (draw_rows days_ width g)).
Proof.
  revert g. induction days_ as [|d IH]; intros g; cbn [draw_rows].
  - split; [reflexivity | constructor].
  - pose proof (uniform_list_length width g) as Hrow.
    destruct (uniform_list width g) as [row g1]. specialize (IH g1).
    destruct (draw_rows d width g1) as [rows g2]. cbn [fst] in *.
    destruct IH as [Hlen Hall]. split; [cbn; now rewrite Hlen|].
    now constructor.
Qed.

Lemma columns_of_length (width : nat) (rows : list (list Q)) :
  Forall (fun row => List.length row = width) rows ->
  List.length (columns_of width rows) = width.
Proof.
  induction 1 as [|row rows Hrow _ IH]; cbn [columns_of].
  - apply repeat_length.
  - rewrite length_map, length_combine, Hrow, IH. apply Nat.min_id.
Qed.

Lemma keys_set_day (i m : nat) (pd : dict (list pynum)) (us : list Q) :
  List.length us = List.length pd ->
  keys (map (set_day i m) (combine pd us)) = keys pd.
Proof.
  revert us. induction pd as [|kv pd IH]; intros [|u us] Hlen;
    try discriminate; [reflexivity|].
  cbn [combine map keys fst set_day]. f_equal. apply IH.
  now injection Hlen.
Qed.

Lemma shaped_set_day (i m : nat) (pd : dict (list pynum)) (us : list Q) :
  Forall (shaped i (S m)) pd ->
  Forall (shaped (S i) m) (map (set_day i m) (combine pd us)).
Proof.
  intros Hpd. revert us. induction Hpd as [|kv pd (pre & Hlen & Hs) _ IH];
    intros [|u us]; cbn [combine map]; try constructor; [|apply IH].
  exists (pre ++ [PFloat u]). split; [rewrite length_app; cbn; lia|].
  cbn [set_day fst snd]. rewrite Hs, <- Hlen, firstn_exact.
  now rewrite <- app_assoc.
Qed.

(** One pass over the teams, with the values it stores. *)
Lemma inner_pass_exact (i m : nat) (todo done : dict (list pynum))
      (st : state) :
  (forall t, In t (keys todo) -> ~ In t (keys done)) ->
  NoDup (keys todo) ->
  Forall (shaped i (S m)) todo ->
  for_each (keys todo) (day_body (Z.of_nat i)) (done ++ todo) st
  = (Ok (done
         ++ map (set_day i m)
                (combine todo
                         (fst (uniform_list (List.length todo) (rng st))))),
     mkState (snd (uniform_list (List.length todo) (rng st)))
             (drawn st ++ fst (uniform_list (List.length todo) (rng st)))
             (clock st)).
Proof.
  revert done st.
  induction todo as [|[t series] rest IH]; intros done st Hfresh Hnd Hshape.
  - cbn. unfold ret. destruct st. now rewrite !app_nil_r.
  - cbn [keys map fst] in Hnd, Hfresh |- *. fold (keys rest) in *.
    apply NoDup_cons_iff in Hnd as [Ht Hnd].
    apply Forall_cons_iff in Hshape as [(pre & Hlen & Hseries) Hshape].
    cbn [snd repeat] in Hseries.
    cbn [for_each List.length uniform_list].
    unfold bind at 1. unfold day_body at 1. unfold bind at 1.
    unfold random_uniform at 1.
    pose proof (stored_uniform (1 # 10) 1 (rng st)) as Hstored.
    destruct (uniform (1 # 10) 1 (rng st)) as [u g1]. cbn [fst] in Hstored.
    unfold add_at.
    rewrite dict_get_fresh by (apply Hfresh; now left).
    assert (Hget : getitem series (Z.of_nat i) = Ok (PInt 0)).
    { rewrite Hseries, <- Hlen. apply getitem_middle. }
    assert (Hset : forall y, setitem series (Z.to_nat (Z.of_nat i)) y
                             = Ok (pre ++ y :: repeat (PInt 0) m)).
    { intros y. rewrite Nat2Z.id, Hseries, <- Hlen. apply setitem_middle. }
    rewrite dict_get_head, Hget, Hset, Hstored. unfold ret at 1.
    rewrite dict_set_fresh by (apply Hfresh; now left).
    rewrite dict_set_head.
    rewrite <- (app_nil_l rest) at 1 2.
    rewrite app_comm_cons, app_assoc.
    rewrite IH; [|
      intros t' Ht'; rewrite keys_app, in_app_iff; cbn [keys map fst In];
      intros [Hin|[E|[]]];
      [apply (Hfresh t'); [now right | exact Hin] | subst t'; contradiction]
      | exact Hnd | exact Hshape].
    cbn [rng drawn clock].
    destruct (uniform_list (List.length rest) g1) as [us g2].
    cbn [fst snd combine map]. unfold set_day at 2. cbn [fst snd].
    rewrite Hseries, <- Hlen, firstn_exact.
    rewrite <- !app_assoc. reflexivity.
Qed.

Lemma set_days_nothing (i : nat) (pd : dict (list pynum)) :
  Forall (shaped i 0) pd ->
  map (set_days i) (combine pd (repeat [] (List.length pd))) = pd.
Proof.
  induction 1 as [|[t series] pd (pre & Hlen & Hs) _ IH];
    cbn [List.length repeat combine map]; [reflexivity|].
  rewrite IH. f_equal. cbn [snd repeat] in Hs.
  unfold set_days. cbn [fst snd map]. rewrite app_nil_r in *.
  now rewrite Hs, <- Hlen, firstn_all.
Qed.

(** Setting one day and then the following days is setting them all. *)
Lemma set_day_then_days (i m : nat) (pd : dict (list pynum)) (row : list Q)
      (cols : list (list Q)) :
  Forall (shaped i (S m)) pd ->
  map (set_days (S i)) (combine (map (set_day i m) (combine pd row)) cols)
  = map (set_days i)
        (combine pd (map (fun uc => fst uc :: snd uc) (combine row cols))).
Proof.
  intros Hpd. revert row cols.
  induction Hpd as [|[t series] pd (pre & Hlen & Hs) _ IH];
    intros [|u row] [|col cols]; cbn [combine map]; try reflexivity.
  rewrite IH. f_equal. cbn [snd] in Hs.
  unfold set_days, set_day. cbn [fst snd map].
  rewrite Hs, <- Hlen, firstn_exact, firstn_one_more, <- app_assoc.
  reflexivity.
Qed.

(** The outer loop, with the values it stores: [m] more days from day
    [i]. *)
Lemma outer_pass_exact (names : list string) (m i : nat)
      (pd : dict (list pynum)) (st : state) :
  NoDup names -> keys pd = names ->
  Forall (shaped i m) pd ->
  for_each (map Z.of_nat (seq i m))
           (fun pd d => for_each names (day_body d) pd) pd st
  = (Ok (map (set_days i)
             (combine pd
                (columns_of (List.length names)
                   (fst (draw_rows m (List.length names) (rng st)))))),
     mkState (snd (draw_rows m (List.length names) (rng st)))
             (drawn st
              ++ List.concat (fst (draw_rows m (List.length names) (rng st))))
             (clock st)).
Proof.
  intros Hnd. revert i pd st.
  induction m as [|m IH]; intros i pd st Hk Hshape.
  - cbn [seq map for_each draw_rows fst snd columns_of List.concat]. unfold ret.
    assert (Hlen : List.length names = List.length pd).
    { rewrite <- Hk. unfold keys. now rewrite length_map. }
    rewrite Hlen, set_days_nothing by exact Hshape.
    destruct st. cbn [rng drawn clock]. now rewrite app_nil_r.
  - cbn [seq map for_each draw_rows]. unfold bind at 1.
    assert (Hlen : List.length pd = List.length names).
    { rewrite <- Hk. unfold keys. now rewrite length_map. }
    pose proof (inner_pass_exact i m pd [] st) as Hinner.
    cbn [app] in Hinner. rewrite Hk, Hlen in Hinner.
    rewrite Hinner; [|intros ? _ [] | exact Hnd | exact Hshape].
    clear Hinner.
    pose proof (uniform_list_length (List.length names) (rng st)) as Hrow.
    destruct (uniform_list (List.length names) (rng st)) as [row g1].
    cbn [fst snd] in *.
    rewrite IH.
    + cbn [rng drawn clock].
      destruct (draw_rows m (List.length names) g1) as [rows g2].
      cbn [fst snd columns_of List.concat].
      rewrite set_day_then_days by exact Hshape.
      now rewrite <- app_assoc.
    + rewrite keys_set_day; [exact Hk | congruence].
    + now apply shaped_set_day.
Qed.

Lemma combine_map_l {A B C} (f : A -> C) (l : list A) (l' : list B) :
  combine (map f l) l' = map (fun ab => (f (fst ab), snd ab)) (combine l l').
Proof.
  revert l'. induction l as [|a l IH]; intros [|b l']; cbn; try reflexivity.
  now rewrite IH.
Qed.

(** The two loops on the initial mapping of distinct names. *)
Lemma fill_exact (names : list string) (days_diff : Z) (st : state) :
  NoDup names -> 0 <= days_diff ->
  fill names days_diff (initial_data names days_diff) st
  = (Ok (expected_data names (Z.to_nat days_diff) (rng st)),
     mkState
       (snd (draw_rows (Z.to_nat days_diff) (List.length names) (rng st)))
       (drawn st
        ++ List.concat (fst (draw_rows (Z.to_nat days_diff) (List.length names)
                                  (rng st))))
       (clock st)).
Proof.
  intros Hnd Hdays. unfold fill, initial_data.
  rewrite comprehension_distinct by (auto; intros ? _ []).
  cbn [app]. rewrite range_seq.
  rewrite (outer_pass_exact names (Z.to_nat days_diff) 0).
  - unfold expected_data. rewrite combine_map_l, map_map. reflexivity.
  - exact Hnd.
  - unfold keys. rewrite map_map. cbn [fst]. apply map_id.
  - apply Forall_forall. intros kv Hkv.
    apply in_map_iff in Hkv as (t & <- & _).
    exists []. split; reflexivity.
Qed.

(** Two columns-with-heads agree only when heads and columns agree. *)
Lemma cons_columns_inj (r1 r2 : list Q) (c1 c2 : list (list Q)) :
  List.length r1 = List.length c1 -> List.length r2 = List.length c2 ->
  map (fun uc => fst uc :: snd uc) (combine r1 c1)
  = map (fun uc => fst uc :: snd uc) (combine r2 c2) ->
  r1 = r2 /\ c1 = c2.
Proof.
  revert r2 c1 c2. induction r1 as [|u1 r1 IH];
    intros [|u2 r2] [|x1 c1] [|x2 c2]; cbn; try discriminate; auto.
  intros [= H1] [= H2] [= -> -> Hrest].
  destruct (IH r2 c1 c2 H1 H2 Hrest) as [-> ->]. auto.
Qed.

Lemma columns_of_inj (width : nat) (rows1 rows2 : list (list Q)) :
  Forall (fun row => List.length row = width) rows1 ->
  Forall (fun row => List.length row = width) rows2 ->
  List.length rows1 = List.length rows2 ->
  columns_of width rows1 = columns_of width rows2 -> rows1 = rows2.
Proof.
  intros H1. revert rows2.
  induction H1 as [|row1 rows1 Hrow1 Hall1 IH];
    intros [|row2 rows2] H2 Hlen; try discriminate; [reflexivity|].
  inversion H2 as [|? ? Hrow2 Hall2]; subst. cbn [columns_of].
  intros Hcols. apply cons_columns_inj in Hcols as [-> Hrest].
  - f_equal. apply IH; [exact Hall2 | now injection Hlen | exact Hrest].
  - now rewrite columns_of_length.
  - now rewrite columns_of_length.
Qed.

Lemma combine_inj_r {A B} (l : list A) (l1 l2 : list B) :
  List.length l1 = List.length l -> List.length l2 = List.length l ->
  combine l l1 = combine l l2 -> l1 = l2.
Proof.
  revert l1 l2. induction l as [|a l IH]; intros [|b1 l1] [|b2 l2];
    cbn; try discriminate; auto.
  intros [= H1] [= H2] [= -> Hrest]. f_equal. now apply IH.
Qed.

(** Two generators give the same mapping exactly when they give the same
    rows of draws. *)
Lemma expected_data_inj (names : list string) (days_ : nat)
      (g1 g2 : gstate) :
  expected_data names days_ g1 = expected_data names days_ g2
  <-> fst (draw_rows days_ (List.length names) g1)
      = fst (draw_rows days_ (List.length names) g2).
Proof.
  unfold expected_data. split; [|now intros ->].
  destruct (draw_rows_shape days_ (List.length names) g1) as [L1 S1].
  destruct (draw_rows_shape days_ (List.length names) g2) as [L2 S2].
  intros H.
  apply (columns_of_inj (List.length names)); [exact S1 | exact S2 | congruence|].
  apply (combine_inj_r names); [now apply columns_of_length ..|].
  revert H.
  generalize (combine names (columns_of (List.length names)
                               (fst (draw_rows days_ (List.length names) g1)))).
  generalize (combine names (columns_of (List.length names)
                               (fst (draw_rows days_ (List.length names) g2)))).
  intros l2 l1. revert l2.
  induction l1 as [|[n1 c1] l1 IH]; intros [|[n2 c2] l2]; cbn;
    try discriminate; [reflexivity|].
  intros [= -> Hc Hrest]. f_equal; [|now apply IH]. f_equal.
  revert c2 Hc. induction c1 as [|x c1 IHc]; intros [|y c2]; cbn;
    try discriminate; [reflexivity|].
  intros [= -> Hc]. f_equal. now apply IHc.
Qed.

(** The function after its two checks have passed. *)
Lemma task_func_accepts (epoch_milliseconds : Z) (names : list string)
      (random_seed : Z) (st : state) (start_time : datetime) :
  fromtimestamp (inject_Z epoch_milliseconds / 1000) = Ok start_time ->
  0 <= days (sub (clock st) start_time) ->
  task_func fromtimestamp strftime epoch_milliseconds
            (VList (map VStr names)) random_seed st
  = let days_diff := days (sub (clock st) start_time) in
    bind (fill names days_diff (initial_data names days_diff))
         (fun performance_data =>
            ret (performance_data,
                 make_figure strftime start_time days_diff performance_data))
         (mkState (seed_state random_seed) (drawn st) (clock st)).
Proof.
  intros Hstart Hdays. unfold task_func. unfold bind at 1.
  unfold random_seed_ at 1.
  replace (teams_are_strings (VList (map VStr names))) with true.
  2:{ symmetry. apply teams_are_strings_spec. now exists names. }
  cbn [negb]. rewrite Hstart. unfold bind at 1. unfold of_result at 1.
  unfold bind at 1. unfold datetime_now at 1.
  cbn [clock]. apply Z.ltb_ge in Hdays. rewrite Hdays.
  now rewrite team_names_of_strings.
Qed.

(** The series the function computes for distinct team names. *)
Lemma fill_distinct (names : list string) (days_diff : Z) (st : state) :
  NoDup names -> 0 <= days_diff ->
  exists (pd : dict (list pynum)) (st' : state),
    fill names days_diff (initial_data names days_diff) st = (Ok pd, st')
    /\ keys pd = names
    /\ Forall (series_inv (Z.to_nat days_diff) 0) pd
    /\ clock st' = clock st
    /\ List.length (drawn st')
       = (List.length (drawn st)
          + Z.to_nat days_diff * List.length names)%nat.
Proof.
  intros Hnd Hdays. unfold fill, initial_data.
  rewrite comprehension_distinct by (auto; intros ? _ []).
  cbn [app]. rewrite range_seq.
  apply (outer_pass names (Z.to_nat days_diff) 0).
  - exact Hnd.
  - unfold keys. rewrite map_map. cbn [fst]. apply map_id.
  - apply Forall_forall. intros kv Hkv.
    apply in_map_iff in Hkv as (t & <- & _).
    exists []. repeat split; constructor.
Qed.

(** The function once the team check has passed and the timestamp has been
    converted. *)
Lemma task_func_converted (epoch_milliseconds : Z) (names : list string)
      (random_seed : Z) (st : state) (start_time : datetime) :
  fromtimestamp (inject_Z epoch_milliseconds / 1000) = Ok start_time ->
  task_func fromtimestamp strftime epoch_milliseconds
            (VList (map VStr names)) random_seed st
  = let days_diff := days (sub (clock st) start_time) in
    let seeded := mkState (seed_state random_seed) (drawn st) (clock st) in
    if days_diff <? 0 then (Raise ValueError, seeded)
    else
      bind (fill names days_diff (initial_data names days_diff))
           (fun performance_data =>
              ret (performance_data,
                   make_figure strftime start_time days_diff
                               performance_data))
           seeded.
Proof.
  intros Hstart. cbv zeta.
  destruct (Z.ltb_spec (days (sub (clock st) start_time)) 0) as [Hneg|Hpos].
  - unfold task_func. unfold bind at 1. unfold random_seed_ at 1.
    replace (teams_are_strings (VList (map VStr names))) with true.
    2:{ symmetry. apply teams_are_strings_spec. now exists names. }
    cbn [negb]. rewrite Hstart. unfold bind at 1. unfold of_result at 1.
    unfold bind at 1. unfold datetime_now at 1.
    cbn [clock]. apply Z.ltb_lt in Hneg. now rewrite Hneg.
  - now apply task_func_accepts.
Qed.

(** *** The result does not depend on the instrumentation *)

Lemma respects_ret {A} (a : A) : respects (ret a).
Proof. intros st1 st2 H. now split. Qed.

Lemma respects_raise {A} (e : exn) : respects (@raise state A e).
Proof. intros st1 st2 H. now split. Qed.

Lemma respects_bind {A B} (m : M state A) (k : A -> M state B) :
  respects m -> (forall a, respects (k a)) -> respects (bind m k).
Proof.
  intros Hm Hk st1 st2 H. unfold bind.
  destruct (Hm st1 st2 H) as [Hres Hst].
  destruct (m st1) as [[a1|e1] s1], (m st2) as [[a2|e2] s2];
    cbn [fst snd] in *; try discriminate.
  - injection Hres as ->. now apply Hk.
  - injection Hres as ->. now split.
Qed.

Lemma respects_for_each {A B} (body : B -> A -> M state B) (l : list A) :
  (forall acc x, respects (body acc x)) ->
  forall acc, respects (for_each l body acc).
Proof.
  intros Hbody. induction l as [|x l IH]; intros acc; cbn [for_each].
  - apply respects_ret.
  - apply respects_bind; [apply Hbody | exact IH].
Qed.

Lemma respects_random_uniform (a b : Q) : respects (random_uniform a b).
Proof.
  intros st1 st2 [Hrng Hclock]. unfold random_uniform. rewrite Hrng.
  destruct (uniform a b (rng st2)) as [x r']. cbn [fst snd].
  split; [reflexivity | now split].
Qed.

Lemma respects_add_at (pd : dict (list pynum)) (team : string) (i : Z)
      (performance : Q) :
  respects (add_at pd team i performance).
Proof.
  unfold add_at. destruct (dict_get pd team) as [series|];
    [|apply respects_raise].
  destruct (getitem series i) as [old|e]; [|apply respects_raise].
  destruct (setitem series (Z.to_nat i) _) as [series'|e];
    [apply respects_ret | apply respects_raise].
Qed.

Lemma respects_fill (names : list string) (days_diff : Z)
      (pd : dict (list pynum)) :
  respects (fill names days_diff pd).
Proof.
  unfold fill. apply respects_for_each. intros acc d.
  apply respects_for_each. intros acc' team.
  apply respects_bind; [apply respects_random_uniform|].
  intros performance. apply respects_add_at.
Qed.

Lemma seed_then_respects {A} (random_seed : Z) (k : M state A)
      (st1 st2 : state) :
  respects k -> clock st1 = clock st2 ->
  fst (bind (random_seed_ random_seed) (fun _ => k) st1)
  = fst (bind (random_seed_ random_seed) (fun _ => k) st2).
Proof.
  intros Hk Hclock. unfold bind, random_seed_. apply Hk. now split.
Qed.

(** After seeding, only the clock of the state the call started in
    matters. *)
Lemma task_func_respects (epoch_milliseconds : Z) (teams : pyval)
      (random_seed : Z) (st1 st2 : state) :
  clock st1 = clock st2 ->
  fst (task_func fromtimestamp strftime epoch_milliseconds teams
                 random_seed st1)
  = fst (task_func fromtimestamp strftime epoch_milliseconds teams
                   random_seed st2).
Proof.
  intros Hclock. unfold task_func.
  apply seed_then_respects; [|exact Hclock].
  destruct (negb (teams_are_strings teams)); [apply respects_raise|].
  apply respects_bind; [intros s1 s2 Hs; now split|]. intros start.
  apply respects_bind.
  - intros s1 s2 [Hr Hc]. unfold datetime_now. cbn [fst snd].
    split; [now rewrite Hc | now split].
  - intros current.
    destruct (days (sub current start) <? 0); [apply respects_raise|].
    apply respects_bind; [apply respects_fill|].
    intros pd. apply respects_ret.
Qed.

(** With no day to fill in, or no team, the loops draw nothing. *)
Lemma fill_nothing (names : list string) (days_diff : Z)
      (pd : dict (list pynum)) (st : state) :
  days_diff <= 0 \/ names = [] ->
  fill names days_diff pd st = (Ok pd, st).
Proof.
  intros [Hdays| ->]; unfold fill; rewrite range_seq.
  - replace (Z.to_nat days_diff) with O by lia. reflexivity.
  - generalize (map Z.of_nat (seq 0 (Z.to_nat days_diff))) as l.
    induction l as [|d l IH]; [reflexivity|].
    cbn [for_each]. unfold bind at 1. cbn [for_each]. unfold ret at 1.
    exact IH.
Qed.

End WithGenerator.





(** C4 (amended). Two runs with the same start timestamp, team list, seed
    and current time return the same mapping and figure, whatever state the
    generator was in before.  For distinct team names the mapping is the table
    of the values [random.uniform(0.1, 1)] yields after seeding, one row per
    day and one column per team, so runs that differ only in the seed return
    the same mapping exactly when the two seeds yield the same values; they
    always do when nothing is drawn (a whole-day difference of 0, or no
    team). *)
Theorem task_func_seed_determines :
  forall (G : Generator) (fromtimestamp : Q -> result datetime)
         (strftime : datetime -> string -> string)
         (epoch_milliseconds : Z) (teams : pyval),
    (forall (random_seed : Z) (st1 st2 : state),
        clock st1 = clock st2 ->
        fst (task_func fromtimestamp strftime epoch_milliseconds teams
                       random_seed st1)
        = fst (task_func fromtimestamp strftime epoch_milliseconds teams
                         random_seed st2))
    /\ (forall (seed1 seed2 : Z) (st : state) (names : list string)
               (start_time : datetime),
           teams = VList (map VStr names) ->
           fromtimestamp (inject_Z epoch_milliseconds / 1000)%Q
           = Ok start_time ->
           days (sub (clock st) start_time) = 0 \/ names = [] ->
           fst (task_func fromtimestamp strftime epoch_milliseconds teams
                          seed1 st)
           = fst (task_func fromtimestamp strftime epoch_milliseconds teams
                            seed2 st))
    /\ (forall (random_seed : Z) (st : state) (names : list string)
               (start_time : datetime),
           teams = VList (map VStr names) ->
           NoDup names ->
           fromtimestamp (inject_Z epoch_milliseconds / 1000)%Q
           = Ok start_time ->
           valid start_time -> valid (clock st) ->
           total_us start_time <= total_us (clock st) ->
           exists (fig : figure) (st' : state),
             task_func fromtimestamp strftime epoch_milliseconds teams
                       random_seed st
             = (Ok (expected_data
                      names (Z.to_nat (days (sub (clock st) start_time)))
                      (seed_state random_seed),
                    fig), st'))
    /\ (forall (names : list string) (days_ : nat) (seed1 seed2 : Z),
           expected_data names days_ (seed_state seed1)
           = expected_data names days_ (seed_state seed2)
           <-> fst (draw_rows days_ (List.length names) (seed_state seed1))
               = fst (draw_rows days_ (List.length names) (seed_state seed2))).
Proof.
  intros G fromtimestamp strftime epoch teams. split; [|split; [|split]].
  - intros seed st1 st2 Hclock. now apply task_func_respects.
  - intros seed1 seed2 st names start -> Hstart Hnothing.
    rewrite !(task_func_converted _ _ _ _ _ _ _ Hstart). cbv zeta.
    destruct (days (sub (clock st) start) <? 0); [reflexivity|].
    unfold bind.
    rewrite !fill_nothing by (destruct Hnothing; [left; lia | now right]).
    reflexivity.
  - intros seed st names start -> Hnd Hstart Hvs Hvc Hpast.
    assert (Hdays : 0 <= days (sub (clock st) start)).
    { rewrite days_sub by assumption. apply Z.div_pos; lia. }
    rewrite (task_func_accepts _ _ _ _ _ _ _ Hstart Hdays). cbv zeta.
    unfold bind. rewrite fill_exact by assumption. cbn [rng].
    unfold ret. eexists _, _. reflexivity.
  - intros names days_ seed1 seed2. apply expected_data_inj.
Qed.

(** C4 at the example clock: with the default teams and a start at midnight
    of the example day (twelve hours back, a whole-day difference of 0) seeds
    0 and 42 agree; with two teams and a start two days back the mapping is
    the table of the seeded generator's values. *)
Lemma task_func_seed_determines_witness :
  fst (task_func (G := lcg) fromtimestamp_utc strftime_iso 1631491200000
                 default_teams 0 example_state)
  = fst (task_func (G := lcg) fromtimestamp_utc strftime_iso 1631491200000
                   default_teams 42 example_state)
  /\ exists (fig : figure) (st' : state),
      task_func (G := lcg) fromtimestamp_utc strftime_iso 1631295600000
                (VList [VStr "A"; VStr "B"]) 7 example_state
      = (Ok (expected_data (G := lcg) ["A"; "B"]%string 2 7, fig), st').
Proof.
  split.
  - apply (proj1 (proj2 (task_func_seed_determines lcg fromtimestamp_utc
                           strftime_iso 1631491200000 default_teams))
                 0 42 example_state
                 ["Team1"; "Team2"; "Team3"; "Team4"; "Team5"]%string
                 (mkDatetime 738046 0 0 0 0)).
    + reflexivity.
    + reflexivity.
    + left. reflexivity.
  - apply (proj1 (proj2 (proj2
             (task_func_seed_determines lcg fromtimestamp_utc strftime_iso
                1631295600000 (VList [VStr "A"; VStr "B"]))))
                 7 example_state ["A"; "B"]%string
                 (mkDatetime 738043 17 40 0 0)).
    + reflexivity.
    + repeat constructor; cbn; intuition discriminate.
    + reflexivity.
    + apply validb_valid. reflexivity.
    + apply validb_valid. reflexivity.
    + discriminate.
Defined.

(** C4 as stated fails when nothing is drawn: with a start twelve hours
    back, seeds 0 and 42 give the same mapping, five empty series. *)
Lemma task_func_seed_unused :
  exists (fig : figure),
    fst (task_func (G := lcg) fromtimestamp_utc strftime_iso 1631491200000
                   default_teams 0 example_state)
    = Ok ([("Team1", []); ("Team2", []); ("Team3", []); ("Team4", []);
           ("Team5", [])]%string, fig)
    /\ fst (task_func (G := lcg) fromtimestamp_utc strftime_iso 1631491200000
                      default_teams 42 example_state)
       = Ok ([("Team1", []); ("Team2", []); ("Team3", []); ("Team4", []);
              ("Team5", [])]%string, fig).
Proof. eexists. split; vm_compute; reflexivity. Qed.

End Perf_Facts.
(** ** f_410 *)

Module F410_Facts.
Import Py Py_Facts Random Random_Facts Datetime F410.

Lemma append_nonempty (a b : string) :
  b <> EmptyString -> (a ++ b)%string <> EmptyString.
Proof. destruct a; cbn; [auto | discriminate]. Qed.

(** A record of two fields or more is not a blank line. *)
Lemma csv_line_nonblank (c1 c2 : cell) (row : list cell) :
  nonblank (csv_line (c1 :: c2 :: row)) = true.
Proof.
  unfold nonblank, csv_line. cbn [map String.concat].
  apply negb_true_iff, String.eqb_neq, append_nonempty. discriminate.
Qed.

Section WithEnvironment.
Context {G : Generator} {F : FileSystem}.
Variable clock_at : nat -> datetime.
Variable strftime : datetime -> string -> string.

(** [randint(0, 50)] is one draw below 51. *)
Lemma random_randint_draw (w : world) :
  random_randint 0 50 w
  = (Ok (fst (next_below 51 (w_rng w))),
     mkWorld (snd (next_below 51 (w_rng w))) (w_ticks w) (w_disk w)
             (w_shown w)).
Proof.
  unfold random_randint, randint. change (0 <? 50 - 0 + 1) with true.
  change (50 - 0 + 1) with 51. cbv iota.
  destruct (next_below 51 (w_rng w)) as [k g]. reflexivity.
Qed.

(** The four counts of a row are four successive draws. *)
Lemma counts_draws (w : world) :
  let d1 := next_below 51 (w_rng w) in
  let d2 := next_below 51 (snd d1) in
  let d3 := next_below 51 (snd d2) in
  let d4 := next_below 51 (snd d3) in
  counts w
  = (Ok [CInt (fst d1); CInt (fst d2); CInt (fst d3); CInt (fst d4)],
     mkWorld (snd d4) (w_ticks w) (w_disk w) (w_shown w)).
Proof.
  cbv zeta. unfold counts, VEHICLE_TYPES. cbn [for_each].
  unfold bind, ret.
  repeat (rewrite random_randint_draw;
          cbv beta iota; cbn [app w_rng w_ticks w_disk w_shown]).
  reflexivity.
Qed.

(** The loop appends the rows read off the clock and the generator, reading
    the clock once per iteration and leaving the disk alone. *)
Lemma generate_loop (l : list Z) (data : list (list cell)) (w : world) :
  for_each l
    (fun data _ =>
       bind (now clock_at) (fun t =>
       bind counts (fun cs =>
       ret (data ++ [CStr (strftime t "%Y-%m-%d %H:%M:%S.%f") :: cs]))))
    data w
  = (Ok (data
         ++ fst (expected_rows clock_at strftime (w_ticks w) (List.length l)
                               (w_rng w))),
     mkWorld (snd (expected_rows clock_at strftime (w_ticks w)
                                 (List.length l) (w_rng w)))
             (w_ticks w + List.length l) (w_disk w) (w_shown w)).
Proof.
  revert data w. induction l as [|x l IH]; intros data w;
    cbn [for_each List.length expected_rows].
  - unfold ret. rewrite app_nil_r, Nat.add_0_r. now destruct w.
  - unfold bind at 1. unfold bind at 1. unfold now at 1.
    unfold bind at 1. rewrite counts_draws. cbv zeta.
    cbn [w_rng w_ticks w_disk w_shown]. unfold ret at 1.
    rewrite IH. cbn [w_rng w_ticks w_disk w_shown].
    destruct (next_below 51 (w_rng w)) as [c1 g1]. cbn [fst snd].
    destruct (next_below 51 g1) as [c2 g2]. cbn [fst snd].
    destruct (next_below 51 g2) as [c3 g3]. cbn [fst snd].
    destruct (next_below 51 g3) as [c4 g4]. cbn [fst snd].
    destruct (expected_rows clock_at strftime (S (w_ticks w))
                            (List.length l) g4) as [rows g'].
    cbn [fst snd]. rewrite <- app_assoc. cbn [app].
    now rewrite Nat.add_succ_r.
Qed.

Lemma expected_rows_length (k n : nat) (g : gstate) :
  List.length (fst (expected_rows clock_at strftime k n g)) = n.
Proof.
  revert k g. induction n as [|n IH]; intros k g; cbn [expected_rows];
    [reflexivity|].
  destruct (next_below 51 g) as [c1 g1].
  destruct (next_below 51 g1) as [c2 g2].
  destruct (next_below 51 g2) as [c3 g3].
  destruct (next_below 51 g3) as [c4 g4].
  specialize (IH (S k) g4).
  destruct (expected_rows clock_at strftime (S k) n g4) as [rows g'].
  cbn [fst List.length] in *. now rewrite IH.
Qed.

(** Every expected row holds a timestamp and four counts from 0 to 50. *)
Lemma expected_rows_in_range (k n : nat) (g : gstate) :
  rows_from clock_at strftime k (fst (expected_rows clock_at strftime k n g)).
Proof.
  revert k g. induction n as [|n IH]; intros k g; cbn [expected_rows];
    [exact I|].
  pose proof (next_below_range 51 g ltac:(lia)) as H1.
  destruct (next_below 51 g) as [c1 g1].
  pose proof (next_below_range 51 g1 ltac:(lia)) as H2.
  destruct (next_below 51 g1) as [c2 g2].
  pose proof (next_below_range 51 g2 ltac:(lia)) as H3.
  destruct (next_below 51 g2) as [c3 g3].
  pose proof (next_below_range 51 g3 ltac:(lia)) as H4.
  destruct (next_below 51 g3) as [c4 g4].
  specialize (IH (S k) g4).
  destruct (expected_rows clock_at strftime (S k) n g4) as [rows g'].
  cbn [fst rows_from] in *. split; [|exact IH].
  exists c1, c2, c3, c4. split; [reflexivity|]. lia.
Qed.

(** Reading back the header and generated rows gives a table with the five
    columns and one row per generated row. *)
Lemma read_back (k : nat) (new : list (list cell)) :
  rows_from clock_at strftime k new ->
  read_records ("Time,Car,Bus,Truck,Bike"%string :: map csv_line new)
  = Ok (mkDataframe ["Time"; "Car"; "Bus"; "Truck"; "Bike"]%string
                    (map (split_commas EmptyString) (map csv_line new))).
Proof.
  intros Hrows. unfold read_records. cbn [filter nonblank String.eqb negb].
  change (nonblank "Time,Car,Bus,Truck,Bike") with true. cbv iota.
  replace (filter nonblank (map csv_line new)) with (map csv_line new);
    [reflexivity|].
  symmetry. apply forallb_filter_id. apply forallb_forall.
  intros line Hline. apply in_map_iff in Hline as (row & <- & Hrow).
  revert k Hrows. induction new as [|r new IH]; intros k Hrows;
    [destruct Hrow|].
  destruct Hrows as [(c1 & c2 & c3 & c4 & -> & _) Hrest].
  destruct Hrow as [<-|Hin]; [apply csv_line_nonblank|].
  now apply (IH Hin (S k)).
Qed.

(** The function after its first two lines, when they raise nothing. *)
Lemma f_410_after_directory (hours : Z) (output_dir : string) (w : world)
      (d1 : disk) :
  directory_step output_dir (w_disk w) = (Ok tt, d1) ->
  let path := path_join output_dir "traffic_data.csv" in
  let generated :=
    expected_rows clock_at strftime (w_ticks w) (Z.to_nat hours) (w_rng w) in
  let records :=
    "Time,Car,Bus,Truck,Bike"%string :: map csv_line (fst generated) in
  f_410 clock_at strftime hours output_dir w
  = match fs_write path records d1 with
    | (Raise e, d2) =>
        (Raise e,
         mkWorld (snd generated) (w_ticks w + Z.to_nat hours) d2 (w_shown w))
    | (Ok _, d2) =>
        let w2 := mkWorld (snd generated) (w_ticks w + Z.to_nat hours) d2
                          (w_shown w) in
        bind (read_csv path)
             (fun df =>
                if empty df then ret (path, None)
                else
                  bind (plot df "Time" VEHICLE_TYPES "Traffic Data Over Time")
                       (fun ax =>
                          bind show
                               (fun _ =>
                                  ret (path,
                                       Some (mkAxes (title ax) (x_column ax)
                                                    (y_columns ax) (points ax)
                                                    "Time" "Vehicle Count")))))
             w2
    end.
Proof.
  intros Hdir path generated records.
  unfold f_410. unfold bind at 1. unfold path_exists at 1.
  unfold bind at 1.
  assert (Hmk : (if negb (fs_exists output_dir (w_disk w))
                 then makedirs output_dir else ret tt) w
                = (Ok tt, mkWorld (w_rng w) (w_ticks w) d1 (w_shown w))).
  { unfold directory_step in Hdir.
    destruct (fs_exists output_dir (w_disk w)); cbn [negb].
    - injection Hdir as <-. unfold ret. now destruct w.
    - unfold makedirs. now rewrite Hdir. }
  rewrite Hmk. unfold bind at 1. unfold generate. rewrite generate_loop.
  cbn [w_rng w_ticks w_disk w_shown].
  rewrite range_seq, length_map, length_seq.
  fold generated. fold path. unfold bind at 1. unfold write_rows at 1.
  cbn [w_rng w_ticks w_disk w_shown].
  change (map csv_line
              ([map CStr ("Time"%string :: VEHICLE_TYPES)] ++ fst generated))
    with records.
  destruct (fs_write path records d1) as [[[]|e] d2]; reflexivity.
Qed.

End WithEnvironment.

(** C5 (amended). For every non-negative hour count, the records [f_410]
    hands to the file at [traffic_data.csv] under the output directory are
    the header [Time,Car,Bus,Truck,Bike] followed by exactly one record per
    hour, each made of the timestamp of one reading of the clock and the next
    four values of [randint(0, 50)], which lie between 0 and 50.  When the
    output directory exists or can be created, the file can be written and is
    read back as written, the call returns the path of the file, with [None]
    for an hour count of 0 and a chart over all the rows otherwise.  When
    the creation of the directory raises, the call raises the same exception
    before anything is generated; when the writing of the file raises, the
    call raises the same exception after the rows have been generated. *)
Theorem f_410_writes_one_row_per_hour :
  forall (G : Generator) (F : FileSystem) (clock_at : nat -> datetime)
         (strftime : datetime -> string -> string)
         (hours : Z) (output_dir : string) (w : world),
    0 <= hours ->
    let path := path_join output_dir "traffic_data.csv" in
    let generated :=
      expected_rows clock_at strftime (w_ticks w) (Z.to_nat hours)
                    (w_rng w) in
    let records :=
      "Time,Car,Bus,Truck,Bike"%string :: map csv_line (fst generated) in
    Z.of_nat (List.length (fst generated)) = hours
    /\ rows_from clock_at strftime (w_ticks w) (fst generated)
    /\ (forall d1 d2 : disk,
           directory_step output_dir (w_disk w) = (Ok tt, d1) ->
           fs_write path records d1 = (Ok tt, d2) ->
           fs_read path d2 = Ok records ->
           exists chart : option axes,
             f_410 clock_at strftime hours output_dir w
             = (Ok (path, chart),
                mkWorld (snd generated) (w_ticks w + Z.to_nat hours) d2
                        (if 0 <? hours then S (w_shown w) else w_shown w))
             /\ (hours = 0 -> chart = None)
             /\ (0 < hours ->
                 exists ax,
                   chart = Some ax
                   /\ points ax = List.length (fst generated)))
    /\ (forall (e : exn) (d1 : disk),
           directory_step output_dir (w_disk w) = (Raise e, d1) ->
           f_410 clock_at strftime hours output_dir w
           = (Raise e, mkWorld (w_rng w) (w_ticks w) d1 (w_shown w)))
    /\ (forall (e : exn) (d1 d2 : disk),
           directory_step output_dir (w_disk w) = (Ok tt, d1) ->
           fs_write path records d1 = (Raise e, d2) ->
           f_410 clock_at strftime hours output_dir w
           = (Raise e,
              mkWorld (snd generated) (w_ticks w + Z.to_nat hours) d2
                      (w_shown w))).
Proof.
  intros G F clock_at strftime hours output_dir w Hhours path generated
         records.
  assert (Hcount : List.length (fst generated) = Z.to_nat hours)
    by apply expected_rows_length.
  pose proof (expected_rows_in_range clock_at strftime (w_ticks w)
                (Z.to_nat hours) (w_rng w)) as Hrows.
  fold generated in Hrows.
  split; [lia|]. split; [exact Hrows|]. split; [|split].
  - intros d1 d2 Hdir Hwrite Hread.
    rewrite (f_410_after_directory clock_at strftime hours output_dir w d1
               Hdir).
    cbv zeta. fold path. fold generated. fold records. rewrite Hwrite.
    unfold bind at 1. unfold read_csv at 1. cbn [w_disk]. rewrite Hread.
    unfold records at 1. rewrite (read_back clock_at strftime _ _ Hrows).
    destruct (fst generated) as [|row new] eqn:Hgen.
    + assert (hours = 0) by (cbn [List.length] in Hcount; lia). subst hours.
      exists None. cbn [empty rows columns map]. unfold ret.
      split; [reflexivity|]. split; [reflexivity|]. intros Hpos. lia.
    + assert (Hpos : 0 < hours) by (cbn [List.length] in Hcount; lia).
      cbn [map empty rows columns].
      unfold bind at 1. unfold plot at 1.
      cbn [forallb existsb columns VEHICLE_TYPES String.eqb Ascii.eqb
                   Bool.eqb orb andb].
      unfold ret at 1. unfold bind at 1. unfold show at 1. unfold ret.
      cbn [w_rng w_ticks w_disk w_shown].
      replace (0 <? hours) with true by (symmetry; apply Z.ltb_lt; lia).
      eexists (Some _). split; [reflexivity|]. split; [lia|].
      intros _. eexists. split; [reflexivity|].
      cbn [points rows List.length]. now rewrite !length_map.
  - intros e d1 Hdir.
    unfold f_410. unfold bind at 1. unfold path_exists at 1.
    unfold bind at 1. unfold directory_step in Hdir.
    destruct (fs_exists output_dir (w_disk w)); [discriminate Hdir|].
    cbn [negb]. unfold makedirs. now rewrite Hdir.
  - intros e d1 d2 Hdir Hwrite.
    rewrite (f_410_after_directory clock_at strftime hours output_dir w d1
               Hdir).
    cbv zeta. fold path. fold generated. fold records. now rewrite Hwrite.
Qed.

(** C5 on the example disk.  Two hours into the default directory of an
    empty disk: the directory is created and the file holds the header and
    the two expected rows.  One hour into [notes.txt], which is a file: the
    row is generated, then the file cannot be opened. *)
Lemma f_410_writes_one_row_per_hour_witness :
  (exists chart : option axes,
      f_410 (G := lcg) (F := example_fs) example_clock strftime_iso 2
            default_output_dir
            (mkWorld (G := lcg) (F := example_fs) 7 0 (mkDisk [] []) 0)
      = (Ok ("./output/traffic_data.csv"%string, chart),
         mkWorld (G := lcg) (F := example_fs)
                 (snd (expected_rows (G := lcg) example_clock strftime_iso
                                     0 2 7))
                 2
                 (mkDisk ["./output"%string]
                         [("./output/traffic_data.csv"%string,
                           "Time,Car,Bus,Truck,Bike"%string
                             :: map csv_line
                                  (fst (expected_rows (G := lcg) example_clock
                                          strftime_iso 0 2 7)))])
                 1)
      /\ (2 = 0 -> chart = None)
      /\ (0 < 2 ->
          exists ax,
            chart = Some ax
            /\ points ax
               = List.length (fst (expected_rows (G := lcg) example_clock
                                     strftime_iso 0 2 7))))
  /\ f_410 (G := lcg) (F := example_fs) example_clock strftime_iso 1
           "notes.txt"
           (mkWorld (G := lcg) (F := example_fs) 7 0
                    (mkDisk [] [("notes.txt"%string, ["a"%string])]) 0)
     = (Raise NotADirectoryError,
        mkWorld (G := lcg) (F := example_fs)
                (snd (expected_rows (G := lcg) example_clock strftime_iso
                                    0 1 7))
                1
                (mkDisk [] [("notes.txt"%string, ["a"%string])]) 0).
Proof.
  split.
  - destruct (f_410_writes_one_row_per_hour lcg example_fs example_clock
                strftime_iso 2 default_output_dir
                (mkWorld (G := lcg) (F := example_fs) 7 0 (mkDisk [] []) 0)
                ltac:(discriminate))
      as (_ & _ & Hrun & _).
    apply (Hrun (mkDisk ["./output"%string] [])
                (mkDisk ["./output"%string]
                        [("./output/traffic_data.csv"%string,
                          "Time,Car,Bus,Truck,Bike"%string
                            :: map csv_line
                                 (fst (expected_rows (G := lcg) example_clock
                                         strftime_iso 0 2 7)))]));
      reflexivity.
  - destruct (f_410_writes_one_row_per_hour lcg example_fs example_clock
                strftime_iso 1 "notes.txt"
                (mkWorld (G := lcg) (F := example_fs) 7 0
                         (mkDisk [] [("notes.txt"%string, ["a"%string])]) 0)
                ltac:(discriminate))
      as (_ & _ & _ & _ & Hwrite).
    apply (Hwrite NotADirectoryError
                  (mkDisk [] [("notes.txt"%string, ["a"%string])])
                  (mkDisk [] [("notes.txt"%string, ["a"%string])]));
      reflexivity.
Defined.

(** C5 as stated fails for the empty output directory: [os.makedirs('')]
    raises [FileNotFoundError], so the call with an hour count of 0 returns
    neither a path nor [None], and no file is written. *)
Lemma f_410_empty_directory_raises :
  f_410 (G := lcg) (F := example_fs) example_clock strftime_iso 0
        EmptyString
        (mkWorld (G := lcg) (F := example_fs) 7 0 (mkDisk [] []) 0)
  = (Raise FileNotFoundError,
     mkWorld (G := lcg) (F := example_fs) 7 0 (mkDisk [] []) 0).
Proof. reflexivity. Qed.

End F410_Facts.
(** ** f_235 *)

Module F235_Facts.
Import Floats F235.

#[local] Open Scope float_scope.

(** After [fillna(0.0)] no entry is NaN. *)
Lemma fill_not_nan (v : float) : is_nan (fill 0 v) = false.
Proof. unfold fill. destruct (is_nan v) eqn:E; [reflexivity | exact E]. Qed.

(** Only NaN compares unequal to itself. *)
Lemma unequal_to_itself (x : float) :
  (x =? x) = false -> Prim2SF x = SpecFloat.S754_nan.
Proof.
  rewrite eqb_spec. unfold SpecFloat.SFeqb.
  destruct (Prim2SF x) as [s|s| |s m e]; cbn; try discriminate;
    try reflexivity.
  all: try (destruct s; discriminate).
  rewrite Z.compare_refl.
  replace (PosDef.Pos.compare_cont Eq m m) with Eq
    by (symmetry; apply Pos.compare_cont_refl).
  destruct s; discriminate.
Qed.

(** The score of a NaN is NaN, whatever the mean and the deviation. *)
Lemma score_of_nan (x m s : float) :
  (x =? x) = false -> is_nan ((x - m) / s) = true.
Proof.
  intros H. apply unequal_to_itself in H. unfold is_nan.
  rewrite eqb_spec, div_spec, sub_spec, H. reflexivity.
Qed.

Lemma map_constant {A B} (b : B) (l : list A) :
  map (fun _ => b) l = repeat b (List.length l).
Proof. induction l as [|x l IH]; [reflexivity|]. cbn. now rewrite IH. Qed.

Section WithReduction.
Variable add_reduce : list float -> float.

Lemma zscore_length (a : list float) :
  List.length (zscore add_reduce a) = List.length a.
Proof.
  destruct a as [|x a]; [reflexivity|]. unfold zscore.
  destruct (isconst (x :: a)); now rewrite ?length_map.
Qed.

(** A constant input is scored NaN throughout, which [fillna] turns into
    zeros. *)
Lemma zscore_isconst (a : list float) :
  isconst a = true ->
  map (fill 0) (zscore add_reduce a) = repeat 0 (List.length a).
Proof.
  intros Hconst. destruct a as [|x a]; [reflexivity|].
  unfold zscore. rewrite Hconst. rewrite !map_map.
  change (fun _ : float => fill 0 nan) with (fun _ : float => 0).
  apply map_constant.
Qed.

(** Any other input is scored entry by entry. *)
Lemma zscore_varying (a : list float) :
  isconst a = false ->
  zscore add_reduce a
  = map (fun v => (v - mean add_reduce a) / std add_reduce a) a.
Proof.
  intros Hvar. destruct a as [|x a]; [discriminate|].
  unfold zscore. now rewrite Hvar.
Qed.

Lemma column_length (matrix : ndarray) (j : nat) :
  List.length (column matrix j) = nrows matrix.
Proof. unfold column. now rewrite length_map, length_seq. Qed.

Lemma nth_map_seq {A} (f : nat -> A) (n j : nat) (d : A) :
  (j < n)%nat -> nth j (map f (seq 0 n)) d = f j.
Proof.
  intros Hj. rewrite (nth_indep _ d (f O))
    by (now rewrite length_map, length_seq).
  now rewrite map_nth, seq_nth.
Qed.

(** Column [j] of the result is the filled score of column [j] of the
    matrix. *)
Lemma f_235_column (matrix : ndarray) (j : nat) :
  (j < ncols matrix)%nat ->
  nth j (data (f_235 add_reduce matrix)) []
  = map (fill 0) (zscore add_reduce (column matrix j)).
Proof.
  intros Hj. unfold f_235, fillna, apply, DataFrame. cbn [data index].
  rewrite !map_map. now rewrite nth_map_seq.
Qed.

End WithReduction.



#[local] Set Warnings "-inexact-float".


End F235_Facts.

(** ** f_220: what is looked up, and what a failure does *)

Module F220_More.
Import Py Py_Facts Regex Regex_Facts F220 F220_Facts Resolvers.

Lemma for_each_app {S A B} (l1 l2 : list A) (body : B -> A -> M S B)
      (acc : B) (s : S) :
  for_each (l1 ++ l2) body acc s
  = bind (for_each l1 body acc) (for_each l2 body) s.
Proof.
  revert acc s. induction l1 as [|x l1 IH]; intros acc s; cbn [app for_each].
  - reflexivity.
  - unfold bind.
    destruct (body acc x s) as [[acc'|e] s1]; [|reflexivity].
    rewrite IH. reflexivity.
Qed.

Lemma dict_get_set_other {V} (d : dict V) (k k' : string) (v : V) :
  k <> k' -> dict_get (dict_set d k v) k' = dict_get d k'.
Proof.
  intros Hne. induction d as [|[k0 v0] d IH]; cbn [dict_set dict_get].
  - destruct (String.eqb_spec k k'); [contradiction | reflexivity].
  - destruct (String.eqb_spec k0 k) as [->|Hk0]; cbn [dict_get].
    + destruct (String.eqb_spec k k'); [contradiction | reflexivity].
    + destruct (String.eqb k0 k'); [reflexivity | exact IH].
Qed.

Lemma dict_get_set {V} (d : dict V) (k : string) (v : V) :
  dict_get (dict_set d k v) k = Some v.
Proof.
  induction d as [|[k0 v0] d IH]; cbn [dict_set dict_get].
  - now rewrite String.eqb_refl.
  - destruct (String.eqb k0 k) eqn:E; cbn [dict_get]; rewrite E; auto.
Qed.

Section WithResolver.
Variable net : Type.
Variable gethostbyaddr : string -> M net hostent.

Lemma for_each_skips (l : list string) (acc : dict (option string))
      (s : net) :
  for_each l (visit net gethostbyaddr) acc s
  = for_each (filter (re_match IP_REGEX) l) (visit net gethostbyaddr) acc s.
Proof.
  revert acc s. induction l as [|ip l IH]; intros acc s; [reflexivity|].
  cbn [filter]. destruct (re_match IP_REGEX ip) eqn:E; cbn [for_each].
  - unfold bind.
    destruct (visit net gethostbyaddr acc ip s) as [[acc'|e] s1];
      [apply IH | reflexivity].
  - unfold bind, visit. rewrite E. unfold ret. apply IH.
Qed.

(** With a resolver whose answer for an address does not depend on its
    state, every value stored is the answer for its key. *)
Lemma for_each_answers (answer : string -> result hostent) (l : list string)
      (acc d : dict (option string)) (s s' : net) :
  (forall ip s, fst (gethostbyaddr ip s) = answer ip) ->
  (forall k v, dict_get acc k = Some v ->
               v = match answer k with
                   | Ok ent => Some (fst (fst ent))
                   | Raise _ => None
                   end) ->
  for_each l (visit net gethostbyaddr) acc s = (Ok d, s') ->
  forall k v, dict_get d k = Some v ->
              v = match answer k with
                  | Ok ent => Some (fst (fst ent))
                  | Raise _ => None
                  end.
Proof.
  intros Hstable. revert acc s.
  induction l as [|ip l IH]; intros acc s Hacc; cbn [for_each].
  - unfold ret. intros [= <- <-]. exact Hacc.
  - unfold bind at 1.
    destruct (visit net gethostbyaddr acc ip s) as [[acc'|e] s1] eqn:Ev;
      [|discriminate].
    apply IH. clear IH. unfold visit in Ev.
    destruct (re_match IP_REGEX ip).
    + unfold try_except, bind, ret in Ev.
      pose proof (Hstable ip s) as Hans.
      destruct (gethostbyaddr ip s) as [[ent|e] s2]; cbn [fst] in Hans.
      * injection Ev as <- <-. intros k v.
        destruct (String.eqb_spec ip k) as [<-|Hne].
        -- rewrite dict_get_set. intros [= <-]. now rewrite <- Hans.
        -- rewrite dict_get_set_other by exact Hne. apply Hacc.
      * destruct (resolution_error e); [|discriminate].
        injection Ev as <- <-. intros k v.
        destruct (String.eqb_spec ip k) as [<-|Hne].
        -- rewrite dict_get_set. intros [= <-]. now rewrite <- Hans.
        -- rewrite dict_get_set_other by exact Hne. apply Hacc.
    + unfold ret in Ev. injection Ev as <- <-. exact Hacc.
Qed.

End WithResolver.

(** X1. A string that does not start with a dotted quad has no effect: it is
    not looked up, and the result and the state of the resolver are those
    of the call on the matching strings alone. *)
Theorem f_220_skips_other_strings :
  forall (net : Type) (gethostbyaddr : string -> M net hostent)
         (ip_addresses : list string) (s : net),
    f_220 net gethostbyaddr ip_addresses s
    = f_220 net gethostbyaddr (filter (re_match IP_REGEX) ip_addresses) s
    /\ (Forall (fun ip => re_match IP_REGEX ip = false) ip_addresses ->
        f_220 net gethostbyaddr ip_addresses s = (Ok [], s)).
Proof.
  intros net gethostbyaddr ips s. split.
  - apply for_each_skips.
  - intros Hnone. unfold f_220. rewrite for_each_skips.
    replace (filter (re_match IP_REGEX) ips) with (@nil string);
      [reflexivity|].
    symmetry. induction Hnone as [|ip l Hip _ IH]; [reflexivity|].
    cbn [filter]. now rewrite Hip.
Qed.

(** X2. Every element of the input that starts with a dotted quad becomes a
    key, whatever the size of its numbers and whatever follows them: the
    pattern does not validate addresses. *)
Theorem f_220_every_dotted_quad_is_a_key :
  forall (net : Type) (gethostbyaddr : string -> M net hostent)
         (ip_addresses : list string) (s s' : net)
         (d : dict (option string)) (ip : string),
    f_220 net gethostbyaddr ip_addresses s = (Ok d, s') ->
    In ip ip_addresses ->
    starts_with_dotted_quad ip ->
    In ip (keys d) /\ exists v, dict_get d ip = Some v.
Proof.
  intros net gethostbyaddr ips s s' d ip Hrun Hin Hquad.
  assert (Hkey : In ip (keys d)).
  { unfold f_220 in Hrun. rewrite (keys_for_each _ _ _ _ _ _ _ Hrun).
    cbn [keys map app].
    rewrite filter_In, in_first_seen, filter_In, re_match_IP_REGEX.
    auto. }
  split; [exact Hkey|].
  clear - Hkey. induction d as [|[k v] d IH]; [destruct Hkey|].
  cbn [dict_get]. destruct (String.eqb_spec k ip) as [_|Hne].
  - now exists v.
  - apply IH. destruct Hkey as [E|Hin]; [contradiction | exact Hin].
Qed.

(** [f_220] at a list with an address out of range and an address with
    text after it: both are keys. *)
Lemma f_220_every_dotted_quad_is_a_key_witness :
  (In "999.999.999.999" ["999.999.999.999"; "1.2.3.4abc"]
   /\ exists v, dict_get [("999.999.999.999", None); ("1.2.3.4abc", None)]
                         "999.999.999.999" = Some (v : option string))%string
  /\ (In "1.2.3.4abc" ["999.999.999.999"; "1.2.3.4abc"]
     /\ exists v, dict_get [("999.999.999.999", None); ("1.2.3.4abc", None)]
                           "1.2.3.4abc" = Some (v : option string))%string.
Proof.
  assert (Hrun : f_220 nat example_resolver
                       ["999.999.999.999"; "1.2.3.4abc"]%string O
                 = (Ok [("999.999.999.999"%string, None);
                        ("1.2.3.4abc"%string, None)], 2%nat))
    by reflexivity.
  split.
  - apply (f_220_every_dotted_quad_is_a_key _ _ _ _ _ _ _ Hrun).
    + now left.
    + apply re_match_IP_REGEX. reflexivity.
  - apply (f_220_every_dotted_quad_is_a_key _ _ _ _ _ _ _ Hrun).
    + right. now left.
    + apply re_match_IP_REGEX. reflexivity.
Defined.

(** X3. An exception of the resolver other than [herror] and [gaierror] is not
    caught: the call raises it at the first address where it occurs, the
    addresses after it are not looked up, and the names found so far are
    lost. *)
Theorem f_220_lets_other_errors_through :
  forall (net : Type) (gethostbyaddr : string -> M net hostent)
         (before after : list string) (ip : string) (s s1 s2 : net)
         (d : dict (option string)) (e : exn),
    f_220 net gethostbyaddr before s = (Ok d, s1) ->
    re_match IP_REGEX ip = true ->
    gethostbyaddr ip s1 = (Raise e, s2) ->
    resolution_error e = false ->
    f_220 net gethostbyaddr (before ++ ip :: after) s = (Raise e, s2).
Proof.
  intros net gethostbyaddr before after ip s s1 s2 d e Hrun Hip Hraise Hnot.
  unfold f_220 in *. rewrite for_each_app. unfold bind at 1. rewrite Hrun.
  cbn [for_each]. unfold bind at 1. unfold visit at 1. rewrite Hip.
  unfold try_except, bind at 1. rewrite Hraise, Hnot. reflexivity.
Qed.

(** After one successful lookup, an address with an empty label makes the
    codec raise [ValueError]: the call raises it after two lookups. *)
Lemma f_220_lets_other_errors_through_witness :
  f_220 nat idna_resolver (["8.8.8.8"%string] ++ "1.2.3.4.."%string :: ["8.8.4.4"%string]) O
  = (Raise ValueError, 2%nat).
Proof.
  apply (f_220_lets_other_errors_through nat idna_resolver
           ["8.8.8.8"]%string ["8.8.4.4"]%string "1.2.3.4.."%string
           O 1%nat 2%nat [("8.8.8.8"%string, Some "dns.google"%string)]
           ValueError); reflexivity.
Defined.

(** X4. An address that comes again is looked up again, and the later answer
    replaces the earlier one: the key keeps its place, the other keys keep
    their values. *)
Theorem f_220_later_lookup_replaces :
  forall (net : Type) (gethostbyaddr : string -> M net hostent)
         (before : list string) (ip : string) (s s1 s2 : net)
         (d : dict (option string)) (r : result hostent),
    f_220 net gethostbyaddr before s = (Ok d, s1) ->
    re_match IP_REGEX ip = true ->
    gethostbyaddr ip s1 = (r, s2) ->
    (forall e, r = Raise e -> resolution_error e = true) ->
    let v := match r with
             | Ok ent => Some (fst (fst ent))
             | Raise _ => None
             end in
    f_220 net gethostbyaddr (before ++ [ip]) s = (Ok (dict_set d ip v), s2)
    /\ dict_get (dict_set d ip v) ip = Some v
    /\ (forall k, k <> ip -> dict_get (dict_set d ip v) k = dict_get d k)
    /\ (In ip (keys d) -> keys (dict_set d ip v) = keys d).
Proof.
  intros net gethostbyaddr before ip s s1 s2 d r Hrun Hip Hlookup Hcaught v.
  split; [|split; [|split]].
  - unfold f_220 in *. rewrite for_each_app. unfold bind at 1. rewrite Hrun.
    cbn [for_each]. unfold bind at 1. unfold visit at 1. rewrite Hip.
    unfold try_except, bind at 1. rewrite Hlookup. subst v.
    destruct r as [ent|e]; [reflexivity|].
    rewrite (Hcaught e eq_refl). reflexivity.
  - apply dict_get_set.
  - intros k Hk. apply dict_get_set_other. congruence.
  - intros Hin. rewrite keys_dict_set.
    destruct (absent (keys d) ip) eqn:E; [|reflexivity].
    apply absent_spec in E. contradiction.
Qed.

(** With a resolver that answers the first lookup only, the second lookup
    of the same address replaces the name by [None]. *)
Lemma f_220_later_lookup_replaces_witness :
  f_220 nat flaky_resolver (["8.8.8.8"%string] ++ ["8.8.8.8"%string]) O
  = (Ok [("8.8.8.8"%string, None)], 2%nat)
  /\ dict_get [("8.8.8.8"%string, @None string)] "8.8.8.8" = Some None.
Proof.
  destruct (f_220_later_lookup_replaces nat flaky_resolver
              ["8.8.8.8"]%string "8.8.8.8"%string O 1%nat 2%nat
              [("8.8.8.8"%string, Some "dns.google"%string)]
              (Raise HostError))
    as (Hrun & Hget & _).
  - reflexivity.
  - reflexivity.
  - reflexivity.
  - now intros e [= <-].
  - split; [exact Hrun | exact Hget].
Defined.

(** X24. With a resolver whose answer for an address does not change during
    the call, every matching element of the input is mapped to the answer
    for it: the host name (the first component of what the resolver returns)
    when the lookup succeeds, [None] when it fails. *)
Theorem f_220_maps_address_to_name :
  forall (net : Type) (gethostbyaddr : string -> M net hostent)
         (answer : string -> result hostent),
    (forall ip s, fst (gethostbyaddr ip s) = answer ip) ->
    forall (ip_addresses : list string) (s s' : net)
           (d : dict (option string)),
      f_220 net gethostbyaddr ip_addresses s = (Ok d, s') ->
      forall ip : string,
        In ip ip_addresses -> re_match IP_REGEX ip = true ->
        dict_get d ip
        = Some match answer ip with
               | Ok ent => Some (fst (fst ent))
               | Raise _ => None
               end.
Proof.
  intros net gethostbyaddr answer Hstable ips s s' d Hrun ip Hin Hip.
  assert (Hkey : In ip (keys d)).
  { unfold f_220 in Hrun. rewrite (keys_for_each _ _ _ _ _ _ _ Hrun).
    cbn [keys map app]. rewrite filter_In, in_first_seen, filter_In. auto. }
  assert (Hsome : exists v, dict_get d ip = Some v).
  { clear - Hkey. induction d as [|[k v] d IH]; [destruct Hkey|].
    cbn [dict_get]. destruct (String.eqb_spec k ip) as [_|Hne].
    - now exists v.
    - apply IH. destruct Hkey as [E|Hk]; [contradiction | exact Hk]. }
  destruct Hsome as (v & Hv). rewrite Hv. f_equal.
  apply (for_each_answers net gethostbyaddr answer ips [] d s s' Hstable);
    [discriminate | exact Hrun | exact Hv].
Qed.

(** The two addresses of the first test with the example resolver, which
    knows the first only. *)
Lemma f_220_maps_address_to_name_witness :
  dict_get [("8.8.8.8"%string, Some "dns.google"%string);
            ("8.8.4.4"%string, None)] "8.8.8.8"
  = Some (Some "dns.google"%string)
  /\ dict_get [("8.8.8.8"%string, Some "dns.google"%string);
               ("8.8.4.4"%string, None)] "8.8.4.4"
     = Some None.
Proof.
  pose (answer := fun ip : string =>
                    if String.eqb ip "8.8.8.8"
                    then Ok ("dns.google"%string, @nil string, [ip])
                    else @Raise hostent HostError).
  assert (Hstable : forall ip s, fst (example_resolver ip s) = answer ip).
  { intros ip s. unfold example_resolver, answer.
    now destruct (String.eqb ip "8.8.8.8"). }
  assert (Hrun : f_220 nat example_resolver ["8.8.8.8"; "8.8.4.4"]%string O
                 = (Ok [("8.8.8.8"%string, Some "dns.google"%string);
                        ("8.8.4.4"%string, None)], 2%nat))
    by reflexivity.
  split.
  - apply (f_220_maps_address_to_name nat example_resolver answer Hstable
             _ _ _ _ Hrun "8.8.8.8"%string); [now left | reflexivity].
  - apply (f_220_maps_address_to_name nat example_resolver answer Hstable
             _ _ _ _ Hrun "8.8.4.4"%string);
      [right; now left | reflexivity].
Defined.

End F220_More.

(** ** f_32: the answer by weekday, its order, its failures *)

Module F32_More.
Import Datetime Datetime_Facts F32 F32_Facts.

(** The answer of the loop and its distance, for every date but the last. *)
Lemma advance_by_weekday (d : datetime) :
  valid d -> ordinal d < MAXORDINAL ->
  exists r : datetime,
    advance 3 d = Returned r
    /\ ordinal r - ordinal d
       = (if weekday d =? 4 then 3 else if weekday d =? 5 then 2 else 1)
    /\ weekday r = (if 4 <=? weekday d then 0 else weekday d + 1).
Proof.
  intros Hv Hlt. exists (shift d (gap (weekday d))).
  split; [now apply advance_three|].
  destruct Hv as ((Hlo & _) & _).
  unfold weekday, toordinal, gap. cbn [shift ordinal].
  destruct (Z.eqb_spec ((ordinal d + 6) mod 7) 4) as [E4|E4].
  - rewrite E4. cbn. split; [lia | divmod].
  - destruct (Z.eqb_spec ((ordinal d + 6) mod 7) 5) as [E5|E5].
    + rewrite E5. cbn. split; [lia | divmod].
    + split; [lia|].
      destruct (Z.leb_spec 4 ((ordinal d + 6) mod 7)); divmod.
Qed.

(** X5. From a Friday the answer is three days later, from a Saturday two, from
    any other day one; it is the following Monday from Friday, Saturday and
    Sunday, and the next weekday otherwise. *)
Theorem f_32_by_weekday :
  forall (parse : string -> result datetime) (date_str : string)
         (d : datetime),
    parse date_str = Ok d -> valid d -> ordinal d < MAXORDINAL ->
    exists r : datetime,
      f_32 parse 3 date_str = Returned r
      /\ ordinal r - ordinal d
         = (if weekday d =? 4 then 3 else if weekday d =? 5 then 2 else 1)
      /\ weekday r = (if 4 <=? weekday d then 0 else weekday d + 1).
Proof.
  intros parse date_str d Hparse Hv Hlt.
  rewrite (returned_of_parse _ _ d) by exact Hparse.
  now apply advance_by_weekday.
Qed.

(** [f_32] on Sunday 2022-10-30 and on Wednesday 2022-11-02, two of the
    repository's tests. *)
Lemma f_32_by_weekday_witness :
  (exists r : datetime,
      f_32 parse_iso 3 "2022-10-30" = Returned r
      /\ ordinal r - ordinal (date 2022 10 30) = 1 /\ weekday r = 0)
  /\ (exists r : datetime,
         f_32 parse_iso 3 "2022-11-02" = Returned r
         /\ ordinal r - ordinal (date 2022 11 2) = 1 /\ weekday r = 3).
Proof.
  split.
  - apply (f_32_by_weekday parse_iso "2022-10-30"%string (date 2022 10 30)).
    + reflexivity.
    + apply validb_valid. reflexivity.
    + reflexivity.
  - apply (f_32_by_weekday parse_iso "2022-11-02"%string (date 2022 11 2)).
    + reflexivity.
    + apply validb_valid. reflexivity.
    + reflexivity.
Defined.

(** X6. A later date never gets an earlier answer; and the answer for the
    earlier date either comes no later than the later date or is the answer
    for both. *)
Theorem f_32_monotone :
  forall (parse : string -> result datetime) (s1 s2 : string)
         (d1 d2 : datetime),
    parse s1 = Ok d1 -> parse s2 = Ok d2 -> valid d1 -> valid d2 ->
    ordinal d1 <= ordinal d2 -> ordinal d2 < MAXORDINAL ->
    exists r1 r2 : datetime,
      f_32 parse 3 s1 = Returned r1
      /\ f_32 parse 3 s2 = Returned r2
      /\ ordinal r1 <= ordinal r2
      /\ (ordinal r1 <= ordinal d2 \/ ordinal r1 = ordinal r2).
Proof.
  intros parse s1 s2 d1 d2 Hp1 Hp2 Hv1 Hv2 Hle Hlt.
  rewrite (returned_of_parse _ _ d1) by exact Hp1.
  rewrite (returned_of_parse _ _ d2) by exact Hp2.
  destruct (advance_by_weekday d1 Hv1 ltac:(lia)) as (r1 & -> & Hg1 & _).
  destruct (advance_by_weekday d2 Hv2 Hlt) as (r2 & -> & Hg2 & _).
  exists r1, r2. split; [reflexivity|]. split; [reflexivity|].
  unfold weekday, toordinal in Hg1, Hg2.
  destruct Hv1 as ((Hlo1 & _) & _).
  destruct (Z.eqb_spec ((ordinal d1 + 6) mod 7) 4) as [A4|A4];
    [|destruct (Z.eqb_spec ((ordinal d1 + 6) mod 7) 5) as [A5|A5]];
    (destruct (Z.eqb_spec ((ordinal d2 + 6) mod 7) 4) as [B4|B4];
     [|destruct (Z.eqb_spec ((ordinal d2 + 6) mod 7) 5) as [B5|B5]]);
    (split; [divmod|]);
    (destruct (Z_le_gt_dec (ordinal r1) (ordinal d2)) as [Hin|Hout];
     [left; exact Hin | right; divmod]).
Qed.

(** Saturday 2022-10-22 and Sunday 2022-10-23 get the same Monday. *)
Lemma f_32_monotone_witness :
  exists r1 r2 : datetime,
    f_32 parse_iso 3 "2022-10-22" = Returned r1
    /\ f_32 parse_iso 3 "2022-10-23" = Returned r2
    /\ ordinal r1 <= ordinal r2
    /\ (ordinal r1 <= ordinal (date 2022 10 23) \/ ordinal r1 = ordinal r2).
Proof.
  apply (f_32_monotone parse_iso "2022-10-22"%string "2022-10-23"%string
                       (date 2022 10 22) (date 2022 10 23)).
  - reflexivity.
  - reflexivity.
  - apply validb_valid. reflexivity.
  - apply validb_valid. reflexivity.
  - discriminate.
  - reflexivity.
Defined.

(** X7. The failures of [f_32], for a parser that returns valid datetimes: it
    raises exactly what the parser raises, and [OverflowError] exactly at
    the last date; the loop raises nothing else. *)
Theorem f_32_raises_iff :
  forall (parse : string -> result datetime),
    (forall s d, parse s = Ok d -> valid d) ->
    forall (date_str : string) (e : exn),
      f_32 parse 3 date_str = Raised e
      <-> parse date_str = Raise e
          \/ (exists d : datetime,
                 parse date_str = Ok d /\ ordinal d = MAXORDINAL
                 /\ e = OverflowError).
Proof.
  intros parse Hvalid date_str e. unfold f_32.
  destruct (parse date_str) as [d|e0] eqn:Hparse.
  - pose proof (Hvalid _ _ Hparse) as Hv.
    destruct (Z.eq_dec (ordinal d) MAXORDINAL) as [Hlast|Hnot].
    + cbn [advance]. rewrite step_overflow by assumption. split.
      * intros [= <-]. right. now exists d.
      * intros [H|(d' & _ & _ & ->)]; [discriminate | reflexivity].
    + assert (Hlt : ordinal d < MAXORDINAL).
      { destruct Hv as ((_ & Hhi) & _). lia. }
      rewrite (advance_three d Hv Hlt). split; [discriminate|].
      intros [H|(d' & [= <-] & Hmax & _)]; [discriminate | contradiction].
  - split.
    + intros [= <-]. now left.
    + intros [[= <-]|(d' & H & _)]; [reflexivity | discriminate].
Qed.

(** A string that names no date makes the parser raise, and [f_32] with
    it; the last date makes the loop raise. *)
Lemma f_32_raises_iff_witness :
  f_32 parse_iso 3 "2022-13-45" = Raised ParserError
  /\ f_32 parse_iso 3 "9999-12-31" = Raised OverflowError.
Proof.
  split.
  - apply (f_32_raises_iff parse_iso parse_iso_valid). left. reflexivity.
  - apply (f_32_raises_iff parse_iso parse_iso_valid). right.
    exists (date 9999 12 31). repeat split.
Defined.

End F32_More.

(** ** f_391: what it reads of its argument *)

Module F391_More.
Import Py Random Random_Facts F391 F391_Facts.

Section WithGenerator.
Context {G : Generator}.
Variable allocate : Z * Z -> result unit.

(** What [f_391] does on two sublists of at least two integers, whatever
    follows. *)
Lemma f_391_long (a b c d : Z) (r0 r1 : list Z) (rest : list (list Z))
      (s : gstate) :
  f_391 allocate ((a :: b :: r0) :: (c :: d :: r1) :: rest) s
  = after_reading allocate a b c d s.
Proof.
  unfold after_reading.
  unfold f_391. unfold bind at 1 2 3 4 5 6.
  rewrite !getitem_first. unfold of_result at 1 2. cbv beta iota.
  rewrite !getitem_second. unfold of_result at 1 2. cbv beta iota.
  rewrite !getitem_first. unfold of_result at 1. cbv beta iota.
  rewrite !getitem_second. unfold of_result at 1. cbv beta iota zeta.
  unfold np_random_randint, RANGE, bind, ret, raise, lift, DataFrame,
    of_result.
  cbn [fst snd]. change (100 <=? 1) with false. cbv iota.
  destruct ((a * b <? 0) || (c * d <? 0)); [reflexivity|].
  destruct (allocate (a * b, c * d)) as [[]|e]; [|reflexivity].
  cbv beta iota.
  destruct (draw_matrix _ _ 1 100 s) as [m s']. reflexivity.
Qed.

Lemma getitem_nil {A} (i : Z) : @getitem A [] i = Raise IndexError.
Proof.
  unfold getitem. cbn [List.length Z.of_nat]. rewrite Z.add_0_r.
  destruct (i <? 0) eqn:E.
  - replace (0 <=? i) with false; [reflexivity|].
    symmetry. apply Z.leb_gt. now apply Z.ltb_lt.
  - replace (i <? 0) with false. now rewrite andb_false_r.
Qed.

Lemma getitem_one {A} (x : A) : getitem [x] 1 = Raise IndexError.
Proof. reflexivity. Qed.

End WithGenerator.

(** X8. An argument with fewer than two sublists, or whose first or second
    sublist has fewer than two integers, raises [IndexError]; nothing is
    drawn. *)
Theorem f_391_short_input_raises :
  forall (G : Generator) (allocate : Z * Z -> result unit)
         (L : list (list Z)) (s : gstate),
    (List.length L < 2)%nat
    \/ (exists r : list Z,
           (nth_error L 0 = Some r \/ nth_error L 1 = Some r)
           /\ (List.length r < 2)%nat) ->
    f_391 allocate L s = (Raise IndexError, s).
Proof.
  intros G allocate L s Hshort. unfold f_391.
  destruct L as [|r0 L'].
  { unfold bind at 1. now rewrite getitem_nil. }
  unfold bind at 1. rewrite getitem_first. unfold of_result at 1.
  destruct r0 as [|a [|b r0]].
  { unfold bind at 1. now rewrite getitem_nil. }
  { unfold bind at 1. rewrite getitem_first. unfold of_result at 1.
    unfold bind at 1. now rewrite getitem_one. }
  unfold bind at 1. rewrite getitem_first. unfold of_result at 1.
  unfold bind at 1. rewrite getitem_second. unfold of_result at 1.
  destruct L' as [|r1 L'].
  { unfold bind at 1. now rewrite getitem_one. }
  unfold bind at 1. rewrite getitem_second. unfold of_result at 1.
  destruct r1 as [|c [|d r1]].
  { unfold bind at 1. now rewrite getitem_nil. }
  { unfold bind at 1. rewrite getitem_first. unfold of_result at 1.
    unfold bind at 1. now rewrite getitem_one. }
  exfalso. destruct Hshort as [Hlen|(r & [Hr|Hr] & Hlen)].
  - cbn [List.length] in Hlen. lia.
  - cbn [nth_error] in Hr. injection Hr as <-. cbn [List.length] in Hlen. lia.
  - cbn [nth_error] in Hr. injection Hr as <-. cbn [List.length] in Hlen. lia.
Qed.

(** One pair only, and a second sublist with one integer. *)
Lemma f_391_short_input_raises_witness :
  f_391 (G := lcg) example_allocate [[2; 3]] 0 = (Raise IndexError, 0)
  /\ f_391 (G := lcg) example_allocate [[2; 3]; [5]] 0
     = (Raise IndexError, 0).
Proof.
  split.
  - apply (f_391_short_input_raises lcg example_allocate [[2; 3]] 0).
    left. cbn. lia.
  - apply (f_391_short_input_raises lcg example_allocate [[2; 3]; [5]] 0).
    right.
    exists [5]. split; [right; reflexivity | cbn; lia].
Defined.

(** X9. Only the first two integers of the first two sublists are read: what
    follows them, in the sublists or in the argument, changes nothing. *)
Theorem f_391_reads_two_pairs :
  forall (G : Generator) (allocate : Z * Z -> result unit)
         (a b c d : Z) (r0 r1 : list Z)
         (rest : list (list Z)) (s : gstate),
    f_391 allocate ((a :: b :: r0) :: (c :: d :: r1) :: rest) s
    = f_391 allocate [[a; b]; [c; d]] s.
Proof.
  intros G allocate a b c d r0 r1 rest s.
  now rewrite f_391_long, f_391_pairs.
Qed.

Section Empty.
Context {G : Generator}.

Lemma draw_matrix_no_column (rows : nat) (low high : Z) (s : gstate) :
  draw_matrix rows 0 low high s = (repeat [] rows, s).
Proof.
  induction rows as [|rows IH]; [reflexivity|].
  cbn [draw_matrix draw_list repeat]. now rewrite IH.
Qed.

End Empty.

(** X22. A factor 0 is no error: when a product is 0, the other is not
    negative and numpy can allocate the shape, the table of the computed
    shape is returned, it holds no value at all, and nothing is drawn. *)
Theorem f_391_zero_factor :
  forall (G : Generator) (allocate : Z * Z -> result unit)
         (a b c d : Z) (s : gstate),
    0 <= a * b -> 0 <= c * d -> a * b = 0 \/ c * d = 0 ->
    allocate (a * b, c * d) = Ok tt ->
    exists df : table,
      f_391 allocate [[a; b]; [c; d]] s = (Ok df, s)
      /\ shape df = (a * b, c * d)
      /\ Z.of_nat (List.length (values df)) = a * b
      /\ List.concat (values df) = [].
Proof.
  intros G allocate a b c d s Hr Hc Hzero Hmem. rewrite f_391_pairs.
  unfold after_reading.
  replace ((a * b <? 0) || (c * d <? 0)) with false.
  2:{ symmetry. apply orb_false_intro; apply Z.ltb_ge; assumption. }
  rewrite Hmem. clear Hmem.
  destruct Hzero as [E|E]; rewrite E in *.
  - cbn [Z.to_nat draw_matrix]. eexists. split; [reflexivity|].
    cbn [shape values List.length List.concat]. auto.
  - cbn [Z.to_nat]. rewrite draw_matrix_no_column.
    eexists. split; [reflexivity|]. cbn [shape values].
    split; [reflexivity|]. split; [rewrite repeat_length; lia|].
    induction (Z.to_nat (a * b)) as [|n IH]; [reflexivity | exact IH].
Qed.

(** No row of six columns, and six rows of no column, on the example
    machine. *)
Lemma f_391_zero_factor_witness :
  (exists df : table,
      f_391 (G := lcg) example_allocate [[0; 3]; [2; 3]] 5 = (Ok df, 5)
      /\ shape df = (0, 6)
      /\ Z.of_nat (List.length (values df)) = 0
      /\ List.concat (values df) = [])
  /\ (exists df : table,
         f_391 (G := lcg) example_allocate [[2; 3]; [0; 1]] 5 = (Ok df, 5)
         /\ shape df = (6, 0)
         /\ Z.of_nat (List.length (values df)) = 6
         /\ List.concat (values df) = []).
Proof.
  split.
  - apply (f_391_zero_factor lcg example_allocate 0 3 2 3 5);
      [discriminate | discriminate | now left | reflexivity].
  - apply (f_391_zero_factor lcg example_allocate 2 3 0 1 5);
      [discriminate | discriminate | now right | reflexivity].
Defined.

End F391_More.

(** ** f_843: lengths in, a closed form out *)

Module F843_More.
Import Py F843 F843_Facts.

Lemma f_843_is_map {A} (list_of_lists : list (list A)) :
  f_843 list_of_lists = map sum_ list_of_lists.
Proof. unfold f_843. now rewrite append_loop_is_map. Qed.

Lemma sum__closed {A} (list_ : list A) :
  let m := Z.of_nat (Nat.min (List.length list_) 10) in
  num_val (sum_ list_) = inject_Z (m * (m + 1) * (2 * m + 1) / 6).
Proof.
  cbv zeta. rewrite sum__spec. unfold spec_sum.
  destruct (List.length list_) as [|n] eqn:E; [reflexivity|].
  cbn [num_val]. f_equal.
  pose proof (sum_squares_closed (Nat.min (S n) 10)) as H.
  rewrite <- H, Z.mul_comm, Z.div_mul by lia. reflexivity.
Qed.

(** X10. The values in the sublists are never read: two arguments whose sublists
    have the same lengths, of whatever type, give the same sums; and the
    sums of a concatenation are the sums of its parts. *)
Theorem f_843_only_lengths :
  forall (A B : Type) (list_of_lists more : list (list A))
         (other : list (list B)),
    (map (@List.length A) list_of_lists = map (@List.length B) other ->
     f_843 list_of_lists = f_843 other)
    /\ f_843 (list_of_lists ++ more) = f_843 list_of_lists ++ f_843 more
    /\ List.length (f_843 list_of_lists) = List.length list_of_lists.
Proof.
  intros A B ll more other. rewrite !f_843_is_map. split; [|split].
  - intros Hlen.
    revert other Hlen. induction ll as [|l ll IH]; intros [|l' other] Hlen;
      try discriminate; [reflexivity|].
    cbn [map] in *. injection Hlen as Hl Hrest.
    rewrite (IH other Hrest). f_equal. unfold sum_. now rewrite Hl.
  - apply map_app.
  - apply length_map.
Qed.

(** Three numbers and two numbers, or three strings and two strings. *)
Lemma f_843_only_lengths_witness :
  f_843 [[1; 2; 3]; [4; 5]] = f_843 [["a"; "b"; "c"]; ["x"; "y"]]%string.
Proof.
  apply (proj1 (f_843_only_lengths Z string [[1; 2; 3]; [4; 5]] []
                  [["a"; "b"; "c"]; ["x"; "y"]]%string)).
  reflexivity.
Defined.

(** X11. Every sum is the closed form of the sum of squares up to the length of
    its sublist, capped at ten: between 0 and 385. *)
Theorem f_843_closed_form :
  forall (A : Type) (list_of_lists : list (list A)),
    map num_val (f_843 list_of_lists)
    = map (fun list_ =>
             let m := Z.of_nat (Nat.min (List.length list_) 10) in
             inject_Z (m * (m + 1) * (2 * m + 1) / 6))
          list_of_lists
    /\ Forall (fun x => (0 <= num_val x /\ num_val x <= 385)%Q)
              (f_843 list_of_lists).
Proof.
  intros A ll. rewrite f_843_is_map. split.
  - rewrite map_map. apply map_ext. intros l. apply sum__closed.
  - apply Forall_forall. intros x Hx. apply in_map_iff in Hx as (l & <- & _).
    rewrite sum__closed. cbv zeta.
    set (m := Z.of_nat (Nat.min (List.length l) 10)).
    assert (Hm : 0 <= m <= 10) by (subst m; lia).
    change 0%Q with (inject_Z 0). change 385%Q with (inject_Z 385).
    rewrite <- !Zle_Qle. split.
    + apply Z.div_pos; nia.
    + apply Z.div_le_upper_bound; nia.
Qed.

End F843_More.

(** ** task_func: repeated team names, the figure, the test checks *)

Module Perf_More.
Import Py Py_Facts Random Random_Facts Datetime Datetime_Facts.
Import F220 F220_Facts F220_More Perf Perf_Facts PerfTests.

Lemma dict_get_in_keys {V} (d : dict V) (k : string) (v : V) :
  dict_get d k = Some v -> In k (keys d).
Proof.
  induction d as [|[k0 v0] d IH]; [discriminate|]. cbn [dict_get keys map fst].
  destruct (String.eqb_spec k0 k) as [->|_]; [now left|].
  intros H. right. now apply IH.
Qed.

Lemma dict_get_of_in {V} (d : dict V) (kv : string * V) :
  NoDup (keys d) -> In kv d -> dict_get d (fst kv) = Some (snd kv).
Proof.
  induction d as [|[k0 v0] d IH]; intros Hnd Hin; [destruct Hin|].
  cbn [keys map fst] in Hnd. apply NoDup_cons_iff in Hnd as [Hk0 Hnd].
  cbn [dict_get]. destruct Hin as [<-|Hin].
  - cbn [fst snd]. now rewrite String.eqb_refl.
  - destruct (String.eqb_spec k0 (fst kv)) as [E|_]; [|now apply IH].
    exfalso. apply Hk0. rewrite E. apply in_map. exact Hin.
Qed.

(** A comprehension [{team: v for team in names}], whatever the names. *)
Lemma comprehension_get {V} (l : list string) (v : V) (acc : dict V)
      (t : string) :
  dict_get (fold_left (fun d team => dict_set d team v) l acc) t
  = if existsb (String.eqb t) l then Some v else dict_get acc t.
Proof.
  revert acc. induction l as [|x l IH]; intros acc; cbn [fold_left existsb];
    [reflexivity|].
  rewrite IH. destruct (existsb (String.eqb t) l); [now rewrite orb_true_r|].
  rewrite orb_false_r. destruct (String.eqb_spec t x) as [->|Hne].
  - apply dict_get_set.
  - apply dict_get_set_other. congruence.
Qed.

Lemma comprehension_keys {V} (l : list string) (v : V) (acc : dict V) :
  keys (fold_left (fun d team => dict_set d team v) l acc)
  = keys acc ++ filter (absent (keys acc)) (first_seen l).
Proof.
  revert acc. induction l as [|x l IH]; intros acc;
    cbn [fold_left first_seen filter].
  - now rewrite app_nil_r.
  - rewrite IH, keys_dict_set, filter_twice.
    destruct (absent (keys acc) x) eqn:Hab.
    + rewrite <- app_assoc. cbn [app]. do 2 f_equal.
      apply filter_ext. intros y. rewrite absent_app. apply andb_comm.
    + f_equal. apply filter_ext_in. intros y _.
      destruct (String.eqb_spec x y) as [<-|Hne]; cbn [negb andb].
      * exact Hab.
      * reflexivity.
Qed.

Lemma inject_Z_succ (k : nat) :
  (inject_Z (Z.of_nat (S k)) == inject_Z (Z.of_nat k) + 1)%Q.
Proof. rewrite Nat2Z.inj_succ. unfold Z.succ. now rewrite inject_Z_plus. Qed.

Lemma partial_next (k : nat) (x : pynum) (u : Q) :
  partial k x -> (1 # 10 <= u /\ u <= 1)%Q ->
  partial (S k) (Py.add x (PFloat u)).
Proof.
  intros Hx Hu. cbn [partial]. destruct k as [|k].
  - cbn [partial] in Hx. subst x. split; [reflexivity|].
    cbn [Py.add num_val]. rewrite Qred_correct.
    change (inject_Z (Z.of_nat 1)) with 1%Q. change (inject_Z 0) with 0%Q.
    Lqa.lra.
  - destruct Hx as (Hfloat & Hlo & Hhi).
    destruct x as [z|q]; [discriminate|]. split; [reflexivity|].
    cbn [Py.add num_val] in *. rewrite Qred_correct.
    rewrite (inject_Z_succ (S k)). Lqa.lra.
Qed.

Lemma count_occ_snoc_same (l : list string) (t : string) :
  count_occ string_dec (l ++ [t]) t = S (count_occ string_dec l t).
Proof.
  rewrite count_occ_app. cbn [count_occ].
  destruct (string_dec t t); [lia | contradiction].
Qed.

Lemma count_occ_snoc_other (l : list string) (t t' : string) :
  t <> t' -> count_occ string_dec (l ++ [t]) t' = count_occ string_dec l t'.
Proof.
  intros Hne. rewrite count_occ_app. cbn [count_occ].
  destruct (string_dec t t'); [contradiction | lia].
Qed.

Section WithGenerator.
Context {G : Generator}.

(** The inner loop over any list of names of the mapping. *)
Lemma inner_any (names : list string) (n i : nat) (todo seen : list string)
      (d : dict (list pynum)) (st : state) :
  (forall t, In t todo -> In t names) ->
  filling names n i seen d ->
  exists (d' : dict (list pynum)) (st' : state),
    for_each todo (day_body (Z.of_nat i)) d st = (Ok d', st')
    /\ filling names n i (seen ++ todo) d'
    /\ keys d' = keys d
    /\ clock st' = clock st
    /\ rng st' = snd (uniform_list (List.length todo) (rng st))
    /\ List.length (drawn st')
       = (List.length (drawn st) + List.length todo)%nat.
Proof.
  revert seen d st.
  induction todo as [|t todo IH]; intros seen d st Hsub Hinv.
  - exists d, st. rewrite app_nil_r. cbn [for_each List.length uniform_list snd].
    repeat split; [exact Hinv | lia].
  - cbn [for_each]. unfold bind at 1. unfold day_body at 1.
    unfold bind at 1. unfold random_uniform at 1.
    pose proof (uniform_range (1 # 10) 1 (rng st) ltac:(discriminate)) as Hu.
    destruct (uniform (1 # 10) 1 (rng st)) as [u r'] eqn:Eu. cbn [fst] in Hu.
    destruct (Hinv t (Hsub t (or_introl eq_refl)))
      as (done & cur & Hget & Hlen & Hdone & Hcur).
    unfold add_at. rewrite Hget.
    assert (Hitem : getitem (done ++ cur :: repeat (PInt 0) (n - S i))
                            (Z.of_nat i) = Ok cur).
    { rewrite <- Hlen. apply getitem_middle. }
    assert (Hset : forall y,
               setitem (done ++ cur :: repeat (PInt 0) (n - S i))
                       (Z.to_nat (Z.of_nat i)) y
               = Ok (done ++ y :: repeat (PInt 0) (n - S i))).
    { intros y. rewrite Nat2Z.id, <- Hlen. apply setitem_middle. }
    rewrite Hitem, Hset. unfold ret at 1.
    set (d1 := dict_set d t
                 (done ++ Py.add cur (PFloat u)
                    :: repeat (PInt 0) (n - S i))).
    set (st1 := mkState r' (drawn st ++ [u]) (clock st)).
    destruct (IH (seen ++ [t]) d1 st1) as
      (d' & st' & Hrun & Hinv' & Hkeys & Hclock & Hrng & Hdrawn).
    + intros t' Ht'. apply Hsub. now right.
    + intros t' Ht'. destruct (string_dec t t') as [<-|Hne].
      * exists done, (Py.add cur (PFloat u)).
        split; [apply dict_get_set|]. split; [exact Hlen|].
        split; [exact Hdone|]. rewrite count_occ_snoc_same.
        now apply partial_next.
      * destruct (Hinv t' Ht') as (done' & cur' & Hget' & Hlen' & Hd' & Hc').
        exists done', cur'. split.
        { subst d1. rewrite dict_get_set_other by exact Hne. exact Hget'. }
        split; [exact Hlen'|]. split; [exact Hd'|].
        now rewrite count_occ_snoc_other.
    + exists d', st'. split; [exact Hrun|]. split.
      { now rewrite <- app_assoc in Hinv'. }
      split; [|split; [|split]].
      * rewrite Hkeys. subst d1. rewrite keys_dict_set.
        destruct (absent (keys d) t) eqn:E; [|reflexivity].
        apply absent_spec in E. exfalso. apply E.
        eapply dict_get_in_keys, Hget.
      * exact Hclock.
      * rewrite Hrng. subst st1. cbn [rng List.length uniform_list].
        rewrite Eu. now destruct (uniform_list (List.length todo) r').
      * rewrite Hdrawn. subst st1. cbn [drawn List.length].
        rewrite length_app. cbn [List.length]. lia.
Qed.

(** The outer loop: [m] more days, starting at day [i]. *)
Lemma outer_any (names : list string) (n m i : nat)
      (d : dict (list pynum)) (st : state) :
  (i + m = n)%nat -> filled names n i d ->
  exists (d' : dict (list pynum)) (st' : state),
    for_each (map Z.of_nat (seq i m))
             (fun pd day => for_each names (day_body day) pd) d st
    = (Ok d', st')
    /\ filled names n n d'
    /\ keys d' = keys d
    /\ clock st' = clock st
    /\ rng st' = snd (draw_rows m (List.length names) (rng st))
    /\ List.length (drawn st')
       = (List.length (drawn st) + m * List.length names)%nat.
Proof.
  revert i d st. induction m as [|m IH]; intros i d st Hn Hinv.
  - exists d, st. cbn [seq map for_each draw_rows snd].
    assert (E : i = n) by lia. subst i.
    repeat split; [exact Hinv | lia].
  - cbn [seq map for_each]. unfold bind at 1.
    destruct (inner_any names n i names [] d st) as
      (d1 & st1 & Hrun & Hinv1 & Hkeys1 & Hclock1 & Hrng1 & Hdrawn1).
    { auto. }
    { intros t Ht. destruct (Hinv t Ht) as (done & Hget & Hlen & Hdone).
      exists done, (PInt 0). split; [|split; [exact Hlen|split]].
      - rewrite Hget. do 2 f_equal.
        replace (n - i)%nat with (S (n - S i)) by lia. reflexivity.
      - exact Hdone.
      - reflexivity. }
    rewrite Hrun. cbn [app] in Hinv1.
    destruct (IH (S i) d1 st1) as
      (d' & st' & Hrun' & Hinv' & Hkeys' & Hclock' & Hrng' & Hdrawn').
    { lia. }
    { intros t Ht. destruct (Hinv1 t Ht) as (done & cur & Hget & Hlen & Hd & Hc).
      exists (done ++ [cur]). split; [|split].
      - rewrite Hget, <- app_assoc. reflexivity.
      - rewrite length_app. cbn [List.length]. lia.
      - apply Forall_app. split; [exact Hd|]. constructor; [|constructor].
        pose proof (proj1 (count_occ_In string_dec names t) Ht) as Hpos.
        destruct (count_occ string_dec names t); [lia | exact Hc]. }
    exists d', st'. split; [exact Hrun'|]. split; [exact Hinv'|].
    split; [congruence|]. split; [congruence|]. split; [|lia].
    rewrite Hrng', Hrng1. cbn [draw_rows].
    destruct (uniform_list (List.length names) (rng st)) as [row g1].
    cbn [snd]. now destruct (draw_rows m (List.length names) g1).
Qed.

(** The two loops on the initial mapping, for any list of names. *)
Lemma fill_any (names : list string) (days_diff : Z) (st : state) :
  0 <= days_diff ->
  exists (pd : dict (list pynum)) (st' : state),
    fill names days_diff (initial_data names days_diff) st = (Ok pd, st')
    /\ keys pd = first_seen names
    /\ (forall t, In t names ->
          exists series : list pynum,
            dict_get pd t = Some series
            /\ Z.of_nat (List.length series) = days_diff
            /\ Forall (summed (count_occ string_dec names t)) series)
    /\ clock st' = clock st
    /\ rng st' = snd (draw_rows (Z.to_nat days_diff) (List.length names)
                                (rng st))
    /\ List.length (drawn st')
       = (List.length (drawn st)
          + Z.to_nat days_diff * List.length names)%nat.
Proof.
  intros Hdays. unfold fill. rewrite range_seq.
  destruct (outer_any names (Z.to_nat days_diff) (Z.to_nat days_diff) 0
              (initial_data names days_diff) st)
    as (pd & st' & Hrun & Hinv & Hkeys & Hclock & Hrng & Hdrawn).
  { reflexivity. }
  { intros t Ht. exists []. rewrite Nat.sub_0_r. cbn [app List.length].
    split; [|split; [reflexivity | constructor]].
    unfold initial_data. rewrite comprehension_get.
    replace (existsb (String.eqb t) names) with true; [reflexivity|].
    symmetry. apply existsb_exists. exists t.
    split; [exact Ht | apply String.eqb_refl]. }
  exists pd, st'. split; [exact Hrun|]. split.
  { rewrite Hkeys. unfold initial_data. rewrite comprehension_keys.
    cbn [keys map app]. apply forallb_filter_id. apply forallb_forall.
    reflexivity. }
  split; [|auto].
  intros t Ht. destruct (Hinv t Ht) as (done & Hget & Hlen & Hdone).
  rewrite Nat.sub_diag in Hget. cbn [repeat] in Hget.
  rewrite app_nil_r in Hget. exists done.
  split; [exact Hget|]. split; [lia | exact Hdone].
Qed.

Variable fromtimestamp : Q -> result datetime.
Variable strftime : datetime -> string -> string.

(** An accepted call, for any list of names. *)
Lemma task_func_any (epoch_milliseconds : Z) (names : list string)
      (random_seed : Z) (st : state) (start_time : datetime) :
  fromtimestamp (inject_Z epoch_milliseconds / 1000) = Ok start_time ->
  valid start_time -> valid (clock st) ->
  total_us start_time <= total_us (clock st) ->
  let days_diff := days (sub (clock st) start_time) in
  exists (data : dict (list pynum)) (st' : state),
    task_func fromtimestamp strftime epoch_milliseconds
              (VList (map VStr names)) random_seed st
    = (Ok (data, make_figure strftime start_time days_diff data), st')
    /\ 0 <= days_diff
    /\ keys data = first_seen names
    /\ (forall t, In t names ->
          exists series : list pynum,
            dict_get data t = Some series
            /\ Z.of_nat (List.length series) = days_diff
            /\ Forall (summed (count_occ string_dec names t)) series)
    /\ rng st' = snd (draw_rows (Z.to_nat days_diff) (List.length names)
                                (seed_state random_seed))
    /\ List.length (drawn st')
       = (List.length (drawn st)
          + Z.to_nat days_diff * List.length names)%nat.
Proof.
  intros Hstart Hvs Hvc Hpast days_diff.
  assert (Hdays : 0 <= days_diff).
  { subst days_diff. rewrite days_sub by assumption. apply Z.div_pos; lia. }
  rewrite (task_func_accepts _ _ _ _ _ _ _ Hstart Hdays). cbv zeta.
  fold days_diff.
  destruct (fill_any names days_diff
              (mkState (seed_state random_seed) (drawn st) (clock st)) Hdays)
    as (pd & st' & Hrun & Hkeys & Hseries & _ & Hrng & Hdrawn).
  exists pd, st'. unfold bind. rewrite Hrun. unfold ret.
  split; [reflexivity|]. split; [exact Hdays|]. split; [exact Hkeys|].
  split; [exact Hseries|]. split; [exact Hrng | exact Hdrawn].
Qed.

End WithGenerator.

Lemma first_seen_distinct (l : list string) : NoDup l -> first_seen l = l.
Proof.
  induction 1 as [|x l Hx Hnd IH]; cbn [first_seen]; [reflexivity|].
  rewrite IH. f_equal. apply forallb_filter_id. apply forallb_forall.
  intros y Hy. destruct (String.eqb_spec x y) as [->|_]; [contradiction|].
  reflexivity.
Qed.

Lemma summed_once (x : pynum) : summed 1 x -> good x.
Proof.
  intros (Hfloat & Hlo & Hhi). split; [exact Hfloat|].
  change (inject_Z (Z.of_nat 1)) with 1%Q in Hlo, Hhi. Lqa.lra.
Qed.





(** X13. For every accepted call the figure passes the check of the test class
    (y label "Performance", x label starting with "Days since"); it has one
    line per key of the mapping, labelled with the team, over the days
    [0 .. days_diff - 1] with as many y values as x values; and its legend
    is on. *)
Theorem task_func_figure_passes_check :
  forall (G : Generator) (fromtimestamp : Q -> result datetime)
         (strftime : datetime -> string -> string)
         (epoch_milliseconds : Z) (names : list string) (random_seed : Z)
         (st : state) (start_time : datetime),
    fromtimestamp (inject_Z epoch_milliseconds / 1000)%Q = Ok start_time ->
    valid start_time -> valid (clock st) ->
    total_us start_time <= total_us (clock st) ->
    exists (data : dict (list pynum)) (fig : figure) (st' : state),
      task_func fromtimestamp strftime epoch_milliseconds
                (VList (map VStr names)) random_seed st
      = (Ok (data, fig), st')
      /\ check_plot fig = true
      /\ map snd (plotted fig) = first_seen names
      /\ Forall (fun line =>
                   fst (fst line) = range (days (sub (clock st) start_time))
                   /\ dict_get data (snd line) = Some (snd (fst line))
                   /\ List.length (fst (fst line))
                      = List.length (snd (fst line)))
                (plotted fig)
      /\ legend fig = true.
Proof.
  intros G fromtimestamp strftime epoch names seed st start
         Hstart Hvs Hvc Hpast.
  destruct (task_func_any fromtimestamp strftime epoch names seed st start
              Hstart Hvs Hvc Hpast)
    as (data & st' & Hrun & Hdays & Hkeys & Hseries & _).
  exists data, (make_figure strftime start (days (sub (clock st) start)) data),
    st'.
  split; [exact Hrun|]. split; [reflexivity|]. split.
  { cbn [make_figure plotted]. rewrite map_map. cbn [snd]. exact Hkeys. }
  split; [|reflexivity].
  cbn [make_figure plotted]. apply Forall_forall. intros line Hline.
  apply in_map_iff in Hline as (kv & <- & Hkv). cbn [fst snd].
  assert (Hnd : NoDup (keys data)) by (rewrite Hkeys; apply NoDup_first_seen).
  pose proof (dict_get_of_in data kv Hnd Hkv) as Hget.
  split; [reflexivity|]. split; [exact Hget|].
  assert (Hin : In (fst kv) names).
  { apply in_first_seen. rewrite <- Hkeys. apply in_map. exact Hkv. }
  destruct (Hseries _ Hin) as (series & Hget' & Hlen & _).
  rewrite Hget in Hget'. injection Hget' as <-.
  rewrite range_seq, length_map, length_seq. lia.
Qed.

(** The figure of a call with the default teams and a start two days back. *)
Lemma task_func_figure_passes_check_witness :
  exists (data : dict (list pynum)) (fig : figure) (st' : state),
    task_func (G := lcg) fromtimestamp_utc strftime_iso 1631295600000
              (VList (map VStr ["Team1"; "Team2"; "Team3"; "Team4"; "Team5"]
                          %string)) 0 example_state
    = (Ok (data, fig), st')
    /\ check_plot fig = true
    /\ map snd (plotted fig)
       = ["Team1"; "Team2"; "Team3"; "Team4"; "Team5"]%string
    /\ Forall (fun line =>
                 fst (fst line) = [0; 1]
                 /\ dict_get data (snd line) = Some (snd (fst line))
                 /\ List.length (fst (fst line))
                    = List.length (snd (fst line)))
              (plotted fig)
    /\ legend fig = true.
Proof.
  apply (task_func_figure_passes_check lcg fromtimestamp_utc strftime_iso
           1631295600000 ["Team1"; "Team2"; "Team3"; "Team4"; "Team5"]%string
           0 example_state (mkDatetime 738043 17 40 0 0)).
  - reflexivity.
  - apply validb_valid. reflexivity.
  - apply validb_valid. reflexivity.
  - discriminate.
Defined.

(** X14. For every accepted call with distinct team names, the mapping passes the
    data check of the test class against any list of valid teams that holds
    the names: every key is a valid team and every performance is a float
    with [0.1 <= performance <= 1]. *)
Theorem task_func_passes_data_check :
  forall (G : Generator) (fromtimestamp : Q -> result datetime)
         (strftime : datetime -> string -> string)
         (epoch_milliseconds : Z) (names valid_teams : list string)
         (random_seed : Z) (st : state) (start_time : datetime),
    NoDup names -> incl names valid_teams ->
    fromtimestamp (inject_Z epoch_milliseconds / 1000)%Q = Ok start_time ->
    valid start_time -> valid (clock st) ->
    total_us start_time <= total_us (clock st) ->
    exists (data : dict (list pynum)) (fig : figure) (st' : state),
      task_func fromtimestamp strftime epoch_milliseconds
                (VList (map VStr names)) random_seed st
      = (Ok (data, fig), st')
      /\ check_valid_performance_data data valid_teams = true.
Proof.
  intros G fromtimestamp strftime epoch names valid_teams seed st start
         Hnd Hincl Hstart Hvs Hvc Hpast.
  destruct (task_func_any fromtimestamp strftime epoch names seed st start
              Hstart Hvs Hvc Hpast)
    as (data & st' & Hrun & Hdays & Hkeys & Hseries & _).
  exists data, (make_figure strftime start (days (sub (clock st) start)) data),
    st'.
  split; [exact Hrun|]. unfold check_valid_performance_data.
  apply andb_true_intro. split.
  - apply forallb_forall. intros team Hteam. apply existsb_exists.
    exists team. split; [|apply String.eqb_refl].
    apply Hincl, in_first_seen. now rewrite <- Hkeys.
  - apply forallb_forall. intros kv Hkv.
    assert (Hnk : NoDup (keys data)) by (rewrite Hkeys; apply NoDup_first_seen).
    pose proof (dict_get_of_in data kv Hnk Hkv) as Hget.
    assert (Hin : In (fst kv) names).
    { apply in_first_seen. rewrite <- Hkeys. apply in_map. exact Hkv. }
    destruct (Hseries _ Hin) as (series & Hget' & _ & Hsum).
    rewrite Hget in Hget'. injection Hget' as <-.
    rewrite (proj1 (NoDup_count_occ' string_dec names) Hnd _ Hin) in Hsum.
    apply forallb_forall. intros x Hx.
    rewrite Forall_forall in Hsum. destruct (Hsum x Hx) as (Hf & Hlo & Hhi).
    rewrite Hf, andb_true_r. apply andb_true_intro.
    split; apply Qle_bool_iff; [|exact Hhi].
    change (inject_Z (Z.of_nat 1)) with 1%Q in Hlo. Lqa.lra.
Qed.

(** The custom teams of the fourth test, with the example clock. *)
Lemma task_func_passes_data_check_witness :
  exists (data : dict (list pynum)) (fig : figure) (st' : state),
    task_func (G := lcg) fromtimestamp_utc strftime_iso 1631295600000
              (VList (map VStr ["c d e"; "F"; "GH"; "ij kl"]%string)) 42
              example_state
    = (Ok (data, fig), st')
    /\ check_valid_performance_data
         data ["c d e"; "F"; "GH"; "ij kl"]%string = true.
Proof.
  apply (task_func_passes_data_check lcg fromtimestamp_utc strftime_iso
           1631295600000 ["c d e"; "F"; "GH"; "ij kl"]%string
           ["c d e"; "F"; "GH"; "ij kl"]%string 42 example_state
           (mkDatetime 738043 17 40 0 0)).
  - repeat constructor; cbn; intuition discriminate.
  - apply incl_refl.
  - reflexivity.
  - apply validb_valid. reflexivity.
  - apply validb_valid. reflexivity.
  - discriminate.
Defined.

End Perf_More.
(** ** f_410: hour counts that are not positive *)

Module F410_More.
Import Py Py_Facts Random Random_Facts Datetime F410 F410_Facts.

(** X15. A hour count that is zero or negative is no error: the loop does not
    run, the records written are the header alone, no plot is made or shown,
    the clock is not read and nothing is drawn.  (As for every call, the
    output directory has to exist or be created, and the file has to be
    written and read back.) *)
Theorem f_410_without_hours :
  forall (G : Generator) (F : FileSystem) (clock_at : nat -> datetime)
         (strftime : datetime -> string -> string)
         (hours : Z) (output_dir : string) (w : world) (d1 d2 : disk),
    let path := path_join output_dir "traffic_data.csv" in
    hours <= 0 ->
    directory_step output_dir (w_disk w) = (Ok tt, d1) ->
    fs_write path ["Time,Car,Bus,Truck,Bike"%string] d1 = (Ok tt, d2) ->
    fs_read path d2 = Ok ["Time,Car,Bus,Truck,Bike"%string] ->
    f_410 clock_at strftime hours output_dir w
    = (Ok (path, None), mkWorld (w_rng w) (w_ticks w) d2 (w_shown w)).
Proof.
  intros G F clock_at strftime hours output_dir w d1 d2 path Hhours Hdir
         Hwrite Hread.
  rewrite (f_410_after_directory clock_at strftime hours output_dir w d1
             Hdir).
  cbv zeta. fold path. replace (Z.to_nat hours) with O by lia.
  cbn [expected_rows fst snd map]. rewrite Hwrite.
  unfold bind at 1. unfold read_csv at 1. cbn [w_disk]. rewrite Hread.
  rewrite Nat.add_0_r. reflexivity.
Qed.

(** Minus three hours into a directory that is there already. *)
Lemma f_410_without_hours_witness :
  f_410 (G := lcg) (F := example_fs) example_clock strftime_iso (-3)
        default_output_dir
        (mkWorld (G := lcg) (F := example_fs) 7 0
                 (mkDisk ["./output"%string] []) 0)
  = (Ok ("./output/traffic_data.csv"%string, None),
     mkWorld (G := lcg) (F := example_fs) 7 0
             (mkDisk ["./output"%string]
                     [("./output/traffic_data.csv"%string,
                       ["Time,Car,Bus,Truck,Bike"%string])])
             0).
Proof.
  apply (f_410_without_hours lcg example_fs example_clock strftime_iso (-3)
           default_output_dir
           (mkWorld (G := lcg) (F := example_fs) 7 0
                    (mkDisk ["./output"%string] []) 0)
           (mkDisk ["./output"%string] [])).
  - discriminate.
  - reflexivity.
  - reflexivity.
  - reflexivity.
Defined.

End F410_More.
(** ** f_235: equal rows *)

Module F235_More.
Import Floats F235 F235_Facts.

#[local] Open Scope float_scope.

Section WithReduction.
Variable add_reduce : list float -> float.

(** A column that repeats one value, NaN included, is normalised to zeros. *)
Lemma zscore_of_repeated (x : float) (a : list float) :
  (forall v, In v a -> v = x) ->
  map (fill 0) (zscore add_reduce a) = repeat 0 (List.length a).
Proof.
  intros Hall. destruct (x =? x) eqn:Hx.
  - apply zscore_isconst. destruct a as [|y a]; [reflexivity|].
    cbn [isconst]. apply forallb_forall. intros v Hv.
    rewrite (Hall y (or_introl eq_refl)), (Hall v Hv). exact Hx.
  - destruct a as [|y a]; [reflexivity|].
    rewrite zscore_varying.
    2:{ cbn [isconst forallb].
        rewrite (Hall y (or_introl eq_refl)), Hx. reflexivity. }
    rewrite map_map, <- map_constant. apply map_ext_in. intros v Hv.
    rewrite (Hall v Hv). unfold fill. now rewrite score_of_nan.
Qed.

End WithReduction.

(** X19. A matrix whose rows are all equal, a matrix of one row among them, is
    normalised to zeros. *)
Theorem f_235_equal_rows_give_zeros :
  forall (add_reduce : list float -> float) (matrix : ndarray),
    (forall i i' j : nat,
        (i < nrows matrix)%nat -> (i' < nrows matrix)%nat ->
        (j < ncols matrix)%nat ->
        entry matrix i j = entry matrix i' j) ->
    data (f_235 add_reduce matrix)
    = repeat (repeat 0 (nrows matrix)) (ncols matrix).
Proof.
  intros add_reduce matrix Hrows. unfold f_235, fillna, apply, DataFrame.
  cbn [data index]. rewrite !map_map.
  assert (Hcols : forall n k,
             (k + n <= ncols matrix)%nat ->
             map (fun j => map (fill 0) (zscore add_reduce (column matrix j)))
                 (seq k n)
             = repeat (repeat 0 (nrows matrix)) n).
  { induction n as [|n IH]; intros k Hk; [reflexivity|].
    cbn [seq map repeat]. rewrite IH by lia. f_equal.
    rewrite (zscore_of_repeated add_reduce (entry matrix 0 k)).
    - now rewrite column_length.
    - intros v Hv. unfold column in Hv.
      apply in_map_iff in Hv as (i & <- & Hi). apply in_seq in Hi.
      apply Hrows; lia. }
  apply Hcols. lia.
Qed.

(** The one-row matrix [[5, 7, 9]]. *)
Lemma f_235_equal_rows_give_zeros_witness :
  data (f_235 sum_in_order (array_of_rows 1 3 [[5; 7; 9]]))
  = [[0]; [0]; [0]].
Proof.
  apply (f_235_equal_rows_give_zeros sum_in_order
           (array_of_rows 1 3 [[5; 7; 9]])).
  intros i i' j Hi Hi' _. cbn [nrows array_of_rows] in Hi, Hi'.
  replace i with O by lia. replace i' with O by lia. reflexivity.
Defined.

End F235_More.
(** ** f_446 *)

Module F446_Facts.
Import Py Floats F446.

Lemma on_current_last (change : figure -> figure) (figs : list figure)
      (f : figure) (n : nat) :
  on_current change (mkPyplot (figs ++ [f]) n)
  = mkPyplot (figs ++ [change f]) n.
Proof.
  unfold on_current. cbn [figures shown]. rewrite rev_app_distr.
  cbn [rev app]. now rewrite rev_involutive.
Qed.

Lemma nth_map_within {A B} (f : A -> B) (l : list A) (i : nat) (a : A)
      (b : B) :
  (i < List.length l)%nat -> nth i (map f l) b = f (nth i l a).
Proof.
  revert i. induction l as [|x l IH]; intros [|i] Hi; cbn in *;
    try lia; [reflexivity|]. apply IH. lia.
Qed.

(** A check that holds of every index below [n]. *)
Lemma checked_below (check : nat -> bool) (n : nat) :
  forallb check (seq 0 n) = true ->
  forall i : nat, (i < n)%nat -> check i = true.
Proof.
  intros Hall i Hi. rewrite forallb_forall in Hall. apply Hall.
  apply in_seq. lia.
Qed.

Lemma linspace_length (start stop : float) (num : nat) :
  List.length (linspace start stop num) = num.
Proof.
  unfold linspace.
  set (y := map (fun v => (v + start)%float) _).
  assert (Hy : List.length y = num).
  { subst y. destruct (0 <? Z.of_nat num - 1)%Z;
      [destruct (_ =? 0)%float|];
      now rewrite !length_map, length_seq. }
  destruct (1 <? Z.of_nat num)%Z; [|exact Hy].
  unfold set_last. destruct y as [|v y]; [exact Hy|].
  rewrite length_app, length_firstn. cbn [List.length] in *. lia.
Qed.

Lemma X_length : List.length X = 400%nat.
Proof. apply linspace_length. Qed.

Lemma Y_length : List.length Y = 400%nat.
Proof. unfold Y. rewrite length_map. apply X_length. Qed.

Lemma Y_nth (i : nat) :
  (i < 400)%nat -> nth i Y 0%float = (nth i X 0 * nth i X 0)%float.
Proof.
  intros Hi. unfold Y.
  now rewrite (nth_map_within _ _ _ 0%float) by (now rewrite X_length).
Qed.

(** The whole call: one new figure after the existing ones. *)
Lemma f_446_run (p : pyplot) :
  f_446 p
  = (Ok tt,
     mkPyplot (figures p ++ [mkFigure [(X, Y)] "y = x^2" "x" "y" true])
              (S (shown p))).
Proof.
  unfold f_446. unfold bind at 1. unfold plt_figure at 1.
  unfold bind at 1. unfold plt_plot at 1.
  rewrite X_length, Y_length. cbn [Nat.eqb].
  change (400 =? 400)%nat with true. cbv iota.
  rewrite on_current_last.
  unfold bind at 1. unfold plt_title at 1. rewrite on_current_last.
  unfold bind at 1. unfold plt_xlabel at 1. rewrite on_current_last.
  unfold bind at 1. unfold plt_ylabel at 1. rewrite on_current_last.
  unfold bind at 1. unfold plt_grid at 1. rewrite on_current_last.
  unfold plt_show. reflexivity.
Qed.

(** The samples, checked one by one: the abscissas increase, and no square
    is 0 or above 100. *)
Lemma X_increases :
  forallb (fun i => (nth i X 0 <? nth (S i) X 0)%float) (seq 0 399) = true.
Proof. vm_compute. reflexivity. Qed.

Lemma Y_in_range :
  forallb (fun i => (0 <? nth i Y 0)%float && (nth i Y 0 <=? 100)%float)
          (seq 0 400)
  = true.
Proof. vm_compute. reflexivity. Qed.

(** X20. Whatever figures exist already, a call returns [None], leaves them as
    they are, adds one figure after them (the new current figure) that holds
    one line, the title [y = x^2], the labels [x] and [y] and a grid, and
    calls [plt.show()] once; [plt.plot] is given as many y values as x
    values and does not raise. *)
Theorem f_446_adds_one_figure :
  forall p : pyplot,
    exists (xs ys : list float) (fig : figure),
      f_446 p = (Ok tt, mkPyplot (figures p ++ [fig]) (S (shown p)))
      /\ lines fig = [(xs, ys)]
      /\ List.length xs = List.length ys
      /\ title fig = "y = x^2"%string
      /\ xlabel fig = "x"%string
      /\ ylabel fig = "y"%string
      /\ grid fig = true.
Proof.
  intros p. exists X, Y, (mkFigure [(X, Y)] "y = x^2" "x" "y" true).
  split; [apply f_446_run|]. cbn [lines title xlabel ylabel grid].
  rewrite X_length, Y_length. repeat split.
Qed.

(** X21. The line a call plots, in binary64: 400 points; the abscissas
    increase from exactly -10 to exactly 10; every ordinate is the rounded
    square of its abscissa, is positive (no abscissa is 0: the vertex of the
    parabola is not among the samples) and is at most 100, the value at both
    ends. *)
Theorem f_446_curve :
  forall p : pyplot,
    exists (xs ys : list float) (fig : figure),
      figures (snd (f_446 p)) = figures p ++ [fig]
      /\ lines fig = [(xs, ys)]
      /\ List.length xs = 400%nat
      /\ List.length ys = 400%nat
      /\ nth 0 xs 0%float = (-10)%float
      /\ nth 399 xs 0%float = 10%float
      /\ nth 0 ys 0%float = 100%float
      /\ nth 399 ys 0%float = 100%float
      /\ (forall i : nat,
             (i < 399)%nat -> (nth i xs 0 <? nth (S i) xs 0)%float = true)
      /\ (forall i : nat,
             (i < 400)%nat ->
             nth i ys 0%float = (nth i xs 0 * nth i xs 0)%float
             /\ (0 <? nth i ys 0)%float = true
             /\ (nth i ys 0 <=? 100)%float = true).
Proof.
  intros p. exists X, Y, (mkFigure [(X, Y)] "y = x^2" "x" "y" true).
  rewrite f_446_run. cbn [snd figures lines].
  split; [reflexivity|]. split; [reflexivity|].
  split; [apply X_length|]. split; [apply Y_length|].
  split; [vm_compute; reflexivity|]. split; [vm_compute; reflexivity|].
  split; [vm_compute; reflexivity|]. split; [vm_compute; reflexivity|].
  split.
  - exact (checked_below _ _ X_increases).
  - intros i Hi. split; [now apply Y_nth|].
    apply andb_prop. exact (checked_below _ _ Y_in_range i Hi).
Qed.

End F446_Facts.
